(** * TypingGeneAuth-Demo: login-telemetry scoring pipeline

    A shallow embedding of [typing-parser.js] (the [TypingParser] object),
    [automation-detector.js] (the [AutomationDetector] object) and the older
    stand-alone [TypingAnalyzer] object, together with the properties their
    specification states about them and further properties of the code: the
    pattern format, invariants of the summaries, edge cases of the detectors,
    the verdicts in terms of the scores, and the report.

    Modelling conventions.
    - Numbers.  The telemetry is integer valued (milliseconds, pixel
      coordinates, counters), so numeric inputs are [Z].  JavaScript
      arithmetic on them is read over the exact numbers: quotients are
      rationals ([Q]), and the few irrational intermediate values (square
      roots, arc cosines) are either read over the reals ([R], in the
      trajectory geometry) or never materialised: [Math.round(Math.sqrt v)]
      is computed from [v] with the integer square root.  The sources
      compute on binary64 doubles, and the two readings differ: an integer
      above 2^53 is not always a double, a rounded quotient or square root
      can fall on the other side of a rounding tie or of a threshold, and a
      square can overflow.  The statistics and the trajectory geometry are
      therefore modelled a second time on doubles (module [Binary64], on
      primitive floats, with what [Math.acos] returns left to the engine),
      as are the confidence formula (module [Double]) and the ratio of
      synthetic key events.  A property of the exact reading is stated for
      all inputs only where the doubles give the same result; elsewhere it
      is stated on ordinary inputs (module [Ordinary]: bounded samples of
      bounded integers) and up to the rounding error of the doubles, and
      the inputs on which the doubles depart from it are exhibited on
      [Binary64].
    - Objects.  A JavaScript object is a record; a property that may be
      absent ([undefined]/[null]) is an [option].  A comparison with an absent
      or [NaN] operand is [false], as in JavaScript.
    - Strings are [string], the sequence of the bytes of the UTF-8 form
      (no source function depends on the length of a string or on a
      character outside ASCII, white space apart); template literals are
      concatenations. *)

From Stdlib Require Import ZArith QArith Qround Qabs List String Ascii Bool.
From Stdlib Require Import Lia Lra DecimalString.
From Stdlib Require Import Reals Qreals.
From Stdlib Require Floats Uint63.
From Stdlib Require DecimalZ DecimalPos DecimalN.
Import ListNotations.

Local Open Scope Z_scope.

(* ================================================================== *)
(** * JavaScript primitives used by the sources *)
(* ================================================================== *)

Module JS.

(** [Math.round x] on a rational: the nearest integer, ties towards
    +infinity, that is [floor (x + 1/2)]. *)
Definition Math_round (x : Q) : Z := Qfloor (x + (1 # 2)).

(** [Math.round x] on a real. *)
Definition Math_roundR (x : R) : Z := Int_part (x + / 2)%R.

(** [Math.round(Math.sqrt v)] for a rational [v >= 0]: the integer [k] with
    [k - 1/2 <= sqrt v < k + 1/2], that is [(2k-1)^2 <= 4v < (2k+1)^2]. *)
Definition Math_round_sqrt (v : Q) : Z :=
  (Z.sqrt (Qfloor (4 * v)) + 1) / 2.

(** [Math.round(a / Math.sqrt v)] for rationals [a] and [v > 0].  For
    [a >= 0] the quotient is [s = sqrt (a^2/v)].  For [a < 0] it is [- s],
    and [floor (1/2 - s) = - ceil (s - 1/2)], where
    [ceil (s - 1/2) = ceil ((ceil (2 s) - 1) / 2) = floor (ceil (2 s) / 2)]
    and [ceil (2 s)] is the least [r >= 0] with [4 a^2/v <= r^2]. *)
Definition Math_round_div_sqrt (a v : Q) : Z :=
  let y := (a * a / v)%Q in
  if Qle_bool 0 a then Math_round_sqrt y
  else - (Z.sqrt_up (Qceiling (4 * y)) / 2).

(** [Math.round(x * 100) / 100]. *)
Definition round2 (x : Q) : Q := (inject_Z (Math_round (x * 100)) / 100)%Q.

(** [a < b] on rationals as a boolean. *)
Definition Qltb (a b : Q) : bool := negb (Qle_bool b a).

(** [a.reduce((x, y) => x + y, 0)]. *)
Definition sum (l : list Z) : Z := fold_left Z.add l 0.
Definition sumQ (l : list Q) : Q := fold_left Qplus l 0%Q.

(** [Math.min(...arr)] and [Math.max(...arr)] on a non-empty array (the
    sources call them on non-empty arrays only; the empty case, Infinity in
    JavaScript, is given as 0 to keep the functions total). *)
Definition Math_min (l : list Z) : Z :=
  match l with [] => 0 | x :: r => fold_left Z.min r x end.
Definition Math_max (l : list Z) : Z :=
  match l with [] => 0 | x :: r => fold_left Z.max r x end.

(** [s.split(sep)] for a one-character separator. *)
Fixpoint split (sep : ascii) (s : string) : list string :=
  match s with
  | EmptyString => [EmptyString]
  | String c r =>
      if Ascii.eqb c sep then EmptyString :: split sep r
      else match split sep r with
           | hd :: tl => String c hd :: tl
           | [] => [String c EmptyString]
           end
  end.

(** White space skipped by [parseInt]: the ASCII white space and line
    terminators (TAB, LF, VT, FF, CR, SP), and the others in their UTF-8
    form, of two bytes (U+00A0) or three (U+1680, U+2000 to U+200A, U+2028,
    U+2029, U+202F, U+205F, U+3000, U+FEFF). *)
Definition is_space (c : ascii) : bool :=
  let n := nat_of_ascii c in
  (n =? 32)%nat || ((9 <=? n)%nat && (n <=? 13)%nat).

Definition is_space2 (c d : ascii) : bool :=
  ((nat_of_ascii c =? 194) && (nat_of_ascii d =? 160))%nat.

Definition is_space3 (c d e : ascii) : bool :=
  let '(a, b, n) := (nat_of_ascii c, nat_of_ascii d, nat_of_ascii e) in
  ((a =? 225) && (b =? 154) && (n =? 128))%nat
  || ((a =? 226) && (b =? 128)
      && (((128 <=? n) && (n <=? 138)) || (n =? 168) || (n =? 169) || (n =? 175)))%nat
  || ((a =? 226) && (b =? 129) && (n =? 159))%nat
  || ((a =? 227) && (b =? 128) && (n =? 128))%nat
  || ((a =? 239) && (b =? 187) && (n =? 191))%nat.

Fixpoint trim_start (s : string) : string :=
  match s with
  | EmptyString => s
  | String c r =>
      if is_space c then trim_start r
      else
        match r with
        | String d r1 =>
            if is_space2 c d then trim_start r1
            else
              match r1 with
              | String e r2 => if is_space3 c d e then trim_start r2 else s
              | EmptyString => s
              end
        | EmptyString => s
        end
  end.

Definition dec_digit (c : ascii) : option Z :=
  let n := Z.of_nat (nat_of_ascii c) in
  if (48 <=? n) && (n <=? 57) then Some (n - 48) else None.

Definition hex_digit (c : ascii) : option Z :=
  let n := Z.of_nat (nat_of_ascii c) in
  if (48 <=? n) && (n <=? 57) then Some (n - 48)
  else if (97 <=? n) && (n <=? 102) then Some (n - 87)
  else if (65 <=? n) && (n <=? 70) then Some (n - 55)
  else None.

(** The longest prefix of digits in the radix, as a number; [None] ([NaN])
    when there is no digit. *)
Fixpoint digits (radix : Z) (digit : ascii -> option Z) (s : string)
         (acc : option Z) : option Z :=
  match s with
  | String c r =>
      match digit c with
      | Some d =>
          digits radix digit r
                 (Some (radix * (match acc with Some a => a | None => 0 end) + d))
      | None => acc
      end
  | EmptyString => acc
  end.

(** [parseInt(s)] without a radix argument: leading white space, an
    optional sign, an optional [0x]/[0X] prefix that selects radix 16, then
    the longest run of digits.  [None] is [NaN].  The value is the integer
    the digits denote; the source has the double nearest to it, which is
    the same number up to 2^53 ([Ordinary.safe]). *)
Definition parseInt (s : string) : option Z :=
  let s1 := trim_start s in
  let '(neg, s2) :=
    match s1 with
    | String "-"%char r => (true, r)
    | String "+"%char r => (false, r)
    | _ => (false, s1)
    end in
  let m :=
    match s2 with
    | String "0"%char (String x r) =>
        if Ascii.eqb x "x"%char || Ascii.eqb x "X"%char
        then digits 16 hex_digit r None
        else digits 10 dec_digit s2 None
    | _ => digits 10 dec_digit s2 None
    end in
  option_map (fun v => if neg : bool then - v else v) m.

(** [parseInt(parts[i]) || 0]: a missing part stringifies to ["undefined"],
    which has no digits; [NaN] and 0 are both falsy. *)
Definition parseInt_or_0 (part : option string) : Z :=
  match part with
  | Some s => match parseInt s with Some v => v | None => 0 end
  | None => 0
  end.

(** Number to string, for integers up to 2^53 in absolute value (of a
    larger double JavaScript prints the shortest decimal that reads back as
    that double, and an exponent from 10^21 on). *)
Definition show (z : Z) : string := NilZero.string_of_int (Z.to_int z).

(** The double nearest to an integer (ties to even; the integer itself up
    to 2^53, infinite from 2^1024 on), and the rational a finite double
    denotes. *)
Definition double (z : Z) : PrimFloat.float :=
  FloatOps.SF2Prim
    (SpecFloat.binary_normalize FloatOps.prec FloatOps.emax z 0 false).

Definition rational (f : PrimFloat.float) : Q :=
  match FloatOps.Prim2SF f with
  | SpecFloat.S754_finite sign m e =>
      let v := if (0 <=? e)%Z then inject_Z (Z.pos m * 2 ^ e)
               else Z.pos m # Pos.pow 2 (Z.to_pos (- e)) in
      if sign then Qopp v else v
  | _ => 0%Q
  end.

(** [Math.round(x)] in a template literal, for a double [x]: [-0] prints
    as [0]. *)
Definition show_round (x : PrimFloat.float) : string :=
  match FloatOps.Prim2SF x with
  | SpecFloat.S754_zero _ => "0"%string
  | SpecFloat.S754_finite _ _ _ => show (Math_round (rational x))
  | SpecFloat.S754_infinity sign =>
      if sign then "-Infinity"%string else "Infinity"%string
  | SpecFloat.S754_nan => "NaN"%string
  end.

(** The double 0.3: the quotient of 3 by 10, rounded. *)
Definition threeTenths : PrimFloat.float := PrimFloat.div (double 3) (double 10).

(** Number to string for a value [k/100] (what [round2] returns): the
    shortest decimal, so no trailing zero in the fraction, and [-0] prints
    as [0]. *)
Definition show2 (q : Q) : string :=
  let k := Qfloor (q * 100) in
  let a := Z.abs k in
  let i := a / 100 in
  let f := a mod 100 in
  let body :=
    if f =? 0 then show i
    else if f mod 10 =? 0 then (show i ++ "." ++ show (f / 10))%string
    else if f <? 10 then (show i ++ ".0" ++ show f)%string
    else (show i ++ "." ++ show f)%string in
  if k <? 0 then ("-" ++ body)%string else body.

(** [x > c], [x < c] with [x] possibly [undefined]. *)
Definition gt (x : option Z) (c : Z) : bool :=
  match x with Some v => c <? v | None => false end.
Definition lt (x : option Z) (c : Z) : bool :=
  match x with Some v => v <? c | None => false end.

(** [x || 0] and [x || y || 0] on optional numbers (0 is falsy). *)
Definition or0 (x : option Z) : Z :=
  match x with Some v => v | None => 0 end.
Definition or_else (x : option Z) (y : Z) : Z :=
  match x with Some v => if v =? 0 then y else v | None => y end.

(** [/[A-Z]/.test(s)]. *)
Definition isUpper (c : ascii) : bool :=
  let n := nat_of_ascii c in ((65 <=? n) && (n <=? 90))%nat.
Definition testUpperCase (s : string) : bool :=
  existsb isUpper (list_ascii_of_string s).

(** The test of the regular expression with the character class of the
    shifted punctuation; the double quote is character 34. *)
Definition specialChars : list ascii :=
  ascii_of_nat 34 :: list_ascii_of_string "!@#$%^&*()_+-=[]{};':\|,.<>/?`~".
Definition isSpecial (c : ascii) : bool := existsb (Ascii.eqb c) specialChars.
Definition testSpecialChar (s : string) : bool :=
  existsb isSpecial (list_ascii_of_string s).

End JS.

(* ================================================================== *)
(** * typing-parser.js: [TypingParser] *)
(* ================================================================== *)

(** One decoded segment of a pattern. *)
Module Keystroke.
Record t := mk { seekTime : Z; pressTime : Z }.
End Keystroke.

(** What [calcStats] returns. *)
Module FieldStats.
Record t := mk { avg : Z; min : Z; max : Z; std : Z; range : Z }.
Definition zero : t := mk 0 0 0 0 0.
End FieldStats.

Module Raw.
Record t := mk { seekTimes : list Z; pressTimes : list Z }.
End Raw.

(** What [parsePattern] returns when it does not return [null]. *)
Module Pattern.
Record t := mk {
  keystrokeCount : Z;
  seekTime : FieldStats.t;
  pressTime : FieldStats.t;
  longPauses : Z;
  keystrokes : list Keystroke.t;
  raw : Raw.t
}.
End Pattern.

(** What [analyzeDistribution] returns: [{valid: false}],
    [{valid: true, isUniform: true}] or the full summary.  The two-decimal
    values are rationals [k/100]. *)
Module Distribution.
Record t := mk {
  valid : bool;
  isUniform : option bool;
  mean : option Z;
  std : option Z;
  skewness : option Q;
  kurtosis : option Q;
  roundNumberRatio : option Q;
  maxConsecutiveSimilar : option Z;
  range : option Z;
  cv : option Q
}.
Definition invalid : t :=
  mk false None None None None None None None None None.
Definition uniform : t :=
  mk true (Some true) None None None None None None None None.
End Distribution.

(** A trajectory point [{x, y, t?}]. *)
Module Point.
Record t := mk { x : Z; y : Z; t_ : option Z }.
End Point.

(** The [trajectory] property of a request.  [sample] and [captured] are read
    by [AutomationDetector]; [points] and [distancePx] by [TypingAnalyzer]. *)
Module Trajectory.
Record t := mk {
  sample : option (list Point.t);
  captured : bool;
  points : option Z;
  distancePx : option Z
}.
End Trajectory.

(** What [analyzeTrajectory] returns. *)
Module TrajectoryAnalysis.
Record t := mk {
  valid : bool;
  points : Z;
  distance : Z;
  smoothRatio : option Q;
  correctionRatio : option Q;
  intervalStats : option Distribution.t
}.
Definition invalid : t := mk false 0 0 None None None.
End TrajectoryAnalysis.

Module TypingParser.

(** [parsePattern]: the map over [segments.slice(1)]. *)
Definition parseSegment (seg : string) : Keystroke.t :=
  let parts := JS.split ","%char seg in
  Keystroke.mk (JS.parseInt_or_0 (nth_error parts 0))
               (JS.parseInt_or_0 (nth_error parts 1)).

(** [calcStats(arr)], over the exact numbers: [avg] and [std] are the
    roundings of the exact mean and of the exact standard deviation.  The
    doubles of the source give [Binary64.avgOf] and [Binary64.stdOf]: the
    same [avg] on ordinary values, and a [std] that is off by one where the
    standard deviation is close to a half-integer. *)
Definition calcStats (arr : list Z) : FieldStats.t :=
  match arr with
  | [] => FieldStats.zero
  | _ =>
      let n := inject_Z (Z.of_nat (List.length arr)) in
      let avg := (inject_Z (JS.sum arr) / n)%Q in
      let min := JS.Math_min arr in
      let max := JS.Math_max arr in
      let std :=
        if (1 <? List.length arr)%nat
        then JS.Math_round_sqrt
               (JS.sumQ (map (fun t => (inject_Z t - avg) ^ 2) arr) / n)%Q
        else 0 in
      FieldStats.mk (JS.Math_round avg) min max std (max - min)
  end.

(** [parsePattern(patternStr)]; [None] is [null]. *)
Definition parsePattern (patternStr : option string) : option Pattern.t :=
  match patternStr with
  | None | Some EmptyString => None
  | Some s =>
      let segments := JS.split "|"%char s in
      if (List.length segments <? 2)%nat then None
      else
        let keystrokes := map parseSegment (tl segments) in
        let seekTimes :=
          filter (fun t => 0 <? t) (map Keystroke.seekTime keystrokes) in
        let pressTimes :=
          filter (fun t => 0 <? t) (map Keystroke.pressTime keystrokes) in
        let seekStats := calcStats seekTimes in
        let pressStats := calcStats pressTimes in
        let longPauses :=
          Z.of_nat (List.length (filter (fun t => 500 <? t) seekTimes)) in
        Some (Pattern.mk (Z.of_nat (List.length keystrokes)) seekStats pressStats
                         longPauses keystrokes
                         (Raw.mk seekTimes pressTimes))
  end.

(** The loop of [analyzeDistribution] that finds the longest run of
    consecutive values less than 10 apart: [prev] is [values[i-1]], the
    result is [maxConsecutiveSimilar]. *)
Fixpoint similarLoop (prev : Z) (rest : list Z)
         (maxConsecutiveSimilar currentStreak : Z) : Z :=
  match rest with
  | [] => maxConsecutiveSimilar
  | v :: rest' =>
      if Z.abs (v - prev) <? 10
      then similarLoop v rest'
                       (Z.max maxConsecutiveSimilar (currentStreak + 1))
                       (currentStreak + 1)
      else similarLoop v rest' maxConsecutiveSimilar 1
  end.

(** [analyzeDistribution(values)], over the exact numbers: a ratio is the
    rounding to two decimals of the exact quotient, where the doubles of
    the source can give the next hundredth, and the variance of identical
    values is 0, where the doubles leave a remainder once the sum of the
    values passes 2^53 ([Binary64.stdIsZero]).  [std] is
    [Math.sqrt(variance)], so [std === 0] is [variance = 0]; the skewness [sum ((v-mean)/std)^3 / n]
    is [(m3 / variance) / std] with [m3] the third central moment, the
    kurtosis [m4 / variance^2 - 3], and [cv = std / mean] is
    [sqrt (variance / mean^2)] for [mean > 0]. *)
Definition analyzeDistribution (values : list Z) : Distribution.t :=
  if (List.length values <? 4)%nat then Distribution.invalid
  else
    let n := inject_Z (Z.of_nat (List.length values)) in
    let mean := (inject_Z (JS.sum values) / n)%Q in
    let variance :=
      (JS.sumQ (map (fun v => (inject_Z v - mean) ^ 2) values) / n)%Q in
    if Qeq_bool variance 0 then Distribution.uniform
    else
      let m3 :=
        (JS.sumQ (map (fun v => (inject_Z v - mean) ^ 3) values) / n)%Q in
      let m4 :=
        (JS.sumQ (map (fun v => (inject_Z v - mean) ^ 4) values) / n)%Q in
      let kurtosis := (m4 / (variance * variance) - 3)%Q in
      let roundNumbers :=
        Z.of_nat (List.length (filter (fun v => Z.rem v 10 =? 0) values)) in
      let roundNumberRatio := (inject_Z roundNumbers / n)%Q in
      let maxConsecutiveSimilar :=
        match values with
        | v0 :: rest => similarLoop v0 rest 1 1
        | [] => 1
        end in
      Distribution.mk
        true None
        (Some (JS.Math_round mean))
        (Some (JS.Math_round_sqrt variance))
        (Some (inject_Z (JS.Math_round_div_sqrt (100 * m3 / variance)
                                                variance) / 100)%Q)
        (Some (JS.round2 kurtosis))
        (Some (JS.round2 roundNumberRatio))
        (Some maxConsecutiveSimilar)
        (Some (JS.Math_max values - JS.Math_min values))
        (Some (if JS.Qltb 0 mean
               then (inject_Z (JS.Math_round_sqrt
                                 (10000 * variance / (mean * mean))) / 100)%Q
               else JS.round2 0)).

(** The same on an array with [NaN] elements ([None]), which
    [analyzeTrajectory] produces when a later point has no timestamp: the
    moments, the range and their roundings are [NaN] (absent here), a
    comparison with [NaN] fails, and [cv] takes the [mean > 0] false
    branch. *)
Fixpoint similarLoopNaN (prev : option Z) (rest : list (option Z))
         (maxConsecutiveSimilar currentStreak : Z) : Z :=
  match rest with
  | [] => maxConsecutiveSimilar
  | v :: rest' =>
      if match v, prev with
         | Some a, Some b => Z.abs (a - b) <? 10
         | _, _ => false
         end
      then similarLoopNaN v rest'
                          (Z.max maxConsecutiveSimilar (currentStreak + 1))
                          (currentStreak + 1)
      else similarLoopNaN v rest' maxConsecutiveSimilar 1
  end.

Fixpoint allNumbers (values : list (option Z)) : option (list Z) :=
  match values with
  | [] => Some []
  | Some v :: r => option_map (cons v) (allNumbers r)
  | None :: _ => None
  end.

Definition analyzeDistributionNaN (values : list (option Z))
  : Distribution.t :=
  match allNumbers values with
  | Some vs => analyzeDistribution vs
  | None =>
      if (List.length values <? 4)%nat then Distribution.invalid
      else
        let n := inject_Z (Z.of_nat (List.length values)) in
        let roundNumbers :=
          Z.of_nat (List.length
                      (filter (fun v => match v with
                                        | Some a => Z.rem a 10 =? 0
                                        | None => false
                                        end) values)) in
        Distribution.mk
          true None None None None None
          (Some (JS.round2 (inject_Z roundNumbers / n)))
          (Some (match values with
                 | v0 :: rest => similarLoopNaN v0 rest 1 1
                 | [] => 1
                 end))
          None
          (Some (JS.round2 0))
  end.

(** Euclidean length of the step from [p] to [q]. *)
Definition stepLength (p q : Point.t) : R :=
  let dx := Point.x q - Point.x p in
  let dy := Point.y q - Point.y p in
  sqrt (IZR (dx * dx + dy * dy)).

(** The first loop of [analyzeTrajectory]. *)
Fixpoint totalDistance (points : list Point.t) : R :=
  match points with
  | p :: ((q :: _) as rest) => (stepLength p q + totalDistance rest)%R
  | _ => 0%R
  end.

(** The angle at [points[i-1]] between the steps [points[i-2] -> points[i-1]]
    and [points[i-1] -> points[i]]; [None] when a step has length 0 and the
    index is skipped.  The angle is the real one; the doubles of the source
    give it up to rounding on ordinary coordinates, and [NaN] once a squared
    step overflows ([Binary64.cosine]). *)
Definition turnAngle (p0 p1 p2 : Point.t) : option R :=
  let v1x := Point.x p1 - Point.x p0 in
  let v1y := Point.y p1 - Point.y p0 in
  let v2x := Point.x p2 - Point.x p1 in
  let v2y := Point.y p2 - Point.y p1 in
  let mag1 := sqrt (IZR (v1x * v1x + v1y * v1y)) in
  let mag2 := sqrt (IZR (v2x * v2x + v2y * v2y)) in
  if Rlt_dec 0 mag1 then
    if Rlt_dec 0 mag2 then
      let dot := IZR (v1x * v2x + v1y * v2y) in
      let cosAngle := Rmax (-1) (Rmin 1 (dot / (mag1 * mag2))) in
      Some (acos cosAngle)
    else None
  else None.

(** The two counters of the second loop. *)
Record Counters := mkCounters { smoothSegments : Z; corrections : Z }.

(** [if (angle < 0.1) smoothSegments++;
     if (angle > 0.09 && angle < 0.52) corrections++;] *)
Definition countAngle (angle : R) (c : Counters) : Counters :=
  let s := if Rlt_dec angle (1 / 10) then smoothSegments c + 1
           else smoothSegments c in
  let k := if Rlt_dec (9 / 100) angle
           then if Rlt_dec angle (52 / 100) then corrections c + 1
                else corrections c
           else corrections c in
  mkCounters s k.

(** The body of the second loop at one index. *)
Definition countTurn (p0 p1 p2 : Point.t) (c : Counters) : Counters :=
  match turnAngle p0 p1 p2 with
  | Some angle => countAngle angle c
  | None => c
  end.

(** The second loop, [i = 2 .. length-1]. *)
Fixpoint turnLoop (points : list Point.t) (c : Counters) : Counters :=
  match points with
  | p0 :: ((p1 :: p2 :: _) as rest) => turnLoop rest (countTurn p0 p1 p2 c)
  | _ => c
  end.

(** [points[i].t - points[i-1].t] for [i = 1 .. length-1]; [None] is [NaN]. *)
Fixpoint intervals (points : list Point.t) : list (option Z) :=
  match points with
  | p :: ((q :: _) as rest) =>
      match Point.t_ q, Point.t_ p with
      | Some b, Some a => Some (b - a)
      | _, _ => None
      end :: intervals rest
  | _ => []
  end.

(** [analyzeTrajectory(trajectory)]. *)
Definition analyzeTrajectory (trajectory : Trajectory.t)
  : TrajectoryAnalysis.t :=
  match Trajectory.sample trajectory with
  | None => TrajectoryAnalysis.invalid
  | Some points =>
      if (List.length points <? 3)%nat then TrajectoryAnalysis.invalid
      else
        let c := turnLoop points (mkCounters 0 0) in
        let interior := inject_Z (Z.of_nat (List.length points) - 2) in
        let smoothRatio := (inject_Z (smoothSegments c) / interior)%Q in
        let correctionRatio := (inject_Z (corrections c) / interior)%Q in
        let timed :=
          match points with
          | p :: _ => match Point.t_ p with
                      | Some t0 => negb (t0 =? 0)
                      | None => false
                      end
          | [] => false
          end in
        let intervalStats :=
          if (3 <? List.length points)%nat && timed
          then Some (analyzeDistributionNaN (intervals points))
          else None in
        TrajectoryAnalysis.mk
          true
          (Z.of_nat (List.length points))
          (JS.Math_roundR (totalDistance points))
          (Some (JS.round2 smoothRatio))
          (Some (JS.round2 correctionRatio))
          intervalStats
  end.

End TypingParser.

(* ================================================================== *)
(** * The request and the result *)
(* ================================================================== *)

Module Typingdna.
Record t := mk { lastUserTp : option string; lastPassTp : option string }.
End Typingdna.

Module AutomationFlags.
Record t := mk {
  hasChromiumAutomation : bool;
  hasSelenium : bool;
  hasPhantom : bool;
  headlessChrome : bool;
  noPlugins : bool;
  zeroWindowSize : bool
}.
End AutomationFlags.

(** The [stats] object handed to [analyze] and [analyzeLogin]. *)
Module Stats.
Record t := mk {
  typingdna : option Typingdna.t;
  usernameToPasswordMs : option Z;
  passwordToLoginMs : option Z;
  trajectory : option Trajectory.t;
  pasteUser : option Z;
  pastePass : option Z;
  imeUser : option Z;
  imePass : option Z;
  usernameIMECompositionCount : option Z;
  passwordIMECompositionCount : option Z;
  shiftCount : option Z;
  capsLockCount : option Z;
  passwordShiftCount : option Z;
  passwordCapsLockCount : option Z;
  password : option string;
  webdriverDetected : bool;
  automationFlags : option AutomationFlags.t;
  untrustedEvents : option Z;
  syntheticKeyEvents : option Z;
  totalKeyEvents : option Z
}.

(** The object with no property set. *)
Definition empty : t :=
  mk None None None None None None None None None None None None None None
     None false None None None None.

(** [stats.typingdna?.lastUserTp] and [stats.typingdna?.lastPassTp]. *)
Definition lastUserTp (s : t) : option string :=
  match typingdna s with Some d => Typingdna.lastUserTp d | None => None end.
Definition lastPassTp (s : t) : option string :=
  match typingdna s with Some d => Typingdna.lastPassTp d | None => None end.
End Stats.

Inductive Tag := bot | human.

(** A flag object [{type?, weight, reason}]. *)
Module Flag.
Record t := mk { type : option Tag; weight : Z; reason : string }.
End Flag.

(** What [analyzeFieldTyping] returns. *)
Module FieldAnalysis.
Record t := mk { valid : bool; botFlags : list Flag.t; humanFlags : list Flag.t }.
End FieldAnalysis.

(** The [details] of [detectPasswordMismatch]. *)
Module PasswordDetails.
Record t := mk {
  hasUpperCase : bool;
  hasSpecialChar : bool;
  needsShift : bool;
  usedShiftOrCaps : bool;
  usedPaste : bool
}.
End PasswordDetails.

(** [result.details] of [AutomationDetector.analyze]. *)
Module Details.
Record t := mk {
  userPattern : option Pattern.t;
  passPattern : option Pattern.t;
  userAnalysis : option FieldAnalysis.t;
  userSeekDistribution : option Distribution.t;
  passAnalysis : option FieldAnalysis.t;
  passSeekDistribution : option Distribution.t;
  trajectoryAnalysis : option TrajectoryAnalysis.t;
  ime : option Z;
  shift : option Z;
  capsLock : option Z;
  passwordAnalysis : option PasswordDetails.t
}.
Definition empty : t :=
  mk None None None None None None None None None None None.

Definition set_patterns (u p : option Pattern.t) (d : t) : t :=
  mk u p (userAnalysis d) (userSeekDistribution d) (passAnalysis d)
     (passSeekDistribution d) (trajectoryAnalysis d) (ime d) (shift d)
     (capsLock d) (passwordAnalysis d).
Definition set_userAnalysis (v : FieldAnalysis.t) (d : t) : t :=
  mk (userPattern d) (passPattern d) (Some v) (userSeekDistribution d)
     (passAnalysis d) (passSeekDistribution d) (trajectoryAnalysis d)
     (ime d) (shift d) (capsLock d) (passwordAnalysis d).
Definition set_userSeekDistribution (v : Distribution.t) (d : t) : t :=
  mk (userPattern d) (passPattern d) (userAnalysis d) (Some v)
     (passAnalysis d) (passSeekDistribution d) (trajectoryAnalysis d)
     (ime d) (shift d) (capsLock d) (passwordAnalysis d).
Definition set_passAnalysis (v : FieldAnalysis.t) (d : t) : t :=
  mk (userPattern d) (passPattern d) (userAnalysis d)
     (userSeekDistribution d) (Some v) (passSeekDistribution d)
     (trajectoryAnalysis d) (ime d) (shift d) (capsLock d)
     (passwordAnalysis d).
Definition set_passSeekDistribution (v : Distribution.t) (d : t) : t :=
  mk (userPattern d) (passPattern d) (userAnalysis d)
     (userSeekDistribution d) (passAnalysis d) (Some v)
     (trajectoryAnalysis d) (ime d) (shift d) (capsLock d)
     (passwordAnalysis d).
Definition set_trajectoryAnalysis (v : TrajectoryAnalysis.t) (d : t) : t :=
  mk (userPattern d) (passPattern d) (userAnalysis d)
     (userSeekDistribution d) (passAnalysis d) (passSeekDistribution d)
     (Some v) (ime d) (shift d) (capsLock d) (passwordAnalysis d).
Definition set_ime (v : Z) (d : t) : t :=
  mk (userPattern d) (passPattern d) (userAnalysis d)
     (userSeekDistribution d) (passAnalysis d) (passSeekDistribution d)
     (trajectoryAnalysis d) (Some v) (shift d) (capsLock d)
     (passwordAnalysis d).
Definition set_shift (v : Z) (d : t) : t :=
  mk (userPattern d) (passPattern d) (userAnalysis d)
     (userSeekDistribution d) (passAnalysis d) (passSeekDistribution d)
     (trajectoryAnalysis d) (ime d) (Some v) (capsLock d)
     (passwordAnalysis d).
Definition set_capsLock (v : Z) (d : t) : t :=
  mk (userPattern d) (passPattern d) (userAnalysis d)
     (userSeekDistribution d) (passAnalysis d) (passSeekDistribution d)
     (trajectoryAnalysis d) (ime d) (shift d) (Some v)
     (passwordAnalysis d).
Definition set_passwordAnalysis (v : option PasswordDetails.t) (d : t) : t :=
  mk (userPattern d) (passPattern d) (userAnalysis d)
     (userSeekDistribution d) (passAnalysis d) (passSeekDistribution d)
     (trajectoryAnalysis d) (ime d) (shift d) (capsLock d) v.
End Details.

Module Scores.
Record t := mk { bot : Z; human : Z }.
End Scores.

(** What [analyze] returns.  The degraded result has neither [details] nor
    [scores]. *)
Module Result.
Record t := mk {
  isBot : bool;
  confidence : Z;
  reasons : list string;
  details : option Details.t;
  scores : option Scores.t
}.
End Result.

(** The decoder [analyze] runs against: the [parser] argument, or the ambient
    [TypingParser]. *)
Module Parser.
Record t := mk {
  parsePattern : option string -> option Pattern.t;
  analyzeDistribution : list Z -> Distribution.t;
  analyzeTrajectory : Trajectory.t -> TrajectoryAnalysis.t
}.
End Parser.

(** The [TypingParser] object of [typing-parser.js]. *)
Definition TypingParser_object : Parser.t :=
  Parser.mk TypingParser.parsePattern TypingParser.analyzeDistribution
            TypingParser.analyzeTrajectory.

(* ================================================================== *)
(** * automation-detector.js: [AutomationDetector] *)
(* ================================================================== *)

Module AutomationDetector.

Local Open Scope string_scope.
Local Open Scope list_scope.
Local Open Scope Z_scope.

(** A template literal: the concatenation of its pieces. *)
Definition tpl (pieces : list string) : string := String.concat "" pieces.

Module thresholds.
Module seekTime.
Definition botMax := 50.
Definition humanMin := 80.
Definition tooFast := 30.
Definition uniformStdMax := 20.
End seekTime.
Module pressTime.
Definition botMax := 20.
Definition humanMin := 40.
Definition uniformStdMax := 10.
End pressTime.
Module trajectory.
Definition minPoints := 3.
Definition minDistance := 50.
End trajectory.
Module timing.
Definition userToPassMin := 300.
Definition passToLoginMin := 100.
End timing.
Module antiBot.
Definition seekTimeMinRange := 100.
Definition pressTimeMinRange := 30.
Definition skewnessThreshold : Q := 3 # 10.
Definition kurtosisMin : Q := - (1).
Definition kurtosisMax : Q := 3.
Definition roundNumberRatio : Q := 3 # 10.
Definition consecutiveSimilarMax := 3.
Definition trajectorySmoothMax : Q := 8 # 10.
Definition trajectoryCorrectionMin : Q := 1 # 10.
Definition trajectoryIntervalCVMax : Q := 3 # 10.
Definition cvMin : Q := 15 # 100.
Definition cvMax : Q := 35 # 100.
End antiBot.
Module decision.
Definition botProbabilityThreshold := 70.
End decision.
End thresholds.

Definition botFlag (w : Z) (r : string) : Flag.t := Flag.mk (Some bot) w r.
Definition plainFlag (w : Z) (r : string) : Flag.t := Flag.mk None w r.

(** [if (c) flags.push(f)] as the list it adds. *)
Definition pushIf (c : bool) (f : Flag.t) : list Flag.t :=
  if c then [f] else [].

(** [detectGaussianPattern(distribution)]. *)
Definition detectGaussianPattern (distribution : Distribution.t)
  : list Flag.t :=
  if negb (Distribution.valid distribution) then []
  else
    let th_skew := thresholds.antiBot.skewnessThreshold in
    (match Distribution.skewness distribution,
           Distribution.kurtosis distribution with
     | Some skewness, Some kurtosis =>
         let isNearNormal :=
           JS.Qltb (Qabs skewness) th_skew
           && JS.Qltb thresholds.antiBot.kurtosisMin kurtosis
           && JS.Qltb kurtosis thresholds.antiBot.kurtosisMax in
         pushIf isNearNormal
                (botFlag 2 (tpl ["Distribution too close to Gaussian (skew=";
                                 JS.show2 skewness; ", kurtosis=";
                                 JS.show2 kurtosis; ")"]))
     | _, _ => []
     end)
    ++ (match Distribution.roundNumberRatio distribution with
        | Some r =>
            pushIf (JS.Qltb thresholds.antiBot.roundNumberRatio r)
                   (botFlag 2 (tpl ["Too many round numbers (";
                                    JS.show (JS.Math_round (r * 100));
                                    "% are multiples of 10ms)"]))
        | None => []
        end)
    ++ (match Distribution.maxConsecutiveSimilar distribution with
        | Some m =>
            pushIf (thresholds.antiBot.consecutiveSimilarMax <? m)
                   (botFlag 2 (tpl [JS.show m;
                                    " consecutive similar intervals detected"]))
        | None => []
        end)
    ++ (match Distribution.cv distribution with
        | Some cv =>
            pushIf (JS.Qltb thresholds.antiBot.cvMin cv
                    && JS.Qltb cv thresholds.antiBot.cvMax)
                   (botFlag 2 (tpl ["Coefficient of variation suggests programmatic randomness (CV=";
                                    JS.show2 cv; ")"]))
        | None => []
        end).

(** [detectTrajectoryAutomation(trajectoryAnalysis)]. *)
Definition detectTrajectoryAutomation (ta : TrajectoryAnalysis.t)
  : list Flag.t :=
  if negb (TrajectoryAnalysis.valid ta) then []
  else
    (match TrajectoryAnalysis.smoothRatio ta with
     | Some r =>
         pushIf (JS.Qltb thresholds.antiBot.trajectorySmoothMax r)
                (botFlag 3 (tpl ["Mouse trajectory too smooth (";
                                 JS.show (JS.Math_round (r * 100));
                                 "%), likely Bezier curve"]))
     | None => []
     end)
    ++ (match TrajectoryAnalysis.correctionRatio ta with
        | Some r =>
            pushIf (JS.Qltb r thresholds.antiBot.trajectoryCorrectionMin
                    && (10 <? TrajectoryAnalysis.points ta))
                   (botFlag 2 (tpl ["No micro-corrections in mouse movement (";
                                    JS.show (JS.Math_round (r * 100)); "%)"]))
        | None => []
        end)
    ++ (match TrajectoryAnalysis.intervalStats ta with
        | Some st =>
            if Distribution.valid st then
              match Distribution.cv st with
              | Some cv =>
                  pushIf (JS.Qltb cv thresholds.antiBot.trajectoryIntervalCVMax)
                         (botFlag 2 (tpl ["Mouse movement timing too uniform (CV=";
                                          JS.show2 cv; ")"]))
              | None => []
              end
            else []
        | None => []
        end).

(** [detectWebDriver(stats)]. *)
Definition detectWebDriver (stats : Stats.t) : list Flag.t :=
  pushIf (Stats.webdriverDetected stats)
         (botFlag 5 "WebDriver automation detected (navigator.webdriver)")
  ++ match Stats.automationFlags stats with
     | Some af =>
         pushIf (AutomationFlags.hasChromiumAutomation af)
                (botFlag 3 "Chromium automation flags detected")
         ++ pushIf (AutomationFlags.hasSelenium af)
                   (botFlag 5 "Selenium WebDriver detected")
         ++ pushIf (AutomationFlags.hasPhantom af)
                   (botFlag 5 "PhantomJS detected")
         ++ pushIf (AutomationFlags.headlessChrome af)
                   (botFlag 4 "HeadlessChrome detected")
         ++ pushIf (AutomationFlags.noPlugins af)
                   (botFlag 0 "No browser plugins (possible headless)")
         ++ pushIf (AutomationFlags.zeroWindowSize af)
                   (botFlag 3 "Zero window size (headless browser)")
     | None => []
     end.

(** [detectSyntheticEvents(stats)].  The ratio of the two counts is the
    one quotient of arbitrary integers that is compared and printed as it
    is, so it is computed on doubles: 23 synthetic events of 40 print as
    57%, where the exact 57.5 would round to 58. *)
Definition detectSyntheticEvents (stats : Stats.t) : list Flag.t :=
  pushIf (JS.gt (Stats.untrustedEvents stats) 0)
         (botFlag 3 (tpl ["Detected "; JS.show (JS.or0 (Stats.untrustedEvents stats));
                          " untrusted (synthetic) events"]))
  ++ match Stats.syntheticKeyEvents stats, Stats.totalKeyEvents stats with
     | Some syntheticKeyEvents, Some totalKeyEvents =>
         if 0 <? totalKeyEvents then
           let syntheticRatio :=
             PrimFloat.div (JS.double syntheticKeyEvents)
                           (JS.double totalKeyEvents) in
           pushIf (PrimFloat.ltb JS.threeTenths syntheticRatio)
                  (botFlag 4 (tpl ["High ratio of synthetic keyboard events (";
                                   JS.show_round
                                     (PrimFloat.mul syntheticRatio (JS.double 100));
                                   "%)"]))
         else []
     | _, _ => []
     end.

(** [analyzeFieldTyping(pattern)]. *)
Definition analyzeFieldTyping (pattern : option Pattern.t)
  : FieldAnalysis.t :=
  match pattern with
  | None => FieldAnalysis.mk false [] []
  | Some pattern =>
      if Pattern.keystrokeCount pattern =? 0
      then FieldAnalysis.mk false [] []
      else
        let seek := Pattern.seekTime pattern in
        let press := Pattern.pressTime pattern in
        let count := Pattern.keystrokeCount pattern in
        let botFlags :=
          (if FieldStats.avg seek <? thresholds.seekTime.tooFast
           then [plainFlag 3 (tpl ["Extremely short key interval (";
                                   JS.show (FieldStats.avg seek); "ms < ";
                                   JS.show thresholds.seekTime.tooFast; "ms)"])]
           else pushIf (FieldStats.avg seek <? thresholds.seekTime.botMax)
                       (plainFlag 2 (tpl ["Key interval too short (";
                                          JS.show (FieldStats.avg seek); "ms < ";
                                          JS.show thresholds.seekTime.botMax;
                                          "ms)"])))
          ++ pushIf ((FieldStats.std seek <? thresholds.seekTime.uniformStdMax)
                     && (3 <? count))
                    (plainFlag 2 (tpl ["Key interval too uniform (std=";
                                       JS.show (FieldStats.std seek); "ms)"]))
          ++ pushIf ((0 <? FieldStats.avg press)
                     && (FieldStats.avg press <? thresholds.pressTime.botMax))
                    (plainFlag 2 (tpl ["Extremely short key press (";
                                       JS.show (FieldStats.avg press); "ms < ";
                                       JS.show thresholds.pressTime.botMax;
                                       "ms)"]))
          ++ pushIf ((FieldStats.std press <? thresholds.pressTime.uniformStdMax)
                     && (3 <? count) && (0 <? FieldStats.avg press))
                    (plainFlag 2 (tpl ["Key press too uniform (std=";
                                       JS.show (FieldStats.std press); "ms)"]))
          ++ pushIf ((FieldStats.range seek <? thresholds.antiBot.seekTimeMinRange)
                     && (5 <? count))
                    (plainFlag 2 (tpl ["SeekTime range too narrow (";
                                       JS.show (FieldStats.range seek); "ms < ";
                                       JS.show thresholds.antiBot.seekTimeMinRange;
                                       "ms)"])) in
        let humanFlags :=
          pushIf (thresholds.seekTime.humanMin <? FieldStats.avg seek)
                 (plainFlag 1 (tpl ["Normal key interval (";
                                    JS.show (FieldStats.avg seek); "ms)"]))
          ++ pushIf (thresholds.pressTime.humanMin <? FieldStats.avg press)
                    (plainFlag 1 (tpl ["Normal key press (";
                                       JS.show (FieldStats.avg press); "ms)"]))
          ++ pushIf (0 <? Pattern.longPauses pattern)
                    (plainFlag 2 (tpl ["Has long pauses (";
                                       JS.show (Pattern.longPauses pattern);
                                       "x > 500ms)"])) in
        FieldAnalysis.mk true botFlags humanFlags
  end.

(** [detectPasswordMismatch(stats)]: the flags and the [details]. *)
Definition detectPasswordMismatch (stats : Stats.t)
  : list Flag.t * option PasswordDetails.t :=
  let password :=
    match Stats.password stats with Some s => s | None => "" end in
  let shiftCount :=
    JS.or_else (Stats.passwordShiftCount stats) (JS.or0 (Stats.shiftCount stats)) in
  let capsLockCount :=
    JS.or_else (Stats.passwordCapsLockCount stats)
               (JS.or0 (Stats.capsLockCount stats)) in
  let pastePass := JS.or0 (Stats.pastePass stats) in
  match password with
  | EmptyString => ([], None)
  | _ =>
      let hasUpperCase := JS.testUpperCase password in
      let hasSpecialChar := JS.testSpecialChar password in
      let needsShift := hasUpperCase || hasSpecialChar in
      let usedShiftOrCaps := (0 <? shiftCount) || (0 <? capsLockCount) in
      let usedPaste := 0 <? pastePass in
      (pushIf (needsShift && negb usedShiftOrCaps && negb usedPaste)
              (botFlag 3 "Password has uppercase/special chars but no Shift/CapsLock and not pasted"),
       Some (PasswordDetails.mk hasUpperCase hasSpecialChar needsShift
                                usedShiftOrCaps usedPaste))
  end.

(** The mutable part of [analyze]: the local variables [botScore] and
    [humanScore], and [result.reasons] and [result.details]. *)
Record State := mkState {
  botScore : Z;
  humanScore : Z;
  reasons : list string;
  details : Details.t
}.

Definition init : State := mkState 0 0 [] Details.empty.

(** [botScore += w; result.reasons.push(r);] *)
Definition addBot (w : Z) (r : string) (st : State) : State :=
  mkState (botScore st + w) (humanScore st) (reasons st ++ [r]) (details st).

(** [humanScore += w;] *)
Definition addHuman (w : Z) (st : State) : State :=
  mkState (botScore st) (humanScore st + w) (reasons st) (details st).

(** [result.details.p = v;] *)
Definition setDetails (f : Details.t -> Details.t) (st : State) : State :=
  mkState (botScore st) (humanScore st) (reasons st) (f (details st)).

(** [flags.forEach(f => { botScore += f.weight;
                          result.reasons.push(`${prefix}${f.reason}`); })] *)
Definition forEachBot (prefix : string) (flags : list Flag.t) (st : State)
  : State :=
  fold_left (fun st f => addBot (Flag.weight f) (prefix ++ Flag.reason f)%string st)
            flags st.

(** [flags.forEach(f => humanScore += f.weight)] *)
Definition forEachHuman (flags : list Flag.t) (st : State) : State :=
  fold_left (fun st f => addHuman (Flag.weight f) st) flags st.

(** Step 2, the inner block [if (pattern.raw.seekTimes.length > 4) {...}].
    The username and the password block differ in the label of the reasons
    and in the [details] property only. *)
Definition seekDistributionBlock
           (_parser : Parser.t) (label : string)
           (set_dist : Distribution.t -> Details.t -> Details.t)
           (pattern : Pattern.t) (st : State) : State :=
  let seekTimes := Raw.seekTimes (Pattern.raw pattern) in
  if (4 <? List.length seekTimes)%nat then
    let dist := Parser.analyzeDistribution _parser seekTimes in
    let gaussFlags := detectGaussianPattern dist in
    forEachBot (tpl ["["; label; " SeekTime] "]) gaussFlags
               (setDetails (set_dist dist) st)
  else st.

(** Step 2, one block [if (pattern) {...}]. *)
Definition fieldBlock
           (_parser : Parser.t) (label : string)
           (set_analysis : FieldAnalysis.t -> Details.t -> Details.t)
           (set_dist : Distribution.t -> Details.t -> Details.t)
           (pattern : option Pattern.t) (st : State) : State :=
  match pattern with
  | None => st
  | Some p =>
      let analysis := analyzeFieldTyping (Some p) in
      let st := setDetails (set_analysis analysis) st in
      let st := forEachBot (tpl ["["; label; "] "])
                           (FieldAnalysis.botFlags analysis) st in
      let st := forEachHuman (FieldAnalysis.humanFlags analysis) st in
      seekDistributionBlock _parser label set_dist p st
  end.

(** Step 3. *)
Definition timingBlock (stats : Stats.t) (st : State) : State :=
  let st :=
    if JS.lt (Stats.usernameToPasswordMs stats) thresholds.timing.userToPassMin
    then addBot 2 (tpl ["Username to password too fast (";
                        JS.show (JS.or0 (Stats.usernameToPasswordMs stats));
                        "ms < "; JS.show thresholds.timing.userToPassMin; "ms)"])
                st
    else st in
  if JS.lt (Stats.passwordToLoginMs stats) thresholds.timing.passToLoginMin
  then addBot 2 (tpl ["Password to login too fast (";
                      JS.show (JS.or0 (Stats.passwordToLoginMs stats));
                      "ms < "; JS.show thresholds.timing.passToLoginMin; "ms)"])
              st
  else st.

(** Step 4. *)
Definition trajectoryBlock (_parser : Parser.t) (stats : Stats.t)
           (st : State) : State :=
  match Stats.trajectory stats with
  | None => st
  | Some trajectory =>
      let trajAnalysis := Parser.analyzeTrajectory _parser trajectory in
      let st := setDetails (Details.set_trajectoryAnalysis trajAnalysis) st in
      if TrajectoryAnalysis.valid trajAnalysis then
        let points := TrajectoryAnalysis.points trajAnalysis in
        let distance := TrajectoryAnalysis.distance trajAnalysis in
        let st :=
          if points <? thresholds.trajectory.minPoints
          then addBot 1 (tpl ["Too few trajectory points ("; JS.show points;
                              " < "; JS.show thresholds.trajectory.minPoints;
                              ")"]) st
          else st in
        let st :=
          if (distance <? thresholds.trajectory.minDistance)
             && Trajectory.captured trajectory
          then addBot 1 (tpl ["Mouse distance too short ("; JS.show distance;
                              "px < ";
                              JS.show thresholds.trajectory.minDistance;
                              "px)"]) st
          else st in
        let st :=
          if (5 <? points) && (100 <? distance) then addHuman 2 st else st in
        forEachBot "[Trajectory] " (detectTrajectoryAutomation trajAnalysis) st
      else st
  end.

(** Step 5. *)
Definition pasteBlock (stats : Stats.t) (st : State) : State :=
  let st := if JS.gt (Stats.pasteUser stats) 0
            then addBot 1 "Username was pasted" st else st in
  if JS.gt (Stats.pastePass stats) 0
  then addBot 1 "Password was pasted" st else st.

(** Step 6. *)
Definition imeBlock (stats : Stats.t) (st : State) : State :=
  let imeTotal := JS.or0 (Stats.imeUser stats) + JS.or0 (Stats.imePass stats) in
  if 0 <? imeTotal
  then setDetails (Details.set_ime imeTotal) (addHuman 3 st)
  else st.

(** Step 7. *)
Definition shiftBlock (stats : Stats.t) (st : State) : State :=
  let shiftCount := JS.or0 (Stats.shiftCount stats) in
  let capsLockCount := JS.or0 (Stats.capsLockCount stats) in
  let st := if 0 <? shiftCount
            then setDetails (Details.set_shift shiftCount) (addHuman 2 st)
            else st in
  if 0 <? capsLockCount
  then setDetails (Details.set_capsLock capsLockCount) (addHuman 1 st)
  else st.

(** Step 8. *)
Definition passwordBlock (stats : Stats.t) (st : State) : State :=
  let pwdMismatch := detectPasswordMismatch stats in
  forEachBot "" (fst pwdMismatch)
             (setDetails (Details.set_passwordAnalysis (snd pwdMismatch)) st).

(** Step 9. *)
Definition webdriverBlock (stats : Stats.t) (st : State) : State :=
  forEachBot "[Automation] " (detectWebDriver stats) st.

(** Step 10. *)
Definition syntheticBlock (stats : Stats.t) (st : State) : State :=
  forEachBot "[Events] " (detectSyntheticEvents stats) st.

(** [totalScore > 0 ? Math.round((botScore / totalScore) * 100) : 0]. *)
Definition confidenceOf (botScore humanScore : Z) : Z :=
  let totalScore := botScore + humanScore in
  if 0 <? totalScore
  then JS.Math_round (inject_Z botScore / inject_Z totalScore * 100)%Q
  else 0.

(** Steps 1 to 10 of [analyze], on a decoder. *)
Definition run (_parser : Parser.t) (stats : Stats.t) : State :=
  let userPattern := Parser.parsePattern _parser (Stats.lastUserTp stats) in
  let passPattern := Parser.parsePattern _parser (Stats.lastPassTp stats) in
  let st := setDetails (Details.set_patterns userPattern passPattern) init in
  let st := fieldBlock _parser "Username" Details.set_userAnalysis
                       Details.set_userSeekDistribution userPattern st in
  let st := fieldBlock _parser "Password" Details.set_passAnalysis
                       Details.set_passSeekDistribution passPattern st in
  let st := timingBlock stats st in
  let st := trajectoryBlock _parser stats st in
  let st := pasteBlock stats st in
  let st := imeBlock stats st in
  let st := shiftBlock stats st in
  let st := passwordBlock stats st in
  let st := webdriverBlock stats st in
  syntheticBlock stats st.

(** The last step of [analyze]. *)
Definition finish (st : State) : Result.t :=
  let confidence := confidenceOf (botScore st) (humanScore st) in
  Result.mk (thresholds.decision.botProbabilityThreshold <? confidence)
            confidence
            (reasons st)
            (Some (details st))
            (Some (Scores.mk (botScore st) (humanScore st))).

(** The two seek-distribution entries of the details. *)
Definition seekEntries (st : State)
  : option Distribution.t * option Distribution.t :=
  (Details.userSeekDistribution (details st),
   Details.passSeekDistribution (details st)).

(** The entry the block of a field writes. *)
Definition seekEntry (p : Parser.t) (pattern : option Pattern.t)
  : option Distribution.t :=
  match pattern with
  | Some pat =>
      if (4 <? List.length (Raw.seekTimes (Pattern.raw pat)))%nat
      then Some (Parser.analyzeDistribution p (Raw.seekTimes (Pattern.raw pat)))
      else None
  | None => None
  end.

(** [analyze(stats, parser = null)].  [ambient] is the global
    [TypingParser] when the page has loaded typing-parser.js, and [None]
    when [typeof TypingParser] is ["undefined"]. *)
Definition analyze (ambient : option Parser.t) (stats : Stats.t)
           (parser : option Parser.t) : Result.t :=
  let _parser := match parser with Some p => Some p | None => ambient end in
  match _parser with
  | None => Result.mk false 0 [] None None
  | Some _parser => finish (run _parser stats)
  end.

End AutomationDetector.

(* ================================================================== *)
(** * The stand-alone [TypingAnalyzer] object *)
(* ================================================================== *)

Module TypingAnalyzer.

Local Open Scope string_scope.
Local Open Scope list_scope.
Local Open Scope Z_scope.

Definition tpl (pieces : list string) : string := String.concat "" pieces.

Module thresholds.
Module seekTime.
Definition botMax := 50.
Definition humanMin := 80.
Definition tooFast := 30.
Definition uniformStdMax := 20.
End seekTime.
Module pressTime.
Definition botMax := 20.
Definition humanMin := 40.
Definition uniformStdMax := 10.
End pressTime.
Module trajectory.
Definition minPoints := 3.
Definition minDistance := 50.
End trajectory.
Module timing.
Definition userToPassMin := 300.
Definition passToLoginMin := 100.
End timing.
End thresholds.

(** The local [calcStats] of [parsePattern] has no [range]. *)
Module FieldStats.
Record t := mk { avg : Z; min : Z; max : Z; std : Z }.
End FieldStats.

Module Pattern.
Record t := mk {
  keystrokeCount : Z;
  seekTime : FieldStats.t;
  pressTime : FieldStats.t;
  longPauses : Z;
  keystrokes : list Keystroke.t;
  raw : Raw.t
}.
End Pattern.

Module Flag.
Record t := mk { type : Tag; feature : string; reason : string }.
End Flag.

Module FieldAnalysis.
Record t := mk {
  valid : bool;
  reason : option string;
  flags : list Flag.t;
  botFlags : list Flag.t;
  humanFlags : list Flag.t
}.
End FieldAnalysis.

Module FieldDetails.
Record t := mk { pattern : option Pattern.t; analysis : FieldAnalysis.t }.
End FieldDetails.

Module ImeDetails.
Record t := mk { username : Z; password : Z; total : Z }.
End ImeDetails.

Module Details.
Record t := mk {
  username : option FieldDetails.t;
  password : option FieldDetails.t;
  ime : option ImeDetails.t;
  shift : option Z;
  capsLock : option Z;
  passwordAnalysis : option PasswordDetails.t
}.
Definition empty : t := mk None None None None None None.
End Details.

Module Result.
Record t := mk {
  isBot : bool;
  confidence : Z;
  reasons : list string;
  details : Details.t;
  scores : Scores.t
}.
End Result.

(** [calcStats(arr)], the same function as in [TypingParser], over the
    exact numbers as there. *)
Definition calcStats (arr : list Z) : FieldStats.t :=
  match arr with
  | [] => FieldStats.mk 0 0 0 0
  | _ =>
      let n := inject_Z (Z.of_nat (List.length arr)) in
      let avg := (inject_Z (JS.sum arr) / n)%Q in
      let std :=
        if (1 <? List.length arr)%nat
        then JS.Math_round_sqrt
               (JS.sumQ (map (fun t => (inject_Z t - avg) ^ 2) arr) / n)%Q
        else 0 in
      FieldStats.mk (JS.Math_round avg) (JS.Math_min arr) (JS.Math_max arr) std
  end.

Definition parseSegment (seg : string) : Keystroke.t :=
  let parts := JS.split ","%char seg in
  Keystroke.mk (JS.parseInt_or_0 (nth_error parts 0))
               (JS.parseInt_or_0 (nth_error parts 1)).

(** [parsePattern(patternStr)]. *)
Definition parsePattern (patternStr : option string) : option Pattern.t :=
  match patternStr with
  | None | Some EmptyString => None
  | Some s =>
      let segments := JS.split "|"%char s in
      if (List.length segments <? 2)%nat then None
      else
        let keystrokes := map parseSegment (tl segments) in
        let seekTimes :=
          filter (fun t => 0 <? t) (map Keystroke.seekTime keystrokes) in
        let pressTimes :=
          filter (fun t => 0 <? t) (map Keystroke.pressTime keystrokes) in
        let seekStats := calcStats seekTimes in
        let pressStats := calcStats pressTimes in
        let longPauses :=
          Z.of_nat (List.length (filter (fun t => 500 <? t) seekTimes)) in
        Some (Pattern.mk (Z.of_nat (List.length keystrokes)) seekStats
                         pressStats longPauses keystrokes
                         (Raw.mk seekTimes pressTimes))
  end.

Definition pushIf (c : bool) (f : Flag.t) : list Flag.t :=
  if c then [f] else [].

Definition isType (ty : Tag) (f : Flag.t) : bool :=
  match ty, Flag.type f with
  | bot, bot | human, human => true
  | _, _ => false
  end.

(** [analyzeFieldTyping(pattern)]. *)
Definition analyzeFieldTyping (pattern : option Pattern.t)
  : FieldAnalysis.t :=
  match pattern with
  | None => FieldAnalysis.mk false (Some "No typing data") [] [] []
  | Some pattern =>
      if Pattern.keystrokeCount pattern =? 0
      then FieldAnalysis.mk false (Some "No typing data") [] [] []
      else
        let seek := Pattern.seekTime pattern in
        let press := Pattern.pressTime pattern in
        let count := Pattern.keystrokeCount pattern in
        let flags :=
          (if FieldStats.avg seek <? thresholds.seekTime.tooFast
           then [Flag.mk bot "seekTime"
                         (tpl ["Extremely short key interval (";
                               JS.show (FieldStats.avg seek); "ms < ";
                               JS.show thresholds.seekTime.tooFast; "ms)"])]
           else pushIf (FieldStats.avg seek <? thresholds.seekTime.botMax)
                       (Flag.mk bot "seekTime"
                                (tpl ["Key interval too short (";
                                      JS.show (FieldStats.avg seek); "ms < ";
                                      JS.show thresholds.seekTime.botMax;
                                      "ms)"])))
          ++ pushIf ((FieldStats.std seek <? thresholds.seekTime.uniformStdMax)
                     && (3 <? count))
                    (Flag.mk bot "seekTimeStd"
                             (tpl ["Key interval too uniform (std=";
                                   JS.show (FieldStats.std seek); "ms < ";
                                   JS.show thresholds.seekTime.uniformStdMax;
                                   "ms)"]))
          ++ pushIf ((0 <? FieldStats.avg press)
                     && (FieldStats.avg press <? thresholds.pressTime.botMax))
                    (Flag.mk bot "pressTime"
                             (tpl ["Extremely short key press duration (";
                                   JS.show (FieldStats.avg press); "ms < ";
                                   JS.show thresholds.pressTime.botMax;
                                   "ms)"]))
          ++ pushIf ((FieldStats.std press <? thresholds.pressTime.uniformStdMax)
                     && (3 <? count) && (0 <? FieldStats.avg press))
                    (Flag.mk bot "pressTimeStd"
                             (tpl ["Key press duration too uniform (std=";
                                   JS.show (FieldStats.std press); "ms < ";
                                   JS.show thresholds.pressTime.uniformStdMax;
                                   "ms)"]))
          ++ pushIf (thresholds.seekTime.humanMin <? FieldStats.avg seek)
                    (Flag.mk human "seekTime"
                             (tpl ["Normal key interval (";
                                   JS.show (FieldStats.avg seek); "ms)"]))
          ++ pushIf (thresholds.pressTime.humanMin <? FieldStats.avg press)
                    (Flag.mk human "pressTime"
                             (tpl ["Normal key press duration (";
                                   JS.show (FieldStats.avg press); "ms)"]))
          ++ pushIf (0 <? Pattern.longPauses pattern)
                    (Flag.mk human "longPauses"
                             (tpl ["Has long pauses (";
                                   JS.show (Pattern.longPauses pattern);
                                   "x > 500ms), possibly thinking"])) in
        FieldAnalysis.mk true None flags
                         (filter (isType bot) flags)
                         (filter (isType human) flags)
  end.

(** The mutable part of [analyzeLogin]. *)
Record State := mkState {
  botScore : Z;
  humanScore : Z;
  reasons : list string;
  details : Details.t
}.

Definition init : State := mkState 0 0 [] Details.empty.

Definition addBot (w : Z) (st : State) : State :=
  mkState (botScore st + w) (humanScore st) (reasons st) (details st).
Definition addHuman (w : Z) (st : State) : State :=
  mkState (botScore st) (humanScore st + w) (reasons st) (details st).
Definition push (r : string) (st : State) : State :=
  mkState (botScore st) (humanScore st) (reasons st ++ [r]) (details st).
Definition setDetails (f : Details.t -> Details.t) (st : State) : State :=
  mkState (botScore st) (humanScore st) (reasons st) (f (details st)).

(** Steps 1 and 2: one field. *)
Definition fieldBlock (label : string)
           (set_field : FieldDetails.t -> Details.t -> Details.t)
           (patternStr : option string) (st : State) : State :=
  let pattern := parsePattern patternStr in
  let analysis := analyzeFieldTyping pattern in
  let st := setDetails (set_field (FieldDetails.mk pattern analysis)) st in
  if FieldAnalysis.valid analysis then
    let st :=
      addBot (Z.of_nat (List.length (FieldAnalysis.botFlags analysis)) * 2) st in
    let st :=
      addHuman (Z.of_nat (List.length (FieldAnalysis.humanFlags analysis))) st in
    fold_left (fun st f => push (tpl ["["; label; "] "; Flag.reason f]) st)
              (FieldAnalysis.botFlags analysis) st
  else st.

Definition set_username (v : FieldDetails.t) (d : Details.t) : Details.t :=
  Details.mk (Some v) (Details.password d) (Details.ime d) (Details.shift d)
             (Details.capsLock d) (Details.passwordAnalysis d).
Definition set_password (v : FieldDetails.t) (d : Details.t) : Details.t :=
  Details.mk (Details.username d) (Some v) (Details.ime d) (Details.shift d)
             (Details.capsLock d) (Details.passwordAnalysis d).
Definition set_ime (v : ImeDetails.t) (d : Details.t) : Details.t :=
  Details.mk (Details.username d) (Details.password d) (Some v)
             (Details.shift d) (Details.capsLock d)
             (Details.passwordAnalysis d).
Definition set_shift (v : Z) (d : Details.t) : Details.t :=
  Details.mk (Details.username d) (Details.password d) (Details.ime d)
             (Some v) (Details.capsLock d) (Details.passwordAnalysis d).
Definition set_capsLock (v : Z) (d : Details.t) : Details.t :=
  Details.mk (Details.username d) (Details.password d) (Details.ime d)
             (Details.shift d) (Some v) (Details.passwordAnalysis d).
Definition set_passwordAnalysis (v : PasswordDetails.t) (d : Details.t)
  : Details.t :=
  Details.mk (Details.username d) (Details.password d) (Details.ime d)
             (Details.shift d) (Details.capsLock d) (Some v).

(** Step 3. *)
Definition timingBlock (stats : Stats.t) (st : State) : State :=
  let st :=
    if JS.lt (Stats.usernameToPasswordMs stats) thresholds.timing.userToPassMin
    then push (tpl ["Username to password interval too short (";
                    JS.show (JS.or0 (Stats.usernameToPasswordMs stats));
                    "ms < "; JS.show thresholds.timing.userToPassMin; "ms)"])
              (addBot 2 st)
    else st in
  if JS.lt (Stats.passwordToLoginMs stats) thresholds.timing.passToLoginMin
  then push (tpl ["Password to login interval too short (";
                  JS.show (JS.or0 (Stats.passwordToLoginMs stats));
                  "ms < "; JS.show thresholds.timing.passToLoginMin; "ms)"])
            (addBot 2 st)
  else st.

(** Step 4: the counts the client reports, not the sample. *)
Definition trajectoryBlock (stats : Stats.t) (st : State) : State :=
  match Stats.trajectory stats with
  | None => st
  | Some traj =>
      let points := Trajectory.points traj in
      let distancePx := Trajectory.distancePx traj in
      let st :=
        if JS.lt points thresholds.trajectory.minPoints
        then push (tpl ["Too few mouse trajectory points (";
                        JS.show (JS.or0 points); " < ";
                        JS.show thresholds.trajectory.minPoints; ")"])
                  (addBot 1 st)
        else st in
      let st :=
        if JS.lt distancePx thresholds.trajectory.minDistance
           && Trajectory.captured traj
        then push (tpl ["Mouse movement distance too short (";
                        JS.show (JS.or0 distancePx); "px < ";
                        JS.show thresholds.trajectory.minDistance; "px)"])
                  (addBot 1 st)
        else st in
      if JS.gt points 5 && JS.gt distancePx 100 then addHuman 2 st else st
  end.

(** Step 5. *)
Definition pasteBlock (stats : Stats.t) (st : State) : State :=
  let st := if JS.gt (Stats.pasteUser stats) 0
            then push "Username was pasted" (addBot 1 st) else st in
  if JS.gt (Stats.pastePass stats) 0
  then push "Password was pasted" (addBot 1 st) else st.

(** Step 6. *)
Definition imeBlock (stats : Stats.t) (st : State) : State :=
  let imeUserCount :=
    JS.or_else (Stats.usernameIMECompositionCount stats)
               (JS.or0 (Stats.imeUser stats)) in
  let imePassCount :=
    JS.or_else (Stats.passwordIMECompositionCount stats)
               (JS.or0 (Stats.imePass stats)) in
  let totalIME := imeUserCount + imePassCount in
  if 0 <? totalIME
  then setDetails (set_ime (ImeDetails.mk imeUserCount imePassCount totalIME))
                  (addHuman 3 st)
  else st.

(** Steps 7 and 8. *)
Definition shiftBlock (stats : Stats.t) (st : State) : State :=
  let shiftCount :=
    JS.or_else (Stats.passwordShiftCount stats) (JS.or0 (Stats.shiftCount stats)) in
  let capsLockCount :=
    JS.or_else (Stats.passwordCapsLockCount stats)
               (JS.or0 (Stats.capsLockCount stats)) in
  let pastePass := JS.or0 (Stats.pastePass stats) in
  let password :=
    match Stats.password stats with Some s => s | None => "" end in
  let st := if 0 <? shiftCount
            then setDetails (set_shift shiftCount) (addHuman 2 st) else st in
  let st := if 0 <? capsLockCount
            then setDetails (set_capsLock capsLockCount) (addHuman 1 st)
            else st in
  match password with
  | EmptyString => st
  | _ =>
      let hasUpperCase := JS.testUpperCase password in
      let hasSpecialChar := JS.testSpecialChar password in
      let needsShift := hasUpperCase || hasSpecialChar in
      let usedShiftOrCaps := (0 <? shiftCount) || (0 <? capsLockCount) in
      let usedPaste := 0 <? pastePass in
      let st :=
        if needsShift && negb usedShiftOrCaps && negb usedPaste
        then push "Password contains uppercase or special chars but no Shift/CapsLock detected and not pasted"
                  (addBot 3 st)
        else st in
      setDetails (set_passwordAnalysis
                    (PasswordDetails.mk hasUpperCase hasSpecialChar needsShift
                                        usedShiftOrCaps usedPaste)) st
  end.

(** Step 9: [if (totalScore > 0) result.confidence = Math.round(...)], on
    the initial [confidence: 0]. *)
Definition confidenceOf (botScore humanScore : Z) : Z :=
  let totalScore := botScore + humanScore in
  if 0 <? totalScore
  then JS.Math_round (inject_Z botScore / inject_Z totalScore * 100)%Q
  else 0.

Definition run (stats : Stats.t) : State :=
  let st := fieldBlock "Username" set_username (Stats.lastUserTp stats) init in
  let st := fieldBlock "Password" set_password (Stats.lastPassTp stats) st in
  let st := timingBlock stats st in
  let st := trajectoryBlock stats st in
  let st := pasteBlock stats st in
  let st := imeBlock stats st in
  shiftBlock stats st.

(** [st'] has gained at most [kb] bot points and [kh] human points. *)
Definition gains (kb kh : Z) (st st' : State) : Prop :=
  botScore st <= botScore st' <= botScore st + kb
  /\ humanScore st <= humanScore st' <= humanScore st + kh.

(** [analyzeLogin(stats)]. *)
Definition analyzeLogin (stats : Stats.t) : Result.t :=
  let st := run stats in
  let confidence := confidenceOf (botScore st) (humanScore st) in
  Result.mk ((3 <=? botScore st) || (60 <? confidence))
            confidence
            (reasons st)
            (details st)
            (Scores.mk (botScore st) (humanScore st)).

End TypingAnalyzer.

(* ================================================================== *)
(** * The signal catalogue, as the specification words it *)
(* ================================================================== *)

(** The specification describes the scoring as a catalogue of weighted,
    tagged flags that a generic fold sums up.  [triggered] lists the flags
    of the catalogue that fire on a request, in the order in which [analyze]
    reaches them, each with its tag, its weight, the label of its group and
    its reason.  The score-only human signals of [analyze] (trajectory
    sufficiency, IME, Shift, CapsLock) have no reason string in the code. *)
Module SignalCatalog.

Import AutomationDetector.
Local Open Scope string_scope.
Local Open Scope list_scope.
Local Open Scope Z_scope.

Record Signal := mk {
  tag : Tag;
  weight : Z;
  label : option string;
  reason : option string
}.

Definition ofFlags (ty : Tag) (label : option string) (flags : list Flag.t)
  : list Signal :=
  map (fun f => mk ty (Flag.weight f) label (Some (Flag.reason f))) flags.

Definition when (c : bool) (s : Signal) : list Signal :=
  if c then [s] else [].

Definition fieldSignals (_parser : Parser.t) (label : string)
           (pattern : option Pattern.t) : list Signal :=
  match pattern with
  | None => []
  | Some p =>
      let analysis := analyzeFieldTyping (Some p) in
      let seekTimes := Raw.seekTimes (Pattern.raw p) in
      ofFlags bot (Some label) (FieldAnalysis.botFlags analysis)
      ++ ofFlags human (Some label) (FieldAnalysis.humanFlags analysis)
      ++ (if (4 <? List.length seekTimes)%nat
          then ofFlags bot (Some (label ++ " SeekTime")%string)
                       (detectGaussianPattern
                          (Parser.analyzeDistribution _parser seekTimes))
          else [])
  end.

Definition timingSignals (stats : Stats.t) : list Signal :=
  when (JS.lt (Stats.usernameToPasswordMs stats) thresholds.timing.userToPassMin)
       (mk bot 2 None
           (Some (tpl ["Username to password too fast (";
                       JS.show (JS.or0 (Stats.usernameToPasswordMs stats));
                       "ms < "; JS.show thresholds.timing.userToPassMin;
                       "ms)"])))
  ++ when (JS.lt (Stats.passwordToLoginMs stats) thresholds.timing.passToLoginMin)
          (mk bot 2 None
              (Some (tpl ["Password to login too fast (";
                          JS.show (JS.or0 (Stats.passwordToLoginMs stats));
                          "ms < "; JS.show thresholds.timing.passToLoginMin;
                          "ms)"]))).

Definition trajectorySignals (_parser : Parser.t) (stats : Stats.t)
  : list Signal :=
  match Stats.trajectory stats with
  | None => []
  | Some trajectory =>
      let ta := Parser.analyzeTrajectory _parser trajectory in
      if TrajectoryAnalysis.valid ta then
        let points := TrajectoryAnalysis.points ta in
        let distance := TrajectoryAnalysis.distance ta in
        when (points <? thresholds.trajectory.minPoints)
             (mk bot 1 None
                 (Some (tpl ["Too few trajectory points ("; JS.show points;
                             " < "; JS.show thresholds.trajectory.minPoints;
                             ")"])))
        ++ when ((distance <? thresholds.trajectory.minDistance)
                 && Trajectory.captured trajectory)
                (mk bot 1 None
                    (Some (tpl ["Mouse distance too short ("; JS.show distance;
                                "px < ";
                                JS.show thresholds.trajectory.minDistance;
                                "px)"])))
        ++ when ((5 <? points) && (100 <? distance)) (mk human 2 None None)
        ++ ofFlags bot (Some "Trajectory") (detectTrajectoryAutomation ta)
      else []
  end.

Definition pasteSignals (stats : Stats.t) : list Signal :=
  when (JS.gt (Stats.pasteUser stats) 0)
       (mk bot 1 None (Some "Username was pasted"))
  ++ when (JS.gt (Stats.pastePass stats) 0)
          (mk bot 1 None (Some "Password was pasted")).

Definition imeSignals (stats : Stats.t) : list Signal :=
  when (0 <? JS.or0 (Stats.imeUser stats) + JS.or0 (Stats.imePass stats))
       (mk human 3 None None).

Definition shiftSignals (stats : Stats.t) : list Signal :=
  when (0 <? JS.or0 (Stats.shiftCount stats)) (mk human 2 None None)
  ++ when (0 <? JS.or0 (Stats.capsLockCount stats)) (mk human 1 None None).

(** The flags that fire on [stats] when [analyze] runs against [_parser]. *)
Definition triggered (_parser : Parser.t) (stats : Stats.t) : list Signal :=
  fieldSignals _parser "Username"
               (Parser.parsePattern _parser (Stats.lastUserTp stats))
  ++ fieldSignals _parser "Password"
                  (Parser.parsePattern _parser (Stats.lastPassTp stats))
  ++ timingSignals stats
  ++ trajectorySignals _parser stats
  ++ pasteSignals stats
  ++ imeSignals stats
  ++ shiftSignals stats
  ++ ofFlags bot None (fst (detectPasswordMismatch stats))
  ++ ofFlags bot (Some "Automation") (detectWebDriver stats)
  ++ ofFlags bot (Some "Events") (detectSyntheticEvents stats).

Definition hasTag (ty : Tag) (s : Signal) : bool :=
  match ty, tag s with
  | bot, bot | human, human => true
  | _, _ => false
  end.

(** The sum of the weights of the flags with a tag. *)
Definition total (ty : Tag) (sigs : list Signal) : Z :=
  fold_right Z.add 0 (map weight (filter (hasTag ty) sigs)).

(** The reason of a flag with the prefix of its group. *)
Definition line (s : Signal) : option string :=
  match reason s with
  | Some r =>
      Some (match label s with
            | Some l => (tpl ["["; l; "] "] ++ r)%string
            | None => r
            end)
  | None => None
  end.

(** The lines of the bot-tagged flags, in order. *)
Definition botLines (sigs : list Signal) : list string :=
  flat_map (fun s => match tag s, line s with
                     | bot, Some r => [r]
                     | _, _ => []
                     end) sigs.

(** The prefix [analyze] puts before the reasons of a group. *)
Definition prefixOf (label : option string) (prefix : string) : Prop :=
  forall r, line (mk bot 0 label (Some r)) = Some (prefix ++ r)%string.

(** The sum of the weights of a list of flag objects. *)
Definition flagSum (flags : list Flag.t) : Z :=
  fold_right Z.add 0 (map Flag.weight flags).

(** The state of [analyze] accounts for a list of flags. *)
Definition accounts (st : State) (sigs : list Signal) : Prop :=
  botScore st = total bot sigs
  /\ humanScore st = total human sigs
  /\ reasons st = botLines sigs.

(** The reading of the reasons list under which every flag that fires,
    bot or human, leaves its labelled reason in the list. *)
Definition everyFlagReported (_parser : Parser.t) (stats : Stats.t) : Prop :=
  forall s, In s (triggered _parser stats) ->
            exists r, line s = Some r
                      /\ In r (Result.reasons
                                 (analyze None stats (Some _parser))).

End SignalCatalog.

(* ================================================================== *)
(** * Reference notions on the exact numbers *)
(* ================================================================== *)

Module Exact.

Local Open Scope R_scope.

(** [k] is the integer nearest to [x], ties towards +infinity. *)
Definition nearest (k : Z) (x : R) : Prop := IZR k - / 2 <= x < IZR k + / 2.

Definition sumR (l : list R) : R := fold_right Rplus 0 l.

(** Mean and population standard deviation of a sample. *)
Definition mean (arr : list Z) : R :=
  sumR (map IZR arr) / INR (List.length arr).

Definition variance (arr : list Z) : R :=
  sumR (map (fun t => (IZR t - mean arr) ^ 2) arr) / INR (List.length arr).

Definition std (arr : list Z) : R := sqrt (variance arr).

(** The higher moments and ratios of [analyzeDistribution], written as the
    source writes them. *)
Definition skewness (values : list Z) : R :=
  sumR (map (fun v => ((IZR v - mean values) / std values) ^ 3) values)
  / INR (List.length values).

Definition kurtosis (values : list Z) : R :=
  sumR (map (fun v => ((IZR v - mean values) / std values) ^ 4) values)
  / INR (List.length values) - 3.

Definition cv (values : list Z) : R :=
  if Rlt_dec 0 (mean values) then std values / mean values else 0.

Definition roundNumberRatio (values : list Z) : R :=
  INR (List.length (filter (fun v => (Z.rem v 10 =? 0)%Z) values))
  / INR (List.length values).


(** [c] is [100 * b / (b + h)] rounded to the nearest integer (ties
    towards +infinity), and 0 when both scores are 0. *)
Definition percentOf (c b h : Z) : Prop :=
  if (b + h =? 0)%Z then c = 0%Z
  else ((2 * c - 1) * (b + h) <= 200 * b < (2 * c + 1) * (b + h))%Z.

(** [m] is the least (greatest) element of [arr]. *)
Definition least (m : Z) (arr : list Z) : Prop :=
  In m arr /\ forall x, In x arr -> (m <= x)%Z.
Definition greatest (m : Z) (arr : list Z) : Prop :=
  In m arr /\ forall x, In x arr -> (x <= m)%Z.


End Exact.

(* ================================================================== *)
(** * The confidence formula on IEEE doubles *)
(* ================================================================== *)

Module Double.

Import Floats.

Definition ofZ (z : Z) : float := PrimFloat.of_uint63 (Uint63.of_Z z).

(** The rational a finite double denotes. *)
Definition toQ (f : float) : Q :=
  match Prim2SF f with
  | S754_finite s m e =>
      let v := if (0 <=? e)%Z then inject_Z (Z.pos m * 2 ^ e)
               else Z.pos m # Pos.pow 2 (Z.to_pos (- e)) in
      if s then Qopp v else v
  | _ => 0%Q
  end.

(** [totalScore > 0 ? Math.round((botScore / totalScore) * 100) : 0] with
    the division and the product rounded to binary64. *)
Definition confidenceOf (botScore humanScore : Z) : Z :=
  let totalScore := (botScore + humanScore)%Z in
  if (0 <? totalScore)%Z
  then JS.Math_round
         (toQ (PrimFloat.mul (PrimFloat.div (ofZ botScore) (ofZ totalScore))
                             (ofZ 100)))
  else 0%Z.

(** The two computations agree on every pair of scores in a rectangle. *)
Definition agreeUpTo (maxBot maxHuman : nat) : bool :=
  forallb (fun b =>
             forallb (fun h =>
                        (confidenceOf (Z.of_nat b) (Z.of_nat h)
                         =? AutomationDetector.confidenceOf
                              (Z.of_nat b) (Z.of_nat h))%Z)
                     (seq 0 (S maxHuman)))
          (seq 0 (S maxBot)).

End Double.

(* ================================================================== *)
(** * Concrete requests *)
(* ================================================================== *)

(** Only [automationFlags.hasSelenium] is set. *)
Definition stats_selenium : Stats.t :=
  Stats.mk None None None None None None None None None None None None None
           None None false
           (Some (AutomationFlags.mk false true false false false false))
           None None None.

(** Pasted username, fast field change, Shift and CapsLock used. *)
Definition stats_mixed : Stats.t :=
  Stats.mk None (Some 100) None None (Some 1) None None None None None
           (Some 2) (Some 1) None None None false None None None None.

(** A scripted login: fast uniform typing of the username, a pasted
    username, a fast field change, Shift used, Selenium with no plugins and
    synthetic events; the password typed at a human pace with a long pause. *)
Definition stats_scripted : Stats.t :=
  Stats.mk (Some (Typingdna.mk
                    (Some "v1|20,10|21,11|22,12|20,10|21,11|22,12"%string)
                    (Some "v1|120,60|800,80|90,50|400,70"%string)))
           (Some 100) None None (Some 1) None None None None None
           (Some 2) None None None (Some "Secret!1"%string) true
           (Some (AutomationFlags.mk false true false false true false))
           (Some 2) (Some 3) (Some 4).

(** The request with a trajectory and nothing else. *)
Definition stats_trajectory (trajectory : Trajectory.t) : Stats.t :=
  Stats.mk None None None (Some trajectory) None None None None None None
           None None None None None false None None None None.

(** The request with a username pattern and nothing else. *)
Definition stats_username (patternStr : string) : Stats.t :=
  Stats.mk (Some (Typingdna.mk (Some patternStr) None)) None None None None
           None None None None None None None None None None false None None
           None None.

(** A pattern with four keystrokes, one of them after a long pause. *)
Definition pattern_long_pause : string := "v1|120,60|800,80|90,50|400,70".

(** The human flag that pattern raises. *)
Definition signal_long_pause : SignalCatalog.Signal :=
  SignalCatalog.mk human 2 (Some "Username"%string)
                   (Some "Has long pauses (1x > 500ms)"%string).

(** A pattern with exactly four positive seek intervals. *)
Definition pattern_four : string := "v1|120,60|300,80|90,50|400,70".




(* ================================================================== *)
(** * The pattern format and further reference notions *)
(* ================================================================== *)

Module Format.

(** The encoding [parsePattern] reads (the source: "TypingDNA pattern
    format: seekTime,pressTime"): a header, then one segment [|seek,press]
    per keystroke, the numbers in decimal. *)
Definition segment (k : Keystroke.t) : string :=
  (JS.show (Keystroke.seekTime k) ++ ","
   ++ JS.show (Keystroke.pressTime k))%string.

Fixpoint segments (keystrokes : list Keystroke.t) : string :=
  match keystrokes with
  | [] => EmptyString
  | k :: rest => ("|" ++ segment k ++ segments rest)%string
  end.

Definition pattern (header : string) (keystrokes : list Keystroke.t) : string :=
  (header ++ segments keystrokes)%string.

(** The number of occurrences of a character in a string. *)
Fixpoint count (c : ascii) (s : string) : nat :=
  match s with
  | EmptyString => 0%nat
  | String a r => if Ascii.eqb a c then S (count c r) else count c r
  end.

(** The value of a decimal numeral read from the left on top of [acc]. *)
Fixpoint value (d : Decimal.uint) (acc : Z) : Z :=
  match d with
  | Decimal.Nil => acc
  | Decimal.D0 r => value r (10 * acc)
  | Decimal.D1 r => value r (10 * acc + 1)
  | Decimal.D2 r => value r (10 * acc + 2)
  | Decimal.D3 r => value r (10 * acc + 3)
  | Decimal.D4 r => value r (10 * acc + 4)
  | Decimal.D5 r => value r (10 * acc + 5)
  | Decimal.D6 r => value r (10 * acc + 6)
  | Decimal.D7 r => value r (10 * acc + 7)
  | Decimal.D8 r => value r (10 * acc + 8)
  | Decimal.D9 r => value r (10 * acc + 9)
  end.

End Format.

(** Shapes of a trajectory sample. *)
Module Path.


(** [points[0].t] is truthy: present and not 0. *)
Definition timed (points : list Point.t) : bool :=
  match points with
  | p :: _ => match Point.t_ p with
              | Some t0 => negb (t0 =? 0)
              | None => false
              end
  | [] => false
  end.

(** The number of interior points, [points.length - 2]. *)
Definition interior (points : list Point.t) : Z :=
  Z.of_nat (List.length points - 2).

End Path.

(** Readings of a request. *)
Module Request.

(** The ASCII punctuation: the printable characters that are neither a
    letter, a digit nor the space. *)
Definition punctuation (c : ascii) : bool :=
  let n := nat_of_ascii c in
  ((33 <=? n) && (n <=? 47) || (58 <=? n) && (n <=? 64)
   || (91 <=? n) && (n <=? 96) || (123 <=? n) && (n <=? 126))%nat.

(** A counter the client did not report, or reported as 0. *)
Definition unreported (x : option Z) : Prop := x = None \/ x = Some 0.

(** No Shift, CapsLock or paste is reported for the password. *)
Definition typedPlainly (stats : Stats.t) : Prop :=
  unreported (Stats.passwordShiftCount stats)
  /\ unreported (Stats.shiftCount stats)
  /\ unreported (Stats.passwordCapsLockCount stats)
  /\ unreported (Stats.capsLockCount stats)
  /\ unreported (Stats.pastePass stats).

(** [{...stats, automationFlags: {...af, noPlugins}}]. *)
Definition with_noPlugins (noPlugins : bool) (stats : Stats.t) : Stats.t :=
  Stats.mk
    (Stats.typingdna stats) (Stats.usernameToPasswordMs stats)
    (Stats.passwordToLoginMs stats) (Stats.trajectory stats)
    (Stats.pasteUser stats) (Stats.pastePass stats) (Stats.imeUser stats)
    (Stats.imePass stats) (Stats.usernameIMECompositionCount stats)
    (Stats.passwordIMECompositionCount stats) (Stats.shiftCount stats)
    (Stats.capsLockCount stats) (Stats.passwordShiftCount stats)
    (Stats.passwordCapsLockCount stats) (Stats.password stats)
    (Stats.webdriverDetected stats)
    (match Stats.automationFlags stats with
     | Some af =>
         Some (AutomationFlags.mk
                 (AutomationFlags.hasChromiumAutomation af)
                 (AutomationFlags.hasSelenium af)
                 (AutomationFlags.hasPhantom af)
                 (AutomationFlags.headlessChrome af)
                 noPlugins
                 (AutomationFlags.zeroWindowSize af))
     | None => None
     end)
    (Stats.untrustedEvents stats) (Stats.syntheticKeyEvents stats)
    (Stats.totalKeyEvents stats).

End Request.

(** The patterns of the two decoders side by side. *)
Module Legacy.

(** A summary of [TypingParser.calcStats] without its [range]. *)
Definition stats (s : FieldStats.t) : TypingAnalyzer.FieldStats.t :=
  TypingAnalyzer.FieldStats.mk (FieldStats.avg s) (FieldStats.min s)
                               (FieldStats.max s) (FieldStats.std s).

Definition pattern (p : Pattern.t) : TypingAnalyzer.Pattern.t :=
  TypingAnalyzer.Pattern.mk
    (Pattern.keystrokeCount p) (stats (Pattern.seekTime p))
    (stats (Pattern.pressTime p)) (Pattern.longPauses p)
    (Pattern.keystrokes p) (Pattern.raw p).

End Legacy.

(** [AutomationDetector.generateReport]. *)
Module Report.

Import AutomationDetector.
Local Open Scope string_scope.
Local Open Scope list_scope.

(** A call returns the report, or throws a [TypeError] on reading a property
    of [undefined]. *)
Inductive Outcome := Returned (report : string) | TypeError.

(** The line feed, ["\n"]. *)
Definition nl : string := String (ascii_of_nat 10) EmptyString.

(** [lines.join("\n")]. *)
Definition join (lines : list string) : string := String.concat nl lines.

(** A number that is truthy: present and not 0. *)
Definition truthy (x : option Z) : bool :=
  match x with Some v => negb (v =? 0)%Z | None => false end.

(** The block of one field, [if (pattern) {...}].  Non-ASCII characters of
    the source are kept as their UTF-8 bytes. *)
Definition patternLines (title : string) (pattern : option Pattern.t)
  : list string :=
  match pattern with
  | Some p =>
      [title;
       tpl ["- Keystrokes: "; JS.show (Pattern.keystrokeCount p)];
       tpl ["- SeekTime: avg="; JS.show (FieldStats.avg (Pattern.seekTime p));
            "ms, std="; JS.show (FieldStats.std (Pattern.seekTime p));
            "ms, range="; JS.show (FieldStats.range (Pattern.seekTime p));
            "ms"];
       tpl ["- PressTime: avg="; JS.show (FieldStats.avg (Pattern.pressTime p));
            "ms, std="; JS.show (FieldStats.std (Pattern.pressTime p)); "ms"];
       ""]
  | None => []
  end.

(** [if (analysis.details.p) lines.push(`- ${name}: ${analysis.details.p}x ✅`)]. *)
Definition usageLine (name : string) (x : option Z) : list string :=
  if truthy x
  then [tpl ["- "; name; ": "; JS.show (JS.or0 x); "x ✅"]]
  else [].

(** The lines of the report of an analysis that has scores and details. *)
Definition lines (analysis : Result.t) (scores : Scores.t) (details : Details.t)
  : list string :=
  [("=== Login Behavior Analysis Report ===" ++ nl)%string;
   "[Result]";
   tpl ["- Verdict: ";
        if Result.isBot analysis then "🤖 Bot/Script" else "✅ Human"];
   tpl ["- Bot Probability: "; JS.show (Result.confidence analysis); "%"];
   tpl ["- Scores: Bot="; JS.show (Scores.bot scores); ", Human=";
        JS.show (Scores.human scores)];
   ""]
  ++ (if (0 <? List.length (Result.reasons analysis))%nat
      then ["[Anomalies Detected]"]
           ++ map (fun r => tpl ["  ⚠️ "; r]) (Result.reasons analysis)
           ++ [""]
      else [])
  ++ patternLines "[Username Typing]" (Details.userPattern details)
  ++ patternLines "[Password Typing]" (Details.passPattern details)
  ++ ["[Other Features]"]
  ++ usageLine "IME Usage" (Details.ime details)
  ++ usageLine "Shift Usage" (Details.shift details)
  ++ usageLine "CapsLock Usage" (Details.capsLock details).

(** [generateReport(stats, parser = null)].  The degraded result of
    [analyze] has no [scores]: reading [analysis.scores.bot] throws. *)
Definition generateReport (ambient : option Parser.t) (stats : Stats.t)
           (parser : option Parser.t) : Outcome :=
  let analysis := analyze ambient stats parser in
  match Result.scores analysis, Result.details analysis with
  | Some scores, Some details => Returned (join (lines analysis scores details))
  | _, _ => TypeError
  end.

End Report.

(* ================================================================== *)
(** * The binary64 computation and the ordinary range of the telemetry *)
(* ================================================================== *)

(** The model above computes the statistics on the exact numbers, the source
    in binary64.  The two agree in structure; their rounded outputs can
    differ where a rounding error of the doubles moves an intermediate value
    across a rounding boundary, and nothing is exact once a sum passes 2^53
    or a square overflows.  [Binary64] holds the double computation of the
    kernels, to exhibit such differences on concrete inputs; [Ordinary] holds
    the ranges and the tolerance under which the statements about rounded
    outputs are made. *)
Module Ordinary.

(** At most 10^4 samples, each of magnitude at most 10^9 (milliseconds or
    pixels): the sums stay far below 2^53. *)
Definition maxLength : Z := 10000.
Definition maxValue : Z := 1000000000.

Definition values (arr : list Z) : Prop :=
  Z.of_nat (List.length arr) <= maxLength
  /\ Forall (fun t => Z.abs t <= maxValue) arr.

Definition points (sample : list Point.t) : Prop :=
  Forall (fun p => Z.abs (Point.x p) <= maxValue
                   /\ Z.abs (Point.y p) <= maxValue) sample.

(** An integer a double holds exactly. *)
Definition safe (z : Z) : Prop := Z.abs z <= 2 ^ 53.

Definition keystroke (k : Keystroke.t) : Prop :=
  safe (Keystroke.seekTime k) /\ safe (Keystroke.pressTime k).

(** [n] copies of [v] add up without rounding. *)
Definition exactSums (n : nat) (v : Z) : Prop :=
  Z.of_nat n * Z.abs v <= 2 ^ 53.







End Ordinary.

Module Binary64.

Import Floats.

(** The double nearest to an integer, ties to even; exact up to 2^53,
    infinite from 2^1024 on. *)
Definition ofZ (z : Z) : float :=
  SF2Prim (binary_normalize prec emax z 0 false).

(** [Math.round x] on a finite double: [floor (x + 1/2)] of its exact value;
    [None] for [NaN] and the infinities, which [Math.round] returns as they
    are. *)
Definition round (x : float) : option Z :=
  match Prim2SF x with
  | S754_zero _ => Some 0
  | S754_finite _ _ _ => Some (JS.Math_round (Double.toQ x))
  | _ => None
  end.

(** [arr.reduce((a, b) => a + b, 0)]. *)
Definition sum (arr : list float) : float := fold_left PrimFloat.add arr zero.

(** [arr.length] as a number. *)
Definition count (arr : list float) : float :=
  ofZ (Z.of_nat (List.length arr)).

Definition mean (arr : list float) : float := div (sum arr) (count arr).

(** [arr.reduce((sum, t) => sum + Math.pow(t - avg, 2), 0) / arr.length];
    [Math.pow(x, 2)] is [x * x] (the engines' [pow] returns [x * x] for the
    exponent 2). *)
Definition variance (arr : list float) : float :=
  let avg := mean arr in
  div (fold_left (fun s t => add s (mul (sub t avg) (sub t avg))) arr zero)
      (count arr).

Definition std (arr : list float) : float := sqrt (variance arr).

(** The [avg] and the [std] of [calcStats] on a non-empty array of
    integers. *)
Definition avgOf (arr : list Z) : option Z := round (mean (map ofZ arr)).

Definition stdOf (arr : list Z) : option Z :=
  if (1 <? List.length arr)%nat then round (std (map ofZ arr)) else Some 0.

(** The test [std === 0] of [analyzeDistribution]. *)
Definition stdIsZero (values : list Z) : bool :=
  eqb (std (map ofZ values)) zero.

(** [Math.min] and [Math.max] of two numbers: [NaN] if one of them is. *)
Definition min (a b : float) : float :=
  if is_nan a || is_nan b then nan else if ltb a b then a else b.
Definition max (a b : float) : float :=
  if is_nan a || is_nan b then nan else if ltb a b then b else a.

(** The clamped cosine of the second loop of [analyzeTrajectory] at one
    index; [None] when [mag1 > 0 && mag2 > 0] fails and the index is
    skipped. *)
Definition cosine (p0 p1 p2 : Point.t) : option float :=
  let v1x := sub (ofZ (Point.x p1)) (ofZ (Point.x p0)) in
  let v1y := sub (ofZ (Point.y p1)) (ofZ (Point.y p0)) in
  let v2x := sub (ofZ (Point.x p2)) (ofZ (Point.x p1)) in
  let v2y := sub (ofZ (Point.y p2)) (ofZ (Point.y p1)) in
  let mag1 := sqrt (add (mul v1x v1x) (mul v1y v1y)) in
  let mag2 := sqrt (add (mul v2x v2x) (mul v2y v2y)) in
  if ltb zero mag1 && ltb zero mag2 then
    let dot := add (mul v1x v2x) (mul v1y v2y) in
    Some (max (ofZ (-1)) (min one (div dot (mul mag1 mag2))))
  else None.

(** The doubles 0.1, 0.09 and 0.52. *)
Definition tenth : float := 0x1.999999999999ap-4.
Definition nineHundredths : float := 0x1.70a3d70a3d70ap-4.
Definition fiftyTwoHundredths : float := 0x1.0a3d70a3d70a4p-1.

(** The body of the second loop at one index; [acos] is the [Math.acos] of
    the engine. *)
Definition countTurn (acos : float -> float) (p0 p1 p2 : Point.t)
           (c : TypingParser.Counters) : TypingParser.Counters :=
  match cosine p0 p1 p2 with
  | Some cosAngle =>
      let angle := acos cosAngle in
      TypingParser.mkCounters
        (if ltb angle tenth then TypingParser.smoothSegments c + 1
         else TypingParser.smoothSegments c)
        (if ltb nineHundredths angle && ltb angle fiftyTwoHundredths
         then TypingParser.corrections c + 1
         else TypingParser.corrections c)
  | None => c
  end.

Fixpoint turnLoop (acos : float -> float) (points : list Point.t)
         (c : TypingParser.Counters) : TypingParser.Counters :=
  match points with
  | p0 :: ((p1 :: p2 :: _) as rest) =>
      turnLoop acos rest (countTurn acos p0 p1 p2 c)
  | _ => c
  end.

End Binary64.

(* ================================================================== *)
(** * The scoring of [analyzeLogin] as a list of weighted flags *)
(* ================================================================== *)

(** [TypingAnalyzer.analyzeLogin] has no flag weights of its own: a field
    adds [botFlags.length * 2] and [humanFlags.length], whatever the flags,
    and the other checks add constants.  [triggered] lists the flags that
    fire with these weights, in the order of the source. *)
Module LegacyCatalog.

Import SignalCatalog.
Local Open Scope string_scope.
Local Open Scope list_scope.
Local Open Scope Z_scope.

Definition weightOf (ty : Tag) : Z :=
  match ty with bot => 2 | human => 1 end.

Definition ofFlags (label : string) (flags : list TypingAnalyzer.Flag.t)
  : list Signal :=
  map (fun f => mk (TypingAnalyzer.Flag.type f)
                   (weightOf (TypingAnalyzer.Flag.type f))
                   (Some label)
                   (Some (TypingAnalyzer.Flag.reason f))) flags.

Definition fieldSignals (label : string) (patternStr : option string)
  : list Signal :=
  let analysis :=
    TypingAnalyzer.analyzeFieldTyping (TypingAnalyzer.parsePattern patternStr) in
  if TypingAnalyzer.FieldAnalysis.valid analysis
  then ofFlags label (TypingAnalyzer.FieldAnalysis.botFlags analysis)
       ++ ofFlags label (TypingAnalyzer.FieldAnalysis.humanFlags analysis)
  else [].

Definition timingSignals (stats : Stats.t) : list Signal :=
  when (JS.lt (Stats.usernameToPasswordMs stats)
              TypingAnalyzer.thresholds.timing.userToPassMin)
       (mk bot 2 None
           (Some (TypingAnalyzer.tpl
                    ["Username to password interval too short (";
                     JS.show (JS.or0 (Stats.usernameToPasswordMs stats));
                     "ms < ";
                     JS.show TypingAnalyzer.thresholds.timing.userToPassMin;
                     "ms)"])))
  ++ when (JS.lt (Stats.passwordToLoginMs stats)
                 TypingAnalyzer.thresholds.timing.passToLoginMin)
          (mk bot 2 None
              (Some (TypingAnalyzer.tpl
                       ["Password to login interval too short (";
                        JS.show (JS.or0 (Stats.passwordToLoginMs stats));
                        "ms < ";
                        JS.show TypingAnalyzer.thresholds.timing.passToLoginMin;
                        "ms)"]))).

Definition trajectorySignals (stats : Stats.t) : list Signal :=
  match Stats.trajectory stats with
  | None => []
  | Some traj =>
      let points := Trajectory.points traj in
      let distancePx := Trajectory.distancePx traj in
      when (JS.lt points TypingAnalyzer.thresholds.trajectory.minPoints)
           (mk bot 1 None
               (Some (TypingAnalyzer.tpl
                        ["Too few mouse trajectory points (";
                         JS.show (JS.or0 points); " < ";
                         JS.show TypingAnalyzer.thresholds.trajectory.minPoints;
                         ")"])))
      ++ when (JS.lt distancePx TypingAnalyzer.thresholds.trajectory.minDistance
               && Trajectory.captured traj)
              (mk bot 1 None
                  (Some (TypingAnalyzer.tpl
                           ["Mouse movement distance too short (";
                            JS.show (JS.or0 distancePx); "px < ";
                            JS.show TypingAnalyzer.thresholds.trajectory.minDistance;
                            "px)"])))
      ++ when (JS.gt points 5 && JS.gt distancePx 100) (mk human 2 None None)
  end.

Definition pasteSignals (stats : Stats.t) : list Signal :=
  when (JS.gt (Stats.pasteUser stats) 0)
       (mk bot 1 None (Some "Username was pasted"))
  ++ when (JS.gt (Stats.pastePass stats) 0)
          (mk bot 1 None (Some "Password was pasted")).

Definition imeSignals (stats : Stats.t) : list Signal :=
  when (0 <? JS.or_else (Stats.usernameIMECompositionCount stats)
                        (JS.or0 (Stats.imeUser stats))
             + JS.or_else (Stats.passwordIMECompositionCount stats)
                          (JS.or0 (Stats.imePass stats)))
       (mk human 3 None None).

Definition shiftSignals (stats : Stats.t) : list Signal :=
  let shiftCount :=
    JS.or_else (Stats.passwordShiftCount stats) (JS.or0 (Stats.shiftCount stats)) in
  let capsLockCount :=
    JS.or_else (Stats.passwordCapsLockCount stats)
               (JS.or0 (Stats.capsLockCount stats)) in
  let pastePass := JS.or0 (Stats.pastePass stats) in
  when (0 <? shiftCount) (mk human 2 None None)
  ++ when (0 <? capsLockCount) (mk human 1 None None)
  ++ match Stats.password stats with
     | None | Some EmptyString => []
     | Some password =>
         when ((JS.testUpperCase password || JS.testSpecialChar password)
               && negb ((0 <? shiftCount) || (0 <? capsLockCount))
               && negb (0 <? pastePass))
              (mk bot 3 None
                  (Some "Password contains uppercase or special chars but no Shift/CapsLock detected and not pasted"))
     end.

(** The flags that fire on [stats] in [analyzeLogin]. *)
Definition triggered (stats : Stats.t) : list Signal :=
  fieldSignals "Username" (Stats.lastUserTp stats)
  ++ fieldSignals "Password" (Stats.lastPassTp stats)
  ++ timingSignals stats
  ++ trajectorySignals stats
  ++ pasteSignals stats
  ++ imeSignals stats
  ++ shiftSignals stats.

(** From [st] to [st'] the scores grow by the weights of [sigs]. *)
Definition adds (sigs : list Signal) (st st' : TypingAnalyzer.State) : Prop :=
  TypingAnalyzer.botScore st' = TypingAnalyzer.botScore st + total bot sigs
  /\ TypingAnalyzer.humanScore st'
     = TypingAnalyzer.humanScore st + total human sigs.

End LegacyCatalog.

(* ================================================================== *)
(** * Inputs on which the exact and the binary64 computation part *)
(* ================================================================== *)

(** Two keystrokes 20 ms apart: one bot flag and one human flag in either
    analyzer. *)
Definition pattern_two_fast : string := "v1|20,50|20,50".



(** Five times the largest odd integer below 2^53. *)
Definition huge_identical : list Z := repeat 9007199254740991 5.


(* ================================================================== *)
(** * Proofs *)
(* ================================================================== *)

(** Case analysis on every scrutinee of the goal. *)
Ltac break :=
  repeat match goal with
    | |- context [match ?x with _ => _ end] => destruct x
    end.

Section Confidence.

Lemma Math_round_percent (b t : Z) :
  0 < t ->
  JS.Math_round (inject_Z b / inject_Z t * 100)%Q = (200 * b + t) / (2 * t).
Proof.
  intros Ht. destruct t as [|p|p]; try lia.
  unfold JS.Math_round.
  assert (E : (inject_Z b / inject_Z (Z.pos p) * 100 + (1 # 2)
               == (200 * b + Z.pos p) # (2 * p))%Q).
  { unfold Qeq, Qdiv, Qmult, Qplus, Qinv, inject_Z; cbn [Qnum Qden].
    rewrite ?Pos2Z.inj_mul. ring. }
  rewrite (Qfloor_comp _ _ E). unfold Qfloor. reflexivity.
Qed.

Lemma confidenceOf_div (b h : Z) :
  AutomationDetector.confidenceOf b h
  = if 0 <? b + h then (200 * b + (b + h)) / (2 * (b + h)) else 0.
Proof.
  unfold AutomationDetector.confidenceOf.
  destruct (Z.ltb_spec 0 (b + h)) as [H|H]; [|reflexivity].
  now apply Math_round_percent.
Qed.

Lemma confidenceOf_percentOf (b h : Z) :
  0 <= b -> 0 <= h ->
  Exact.percentOf (AutomationDetector.confidenceOf b h) b h.
Proof.
  intros Hb Hh. rewrite confidenceOf_div. unfold Exact.percentOf.
  destruct (Z.eqb_spec (b + h) 0) as [E|E].
  - rewrite E. reflexivity.
  - destruct (Z.ltb_spec 0 (b + h)) as [H|H]; [|lia].
    pose proof (Z.mul_div_le (200 * b + (b + h)) (2 * (b + h)) ltac:(lia)).
    pose proof (Z.mul_succ_div_gt (200 * b + (b + h)) (2 * (b + h)) ltac:(lia)).
    nia.
Qed.

Lemma confidenceOf_nonneg (b h : Z) :
  0 <= b -> 0 <= AutomationDetector.confidenceOf b h.
Proof.
  intros Hb. rewrite confidenceOf_div.
  destruct (Z.ltb_spec 0 (b + h)); [|lia].
  apply Z.div_pos; lia.
Qed.

Lemma confidenceOf_monotone (h b1 b2 : Z) :
  0 <= h -> 0 <= b1 -> b1 <= b2 ->
  AutomationDetector.confidenceOf b1 h <= AutomationDetector.confidenceOf b2 h.
Proof.
  intros Hh Hb1 Hb.
  destruct (Z.ltb_spec 0 (b1 + h)) as [H1|H1].
  - rewrite !confidenceOf_div.
    destruct (Z.ltb_spec 0 (b1 + h)); [|lia].
    destruct (Z.ltb_spec 0 (b2 + h)); [|lia].
    apply Z.div_le_lower_bound; [lia|].
    pose proof (Z.mul_div_le (200 * b1 + (b1 + h)) (2 * (b1 + h)) ltac:(lia)) as L.
    set (c := (200 * b1 + (b1 + h)) / (2 * (b1 + h))) in *.
    assert (0 <= c) by (apply Z.div_pos; lia).
    assert (b1 * h <= b2 * h) by nia.
    assert (c * (2 * (b2 + h)) * (b1 + h) <= (200 * b2 + (b2 + h)) * (b1 + h)).
    { transitivity ((200 * b1 + (b1 + h)) * (b2 + h)); nia. }
    nia.
  - rewrite (confidenceOf_div b1).
    destruct (Z.ltb_spec 0 (b1 + h)); [lia|].
    apply confidenceOf_nonneg; lia.
Qed.

Lemma confidenceOf_zero : AutomationDetector.confidenceOf 0 0 = 0.
Proof. reflexivity. Qed.

Lemma confidenceOf_all_bot (b : Z) :
  0 < b -> AutomationDetector.confidenceOf b 0 = 100.
Proof.
  intros Hb. rewrite confidenceOf_div, Z.add_0_r.
  destruct (Z.ltb_spec 0 b); [|lia].
  replace (200 * b + b) with (b + 100 * (2 * b)) by ring.
  rewrite Z.div_add by lia. rewrite Z.div_small; lia.
Qed.

Lemma legacy_confidenceOf (b h : Z) :
  TypingAnalyzer.confidenceOf b h = AutomationDetector.confidenceOf b h.
Proof. reflexivity. Qed.

End Confidence.

Section Accounting.

Import AutomationDetector SignalCatalog.
Local Open Scope string_scope.
Local Open Scope list_scope.
Local Open Scope Z_scope.

Lemma total_app ty (a b : list Signal) :
  total ty (a ++ b) = total ty a + total ty b.
Proof.
  unfold total. rewrite filter_app, map_app.
  induction (map weight (filter (hasTag ty) a)) as [|x l IH]; simpl; lia.
Qed.

Lemma botLines_app (a b : list Signal) :
  botLines (a ++ b) = botLines a ++ botLines b.
Proof. unfold botLines. apply flat_map_app. Qed.

Lemma accounts_init : accounts init [].
Proof. repeat split. Qed.

Lemma accounts_nil st sigs : accounts st sigs -> accounts st (sigs ++ []).
Proof. now rewrite app_nil_r. Qed.

Lemma accounts_setDetails f st sigs :
  accounts st sigs -> accounts (setDetails f st) sigs.
Proof. intros H. exact H. Qed.

Lemma accounts_addBot w r l r0 st sigs :
  line (mk bot w l (Some r0)) = Some r ->
  accounts st sigs ->
  accounts (addBot w r st) (sigs ++ [mk bot w l (Some r0)]).
Proof.
  intros Hl (Hb & Hh & Hr). unfold accounts.
  rewrite !total_app, botLines_app. cbn [addBot botScore humanScore reasons].
  rewrite Hb, Hh, Hr.
  assert (E : botLines [mk bot w l (Some r0)] = [r]).
  { unfold botLines. cbn [flat_map tag]. rewrite Hl. reflexivity. }
  rewrite E. unfold total. cbn. repeat split; try lia.
Qed.

Lemma accounts_addHuman w l r0 st sigs :
  accounts st sigs ->
  accounts (addHuman w st) (sigs ++ [mk human w l r0]).
Proof.
  intros (Hb & Hh & Hr). unfold accounts.
  rewrite !total_app, botLines_app. cbn [addHuman botScore humanScore reasons].
  rewrite Hb, Hh, Hr. unfold total, botLines. cbn.
  rewrite app_nil_r. repeat split; lia.
Qed.

Lemma accounts_forEachBot prefix label flags :
  prefixOf label prefix ->
  forall st sigs,
    accounts st sigs ->
    accounts (forEachBot prefix flags st) (sigs ++ ofFlags bot label flags).
Proof.
  intros Hp. unfold forEachBot.
  induction flags as [|f flags IH]; intros st sigs H; cbn [fold_left ofFlags map].
  - now apply accounts_nil.
  - change (sigs ++ ?x :: ?l) with (sigs ++ [x] ++ l). rewrite app_assoc.
    apply IH. apply accounts_addBot; [|exact H].
    specialize (Hp (Flag.reason f)). unfold line in *. cbn in *. exact Hp.
Qed.

Lemma accounts_forEachHuman label flags :
  forall st sigs,
    accounts st sigs ->
    accounts (forEachHuman flags st) (sigs ++ ofFlags human label flags).
Proof.
  unfold forEachHuman.
  induction flags as [|f flags IH]; intros st sigs H; cbn [fold_left ofFlags map].
  - now apply accounts_nil.
  - change (sigs ++ ?x :: ?l) with (sigs ++ [x] ++ l). rewrite app_assoc.
    apply IH. now apply accounts_addHuman.
Qed.

Lemma accounts_whenBot (c : bool) w r st sigs :
  accounts st sigs ->
  accounts (if c then addBot w r st else st)
           (sigs ++ when c (mk bot w None (Some r))).
Proof.
  intros H. destruct c; cbn [when].
  - now apply accounts_addBot.
  - now apply accounts_nil.
Qed.

Lemma accounts_whenHuman (c : bool) w f st sigs :
  accounts st sigs ->
  accounts (if c then setDetails f (addHuman w st) else st)
           (sigs ++ when c (mk human w None None)).
Proof.
  intros H. destruct c; cbn [when].
  - apply accounts_setDetails. now apply accounts_addHuman.
  - now apply accounts_nil.
Qed.

Lemma prefixOf_none : prefixOf None "".
Proof. intros r. reflexivity. Qed.

Lemma accounts_fieldBlock p label set_analysis set_dist pattern st sigs :
  prefixOf (Some label) (tpl ["["; label; "] "]) ->
  prefixOf (Some (label ++ " SeekTime")%string) (tpl ["["; label; " SeekTime] "]) ->
  accounts st sigs ->
  accounts (fieldBlock p label set_analysis set_dist pattern st)
           (sigs ++ fieldSignals p label pattern).
Proof.
  intros P1 P2 H. unfold fieldBlock, fieldSignals.
  destruct pattern as [pat|]; [|now apply accounts_nil].
  cbv zeta. rewrite !app_assoc.
  unfold seekDistributionBlock.
  destruct (4 <? List.length (Raw.seekTimes (Pattern.raw pat)))%nat.
  - apply accounts_forEachBot; [exact P2|]. apply accounts_setDetails.
    apply accounts_forEachHuman. apply accounts_forEachBot; [exact P1|].
    now apply accounts_setDetails.
  - apply accounts_nil.
    apply accounts_forEachHuman. apply accounts_forEachBot; [exact P1|].
    now apply accounts_setDetails.
Qed.

Lemma accounts_timingBlock stats st sigs :
  accounts st sigs ->
  accounts (timingBlock stats st) (sigs ++ timingSignals stats).
Proof.
  intros H. unfold timingBlock, timingSignals. rewrite app_assoc.
  apply accounts_whenBot. now apply accounts_whenBot.
Qed.

Lemma prefixOf_trajectory : prefixOf (Some "Trajectory"%string) "[Trajectory] ".
Proof. intros r. reflexivity. Qed.

Lemma accounts_trajectoryBlock p stats st sigs :
  accounts st sigs ->
  accounts (trajectoryBlock p stats st) (sigs ++ trajectorySignals p stats).
Proof.
  intros H. unfold trajectoryBlock, trajectorySignals.
  destruct (Stats.trajectory stats) as [traj|]; [|now apply accounts_nil].
  cbv zeta.
  destruct (TrajectoryAnalysis.valid (Parser.analyzeTrajectory p traj));
    [|now apply accounts_nil].
  rewrite !app_assoc.
  apply accounts_forEachBot; [exact prefixOf_trajectory|].
  match goal with
  | |- accounts (if ?c then addHuman ?w ?s else ?s) _ =>
      destruct c; cbn [when]; [apply accounts_addHuman|apply accounts_nil]
  end; apply accounts_whenBot; apply accounts_whenBot;
    now apply accounts_setDetails.
Qed.

Lemma accounts_pasteBlock stats st sigs :
  accounts st sigs ->
  accounts (pasteBlock stats st) (sigs ++ pasteSignals stats).
Proof.
  intros H. unfold pasteBlock, pasteSignals. rewrite app_assoc.
  apply accounts_whenBot. now apply accounts_whenBot.
Qed.

Lemma accounts_imeBlock stats st sigs :
  accounts st sigs ->
  accounts (imeBlock stats st) (sigs ++ imeSignals stats).
Proof.
  intros H. unfold imeBlock, imeSignals. cbv zeta.
  now apply accounts_whenHuman.
Qed.

Lemma accounts_shiftBlock stats st sigs :
  accounts st sigs ->
  accounts (shiftBlock stats st) (sigs ++ shiftSignals stats).
Proof.
  intros H. unfold shiftBlock, shiftSignals. cbv zeta. rewrite app_assoc.
  apply accounts_whenHuman. now apply accounts_whenHuman.
Qed.

Lemma accounts_run p stats : accounts (run p stats) (triggered p stats).
Proof.
  unfold run, triggered. cbv zeta.
  rewrite !app_assoc.
  unfold syntheticBlock, webdriverBlock, passwordBlock.
  apply accounts_forEachBot; [intros r; reflexivity|].
  apply accounts_forEachBot; [intros r; reflexivity|].
  apply accounts_forEachBot; [exact prefixOf_none|].
  apply accounts_setDetails.
  apply accounts_shiftBlock, accounts_imeBlock, accounts_pasteBlock,
    accounts_trajectoryBlock, accounts_timingBlock.
  apply accounts_fieldBlock; [intros r; reflexivity..|].
  apply (accounts_fieldBlock _ _ _ _ _ _ []); [intros r; reflexivity..|].
  apply accounts_setDetails. exact accounts_init.
Qed.

End Accounting.

Section Bounds.

Import AutomationDetector SignalCatalog.
Local Open Scope string_scope.
Local Open Scope list_scope.
Local Open Scope Z_scope.

Lemma flagSum_app a b : flagSum (a ++ b) = flagSum a + flagSum b.
Proof.
  unfold flagSum. rewrite map_app.
  induction (map Flag.weight a); simpl; lia.
Qed.

Lemma total_ofFlags ty ty' label flags :
  total ty (ofFlags ty' label flags)
  = if hasTag ty (mk ty' 0 None None) then flagSum flags else 0.
Proof.
  unfold total, ofFlags, flagSum.
  induction flags as [|f l IH]; cbn [map filter].
  - destruct ty, ty'; reflexivity.
  - destruct ty, ty'; cbn in *; lia.
Qed.

Lemma total_when ty c s :
  total ty (when c s) = if c && hasTag ty s then weight s else 0.
Proof. destruct c; unfold total; cbn; [destruct (hasTag ty s); cbn; lia|reflexivity]. Qed.

Lemma flagSum_pushIf c f :
  flagSum (pushIf c f) = if c then Flag.weight f else 0.
Proof. destruct c; unfold flagSum; cbn; lia. Qed.

Lemma detectGaussianPattern_sum d :
  0 <= flagSum (detectGaussianPattern d) <= 8.
Proof.
  unfold detectGaussianPattern.
  destruct (negb (Distribution.valid d)); [cbn; lia|].
  rewrite !flagSum_app.
  destruct (Distribution.skewness d), (Distribution.kurtosis d),
    (Distribution.roundNumberRatio d), (Distribution.maxConsecutiveSimilar d),
    (Distribution.cv d);
    rewrite ?flagSum_pushIf; cbn [flagSum map fold_right botFlag Flag.weight];
    break; lia.
Qed.

Lemma detectTrajectoryAutomation_sum ta :
  0 <= flagSum (detectTrajectoryAutomation ta) <= 7.
Proof.
  unfold detectTrajectoryAutomation.
  destruct (negb (TrajectoryAnalysis.valid ta)); [cbn; lia|].
  rewrite !flagSum_app.
  destruct (TrajectoryAnalysis.smoothRatio ta),
    (TrajectoryAnalysis.correctionRatio ta),
    (TrajectoryAnalysis.intervalStats ta) as [st|];
    try destruct (Distribution.valid st); try destruct (Distribution.cv st);
    rewrite ?flagSum_pushIf; cbn [flagSum map fold_right botFlag Flag.weight];
    break; lia.
Qed.

Lemma detectWebDriver_sum stats :
  0 <= flagSum (detectWebDriver stats) <= 25.
Proof.
  unfold detectWebDriver.
  destruct (Stats.automationFlags stats) as [af|];
    rewrite ?flagSum_app, ?flagSum_pushIf;
    cbn [flagSum map fold_right botFlag Flag.weight]; break; lia.
Qed.

Lemma detectSyntheticEvents_sum stats :
  0 <= flagSum (detectSyntheticEvents stats) <= 7.
Proof.
  unfold detectSyntheticEvents.
  rewrite flagSum_app, flagSum_pushIf.
  destruct (Stats.syntheticKeyEvents stats), (Stats.totalKeyEvents stats);
    try match goal with |- context [(0 <? ?z)] => destruct (0 <? z) end;
    rewrite ?flagSum_pushIf; cbn [flagSum map fold_right botFlag Flag.weight];
    break; lia.
Qed.

Lemma detectPasswordMismatch_sum stats :
  0 <= flagSum (fst (detectPasswordMismatch stats)) <= 3.
Proof.
  unfold detectPasswordMismatch.
  destruct (Stats.password stats) as [[|c s]|]; cbn [fst flagSum map fold_right];
    try lia.
  fold (flagSum (pushIf
    ((JS.testUpperCase (String c s) || JS.testSpecialChar (String c s)) &&
     negb ((0 <? JS.or_else (Stats.passwordShiftCount stats) (JS.or0 (Stats.shiftCount stats)))
           || (0 <? JS.or_else (Stats.passwordCapsLockCount stats) (JS.or0 (Stats.capsLockCount stats)))) &&
     negb (0 <? JS.or0 (Stats.pastePass stats)))
    (botFlag 3 "Password has uppercase/special chars but no Shift/CapsLock and not pasted"))).
  rewrite flagSum_pushIf. break; cbn; lia.
Qed.

Lemma analyzeFieldTyping_sums pattern :
  0 <= flagSum (FieldAnalysis.botFlags (analyzeFieldTyping pattern)) <= 11
  /\ 0 <= flagSum (FieldAnalysis.humanFlags (analyzeFieldTyping pattern)) <= 4.
Proof.
  unfold analyzeFieldTyping.
  destruct pattern as [p|]; [|cbn; lia].
  destruct (Pattern.keystrokeCount p =? 0); [cbn; lia|].
  cbn [FieldAnalysis.botFlags FieldAnalysis.humanFlags].
  rewrite !flagSum_app, !flagSum_pushIf.
  destruct (FieldStats.avg (Pattern.seekTime p) <? thresholds.seekTime.tooFast);
    rewrite ?flagSum_pushIf; cbn [flagSum map fold_right plainFlag Flag.weight];
    break; lia.
Qed.

End Bounds.

Section CatalogueBounds.

Import AutomationDetector SignalCatalog.
Local Open Scope string_scope.
Local Open Scope list_scope.
Local Open Scope Z_scope.

Lemma fieldSignals_bounds p label pattern :
  0 <= total bot (fieldSignals p label pattern) <= 19
  /\ 0 <= total human (fieldSignals p label pattern) <= 4.
Proof.
  unfold fieldSignals. destruct pattern as [pat|]; [|cbn; lia].
  cbv zeta. rewrite !total_app, !total_ofFlags. cbn [hasTag tag].
  pose proof (analyzeFieldTyping_sums (Some pat)) as [Hb Hh].
  destruct (4 <? List.length (Raw.seekTimes (Pattern.raw pat)))%nat.
  - rewrite !total_ofFlags. cbn [hasTag tag].
    pose proof (detectGaussianPattern_sum
                  (Parser.analyzeDistribution p (Raw.seekTimes (Pattern.raw pat)))).
    lia.
  - unfold total; cbn [filter map fold_right]. lia.
Qed.

Lemma timingSignals_bounds stats :
  0 <= total bot (timingSignals stats) <= 4
  /\ total human (timingSignals stats) = 0.
Proof.
  unfold timingSignals. rewrite !total_app, !total_when.
  cbn [hasTag tag weight]. rewrite ?andb_false_r, ?andb_true_r.
  break; cbn; lia.
Qed.

Lemma trajectorySignals_bounds p stats :
  0 <= total bot (trajectorySignals p stats) <= 9
  /\ 0 <= total human (trajectorySignals p stats) <= 2.
Proof.
  unfold trajectorySignals.
  destruct (Stats.trajectory stats) as [traj|]; [|cbn; lia].
  cbv zeta.
  destruct (TrajectoryAnalysis.valid (Parser.analyzeTrajectory p traj));
    [|cbn; lia].
  rewrite !total_app, !total_when, !total_ofFlags.
  cbn [hasTag tag weight].
  pose proof (detectTrajectoryAutomation_sum (Parser.analyzeTrajectory p traj)).
  rewrite !andb_false_r, !andb_true_r. break; lia.
Qed.

Lemma pasteSignals_bounds stats :
  0 <= total bot (pasteSignals stats) <= 2
  /\ total human (pasteSignals stats) = 0.
Proof.
  unfold pasteSignals. rewrite !total_app, !total_when.
  cbn [hasTag tag weight]. rewrite ?andb_false_r, ?andb_true_r.
  break; cbn; lia.
Qed.

Lemma imeSignals_bounds stats :
  total bot (imeSignals stats) = 0
  /\ 0 <= total human (imeSignals stats) <= 3.
Proof.
  unfold imeSignals. rewrite !total_when.
  cbn [hasTag tag weight]. rewrite ?andb_false_r, ?andb_true_r.
  break; cbn; lia.
Qed.

Lemma shiftSignals_bounds stats :
  total bot (shiftSignals stats) = 0
  /\ 0 <= total human (shiftSignals stats) <= 3.
Proof.
  unfold shiftSignals. rewrite !total_app, !total_when.
  cbn [hasTag tag weight]. rewrite ?andb_false_r, ?andb_true_r.
  break; cbn; lia.
Qed.

(** The scores [analyze] can reach. *)
Lemma triggered_bounds p stats :
  0 <= total bot (triggered p stats) <= 88
  /\ 0 <= total human (triggered p stats) <= 16.
Proof.
  unfold triggered. rewrite !total_app, !total_ofFlags. cbn [hasTag tag].
  pose proof (fieldSignals_bounds p "Username"
                (Parser.parsePattern p (Stats.lastUserTp stats))).
  pose proof (fieldSignals_bounds p "Password"
                (Parser.parsePattern p (Stats.lastPassTp stats))).
  pose proof (timingSignals_bounds stats).
  pose proof (trajectorySignals_bounds p stats).
  pose proof (pasteSignals_bounds stats).
  pose proof (imeSignals_bounds stats).
  pose proof (shiftSignals_bounds stats).
  pose proof (detectPasswordMismatch_sum stats).
  pose proof (detectWebDriver_sum stats).
  pose proof (detectSyntheticEvents_sum stats).
  lia.
Qed.

Lemma run_scores p stats :
  botScore (run p stats) = total bot (triggered p stats)
  /\ humanScore (run p stats) = total human (triggered p stats).
Proof. destruct (accounts_run p stats) as (Hb & Hh & _). now split. Qed.

End CatalogueBounds.

Section DoubleAgreement.

Lemma agreeUpTo_spec (mb mh : nat) :
  Double.agreeUpTo mb mh = true ->
  forall b h, 0 <= b <= Z.of_nat mb -> 0 <= h <= Z.of_nat mh ->
              Double.confidenceOf b h = AutomationDetector.confidenceOf b h.
Proof.
  unfold Double.agreeUpTo. intros H b h Hb Hh.
  rewrite forallb_forall in H.
  specialize (H (Z.to_nat b)). rewrite in_seq in H.
  specialize (H ltac:(lia)). rewrite forallb_forall in H.
  specialize (H (Z.to_nat h)). rewrite in_seq in H.
  specialize (H ltac:(lia)). rewrite !Z2Nat.id in H by lia.
  now apply Z.eqb_eq.
Qed.

(** On every pair of scores [analyze] and [analyzeLogin] can reach, the
    confidence computed on binary64 doubles is the exact one. *)
Lemma double_confidence_exact (b h : Z) :
  0 <= b <= 88 -> 0 <= h <= 16 ->
  Double.confidenceOf b h = AutomationDetector.confidenceOf b h.
Proof.
  intros Hb Hh. apply (agreeUpTo_spec 88 16); [vm_compute; reflexivity|lia..].
Qed.

(** So the double computation is monotone in botScore on those scores. *)
Lemma double_confidence_monotone (h b1 b2 : Z) :
  0 <= h <= 16 -> 0 <= b1 -> b1 <= b2 -> b2 <= 88 ->
  Double.confidenceOf b1 h <= Double.confidenceOf b2 h.
Proof.
  intros Hh H1 H12 H2.
  rewrite !double_confidence_exact by lia.
  apply confidenceOf_monotone; lia.
Qed.

(** It is not on all scores: with [humanScore = 17] the double product
    [(23 / 40) * 100] falls just below 57.5. *)
Lemma double_confidence_differs :
  Double.confidenceOf 23 17 = 57 /\ AutomationDetector.confidenceOf 23 17 = 58.
Proof. split; vm_compute; reflexivity. Qed.

End DoubleAgreement.

Section LegacyBounds.

Import TypingAnalyzer.
Local Open Scope string_scope.
Local Open Scope list_scope.
Local Open Scope Z_scope.

Lemma push_all_scores (f : Flag.t -> string) flags st :
  botScore (fold_left (fun st x => push (f x) st) flags st) = botScore st
  /\ humanScore (fold_left (fun st x => push (f x) st) flags st) = humanScore st.
Proof.
  revert st. induction flags as [|x l IH]; intros st; cbn [fold_left].
  - now split.
  - destruct (IH (push (f x) st)) as [-> ->]. now split.
Qed.

Lemma analyzeFieldTyping_counts pattern :
  FieldAnalysis.valid (analyzeFieldTyping pattern) = true ->
  (List.length (FieldAnalysis.botFlags (analyzeFieldTyping pattern)) <= 4)%nat
  /\ (List.length (FieldAnalysis.humanFlags (analyzeFieldTyping pattern)) <= 3)%nat.
Proof.
  unfold analyzeFieldTyping.
  destruct pattern as [p|]; [|discriminate].
  destruct (Pattern.keystrokeCount p =? 0); [discriminate|]. intros _.
  cbn [FieldAnalysis.botFlags FieldAnalysis.humanFlags].
  rewrite !filter_app, !length_app. unfold pushIf.
  break; cbn; lia.
Qed.

Lemma fieldBlock_gains label set_field patternStr st :
  gains 8 3 st (fieldBlock label set_field patternStr st).
Proof.
  unfold fieldBlock, gains. cbv zeta.
  destruct (FieldAnalysis.valid (analyzeFieldTyping (parsePattern patternStr)))
    eqn:V; [|cbn; lia].
  destruct (analyzeFieldTyping_counts _ V) as [Hb Hh].
  match goal with
  | |- context [fold_left (fun st f => push (@?g f) st) ?l ?s] =>
      destruct (push_all_scores g l s) as [-> ->]
  end.
  cbn [addBot addHuman setDetails botScore humanScore]. lia.
Qed.

Lemma timingBlock_gains stats st : gains 4 0 st (timingBlock stats st).
Proof. unfold timingBlock, gains. break; cbn; lia. Qed.

Lemma trajectoryBlock_gains stats st : gains 2 2 st (trajectoryBlock stats st).
Proof. unfold trajectoryBlock, gains. break; cbn; lia. Qed.

Lemma pasteBlock_gains stats st : gains 2 0 st (pasteBlock stats st).
Proof. unfold pasteBlock, gains. break; cbn; lia. Qed.

Lemma imeBlock_gains stats st : gains 0 3 st (imeBlock stats st).
Proof. unfold imeBlock, gains. cbv zeta. break; cbn; lia. Qed.

Lemma shiftBlock_gains stats st : gains 3 3 st (shiftBlock stats st).
Proof.
  unfold shiftBlock, gains. cbv zeta.
  destruct (0 <? JS.or_else (Stats.passwordShiftCount stats)
                   (JS.or0 (Stats.shiftCount stats)));
    destruct (0 <? JS.or_else (Stats.passwordCapsLockCount stats)
                     (JS.or0 (Stats.capsLockCount stats)));
    destruct (Stats.password stats) as [[|c s]|];
    cbn [andb orb negb]; break; cbn; lia.
Qed.

Lemma gains_trans kb kh kb' kh' st st' st'' :
  gains kb kh st st' -> gains kb' kh' st' st'' ->
  gains (kb + kb') (kh + kh') st st''.
Proof. unfold gains. lia. Qed.

(** The scores [analyzeLogin] can reach. *)
Lemma legacy_run_bounds stats :
  0 <= botScore (run stats) <= 27 /\ 0 <= humanScore (run stats) <= 14.
Proof.
  unfold run. cbv zeta.
  pose proof (fieldBlock_gains "Username" set_username (Stats.lastUserTp stats) init) as G1.
  set (s1 := fieldBlock "Username" _ _ _) in *.
  pose proof (fieldBlock_gains "Password" set_password (Stats.lastPassTp stats) s1) as G2.
  set (s2 := fieldBlock "Password" _ _ _) in *.
  pose proof (timingBlock_gains stats s2) as G3.
  set (s3 := timingBlock _ _) in *.
  pose proof (trajectoryBlock_gains stats s3) as G4.
  set (s4 := trajectoryBlock _ _) in *.
  pose proof (pasteBlock_gains stats s4) as G5.
  set (s5 := pasteBlock _ _) in *.
  pose proof (imeBlock_gains stats s5) as G6.
  set (s6 := imeBlock _ _) in *.
  pose proof (shiftBlock_gains stats s6) as G7.
  unfold gains in *. cbn [init botScore humanScore] in G1. lia.
Qed.

End LegacyBounds.

Section LegacyAccounting.

Import TypingAnalyzer SignalCatalog LegacyCatalog.
Local Open Scope string_scope.
Local Open Scope list_scope.
Local Open Scope Z_scope.

Lemma legacy_total_ofFlags ty ty' label (flags : list TypingAnalyzer.Flag.t) :
  (forall f, In f flags -> TypingAnalyzer.Flag.type f = ty') ->
  total ty (LegacyCatalog.ofFlags label flags)
  = if hasTag ty (mk ty' 0 None None)
    then weightOf ty' * Z.of_nat (List.length flags) else 0.
Proof.
  unfold total, LegacyCatalog.ofFlags.
  induction flags as [|f l IH]; intros H.
  - cbn. destruct (hasTag ty _); lia.
  - specialize (IH (fun x Hx => H x (or_intror Hx))).
    pose proof (H f (or_introl eq_refl)) as Hf.
    cbn [map filter List.length]. unfold hasTag at 1. cbn [tag].
    rewrite Hf. unfold hasTag in IH |- *. cbn [tag] in IH |- *.
    destruct ty, ty'; cbn [map fold_right weight] in *; lia.
Qed.

Lemma isType_filter ty (flags : list TypingAnalyzer.Flag.t) f :
  In f (filter (isType ty) flags) -> TypingAnalyzer.Flag.type f = ty.
Proof.
  intros H. apply filter_In in H. destruct H as [_ H].
  unfold isType in H. destruct ty, (TypingAnalyzer.Flag.type f);
    congruence.
Qed.

Lemma legacy_flag_lists (pattern : option TypingAnalyzer.Pattern.t) :
  (forall f, In f (TypingAnalyzer.FieldAnalysis.botFlags
                     (analyzeFieldTyping pattern)) ->
             TypingAnalyzer.Flag.type f = bot)
  /\ (forall f, In f (TypingAnalyzer.FieldAnalysis.humanFlags
                        (analyzeFieldTyping pattern)) ->
                TypingAnalyzer.Flag.type f = human).
Proof.
  unfold analyzeFieldTyping.
  destruct pattern as [p|]; [|split; intros f []].
  destruct (TypingAnalyzer.Pattern.keystrokeCount p =? 0); [split; intros f []|].
  cbv zeta.
  cbn [TypingAnalyzer.FieldAnalysis.botFlags
       TypingAnalyzer.FieldAnalysis.humanFlags].
  split; intros f; apply isType_filter.
Qed.

Lemma adds_refl st : adds [] st st.
Proof. unfold adds, total. cbn. lia. Qed.

Lemma adds_trans a b st st' st'' :
  adds a st st' -> adds b st' st'' -> adds (a ++ b) st st''.
Proof. unfold adds. rewrite !total_app. lia. Qed.

Lemma adds_fieldBlock label set_field patternStr st :
  adds (LegacyCatalog.fieldSignals label patternStr) st
       (TypingAnalyzer.fieldBlock label set_field patternStr st).
Proof.
  unfold TypingAnalyzer.fieldBlock, LegacyCatalog.fieldSignals, adds.
  cbv zeta.
  destruct (legacy_flag_lists (parsePattern patternStr)) as [Hb Hh].
  destruct (TypingAnalyzer.FieldAnalysis.valid
              (analyzeFieldTyping (parsePattern patternStr)));
    [|unfold total; cbn; lia].
  match goal with
  | |- context [fold_left (fun st f => push (@?g f) st) ?l ?s] =>
      destruct (push_all_scores g l s) as [-> ->]
  end.
  rewrite !total_app.
  rewrite !(legacy_total_ofFlags _ bot _ _ Hb),
    !(legacy_total_ofFlags _ human _ _ Hh).
  cbn [hasTag tag weightOf addBot addHuman setDetails
       TypingAnalyzer.botScore TypingAnalyzer.humanScore].
  lia.
Qed.

Lemma adds_timingBlock stats st :
  adds (LegacyCatalog.timingSignals stats) st (TypingAnalyzer.timingBlock stats st).
Proof.
  unfold TypingAnalyzer.timingBlock, LegacyCatalog.timingSignals, adds.
  rewrite !total_app, !total_when. cbn [hasTag tag weight].
  rewrite ?andb_false_r, ?andb_true_r. break; cbn; lia.
Qed.

Lemma adds_trajectoryBlock stats st :
  adds (LegacyCatalog.trajectorySignals stats) st
       (TypingAnalyzer.trajectoryBlock stats st).
Proof.
  unfold TypingAnalyzer.trajectoryBlock, LegacyCatalog.trajectorySignals, adds.
  destruct (Stats.trajectory stats) as [traj|]; [|unfold total; cbn; lia].
  cbv zeta. rewrite !total_app, !total_when. cbn [hasTag tag weight].
  rewrite ?andb_false_r, ?andb_true_r. break; cbn; lia.
Qed.

Lemma adds_pasteBlock stats st :
  adds (LegacyCatalog.pasteSignals stats) st (TypingAnalyzer.pasteBlock stats st).
Proof.
  unfold TypingAnalyzer.pasteBlock, LegacyCatalog.pasteSignals, adds.
  rewrite !total_app, !total_when. cbn [hasTag tag weight].
  rewrite ?andb_false_r, ?andb_true_r. break; cbn; lia.
Qed.

Lemma adds_imeBlock stats st :
  adds (LegacyCatalog.imeSignals stats) st (TypingAnalyzer.imeBlock stats st).
Proof.
  unfold TypingAnalyzer.imeBlock, LegacyCatalog.imeSignals, adds.
  cbv zeta. rewrite !total_when. cbn [hasTag tag weight].
  rewrite ?andb_false_r, ?andb_true_r. break; cbn; lia.
Qed.

Lemma adds_shiftBlock stats st :
  adds (LegacyCatalog.shiftSignals stats) st (TypingAnalyzer.shiftBlock stats st).
Proof.
  unfold TypingAnalyzer.shiftBlock, LegacyCatalog.shiftSignals, adds.
  cbv zeta. rewrite !total_app, !total_when. cbn [hasTag tag weight].
  rewrite ?andb_false_r, ?andb_true_r.
  destruct (0 <? JS.or_else (Stats.passwordShiftCount stats)
                   (JS.or0 (Stats.shiftCount stats)));
    destruct (0 <? JS.or_else (Stats.passwordCapsLockCount stats)
                     (JS.or0 (Stats.capsLockCount stats)));
    destruct (Stats.password stats) as [[|c s]|];
    rewrite ?total_when; cbn [hasTag tag weight andb orb negb];
    rewrite ?andb_false_r, ?andb_true_r;
    try (unfold total; cbn; lia);
    break; unfold total; cbn; lia.
Qed.

(** The scores of [analyzeLogin] are the weight sums of its flags. *)
Lemma legacy_run_scores stats :
  TypingAnalyzer.botScore (TypingAnalyzer.run stats)
  = total bot (LegacyCatalog.triggered stats)
  /\ TypingAnalyzer.humanScore (TypingAnalyzer.run stats)
     = total human (LegacyCatalog.triggered stats).
Proof.
  assert (A : adds (LegacyCatalog.triggered stats) TypingAnalyzer.init
                   (TypingAnalyzer.run stats)).
  { unfold LegacyCatalog.triggered, TypingAnalyzer.run. cbv zeta.
    eapply adds_trans; [apply adds_fieldBlock|].
    eapply adds_trans; [apply adds_fieldBlock|].
    eapply adds_trans; [apply adds_timingBlock|].
    eapply adds_trans; [apply adds_trajectoryBlock|].
    eapply adds_trans; [apply adds_pasteBlock|].
    eapply adds_trans; [apply adds_imeBlock|].
    apply adds_shiftBlock. }
  unfold adds in A. cbn [TypingAnalyzer.init TypingAnalyzer.botScore
                         TypingAnalyzer.humanScore] in A.
  lia.
Qed.

(** A field flag of [analyzeLogin] counts 2 if it is a bot flag and 1 if it
    is a human flag, whatever the flag. *)
Lemma legacy_field_weights label patternStr s :
  In s (LegacyCatalog.fieldSignals label patternStr) ->
  weight s = match tag s with bot => 2 | human => 1 end.
Proof.
  unfold LegacyCatalog.fieldSignals. cbv zeta.
  destruct (TypingAnalyzer.FieldAnalysis.valid _); [|intros []].
  intros H. apply in_app_or in H.
  destruct H as [H|H]; unfold LegacyCatalog.ofFlags in H;
    apply in_map_iff in H; destruct H as (f & <- & _); reflexivity.
Qed.

End LegacyAccounting.

(** C1, amended. [analyze], against any decoder, returns as confidence
    100 * botScore / (botScore + humanScore) rounded to the nearest integer,
    where botScore and humanScore are the sums of the weights of the
    bot-tagged and of the human-tagged flags of the catalogue that fire; it
    is 0 when both scores are 0 and 100 when humanScore is 0 and botScore is
    positive, and the computation on binary64 doubles returns the same
    integer.  [analyzeLogin] applies the same formula to scores of its own:
    they are the sums of the weights of [LegacyCatalog], in which a field
    flag counts 2 if it is a bot flag and 1 if it is a human flag, whatever
    its weight in the catalogue.  A call of [analyze] without a decoder,
    where no flag can fire, returns 0. *)
Theorem C1_confidence_formula :
  (forall ambient stats parser p,
      match parser with Some q => Some q | None => ambient end = Some p ->
      let r := AutomationDetector.analyze ambient stats parser in
      let b := SignalCatalog.total bot (SignalCatalog.triggered p stats) in
      let h := SignalCatalog.total human (SignalCatalog.triggered p stats) in
      Result.scores r = Some (Scores.mk b h)
      /\ Exact.percentOf (Result.confidence r) b h
      /\ (b = 0 -> h = 0 -> Result.confidence r = 0)
      /\ (h = 0 -> 0 < b -> Result.confidence r = 100)
      /\ Double.confidenceOf b h = Result.confidence r)
  /\ (forall stats,
         let r := TypingAnalyzer.analyzeLogin stats in
         let b := SignalCatalog.total bot (LegacyCatalog.triggered stats) in
         let h := SignalCatalog.total human (LegacyCatalog.triggered stats) in
         TypingAnalyzer.Result.scores r = Scores.mk b h
         /\ Exact.percentOf (TypingAnalyzer.Result.confidence r) b h
         /\ (b = 0 -> h = 0 -> TypingAnalyzer.Result.confidence r = 0)
         /\ (h = 0 -> 0 < b -> TypingAnalyzer.Result.confidence r = 100)
         /\ Double.confidenceOf b h = TypingAnalyzer.Result.confidence r)
  /\ (forall label patternStr s,
         In s (LegacyCatalog.fieldSignals label patternStr) ->
         SignalCatalog.weight s
         = match SignalCatalog.tag s with bot => 2 | human => 1 end)
  /\ (forall stats,
         Result.confidence (AutomationDetector.analyze None stats None) = 0).
Proof.
  split; [|split; [|split; [exact legacy_field_weights|reflexivity]]].
  - intros ambient stats parser p Hp r b h. subst r.
    unfold AutomationDetector.analyze. rewrite Hp.
    unfold AutomationDetector.finish.
    cbn [Result.scores Result.confidence].
    destruct (run_scores p stats) as [-> ->]. fold b h.
    destruct (triggered_bounds p stats) as [Hb Hh]. fold b h in Hb, Hh.
    split; [reflexivity|]. split; [|split; [|split]].
    + apply confidenceOf_percentOf; lia.
    + intros -> ->. reflexivity.
    + intros -> Hpos. now apply confidenceOf_all_bot.
    + apply double_confidence_exact; lia.
  - intros stats r b h. subst r. unfold TypingAnalyzer.analyzeLogin.
    cbn [TypingAnalyzer.Result.scores TypingAnalyzer.Result.confidence].
    destruct (legacy_run_bounds stats) as [Hb Hh].
    destruct (legacy_run_scores stats) as [Eb Eh].
    rewrite Eb, Eh in *. fold b h in Hb, Hh |- *.
    rewrite legacy_confidenceOf.
    split; [reflexivity|]. split; [|split; [|split]].
    + apply confidenceOf_percentOf; lia.
    + intros -> ->. reflexivity.
    + intros -> Hpos. now apply confidenceOf_all_bot.
    + apply double_confidence_exact; lia.
Qed.

(** The Selenium-only request: botScore 5, humanScore 0, confidence 100. *)
Lemma C1_confidence_formula_witness :
  Result.scores (AutomationDetector.analyze None stats_selenium
                                            (Some TypingParser_object))
  = Some (Scores.mk 5 0)
  /\ Result.confidence (AutomationDetector.analyze None stats_selenium
                                                   (Some TypingParser_object))
     = 100.
Proof.
  destruct (proj1 C1_confidence_formula None stats_selenium
                  (Some TypingParser_object) TypingParser_object eq_refl)
    as (Hs & _ & _ & H100 & _).
  split.
  - exact Hs.
  - apply H100; [reflexivity | vm_compute; reflexivity].
Defined.

(** C1 as stated fails on [analyzeLogin].  On two keystrokes 20 ms apart the
    flags that fire are "Extremely short key interval", of weight 3 in the
    catalogue, and "Normal key press", of weight 1: their weights add up to
    3 and 1, and [analyze] returns these scores and the confidence 75.
    [analyzeLogin] returns the scores 2 and 1 and the confidence 67. *)
Lemma C1_counterexample :
  SignalCatalog.total
    bot (SignalCatalog.triggered TypingParser_object
                                 (stats_username pattern_two_fast)) = 3
  /\ SignalCatalog.total
       human (SignalCatalog.triggered TypingParser_object
                                      (stats_username pattern_two_fast)) = 1
  /\ Result.confidence
       (AutomationDetector.analyze None (stats_username pattern_two_fast)
                                   (Some TypingParser_object)) = 75
  /\ TypingAnalyzer.Result.scores
       (TypingAnalyzer.analyzeLogin (stats_username pattern_two_fast))
     = Scores.mk 2 1
  /\ TypingAnalyzer.Result.confidence
       (TypingAnalyzer.analyzeLogin (stats_username pattern_two_fast)) = 67.
Proof.
  split; [vm_compute; reflexivity|]. split; [vm_compute; reflexivity|].
  split; [vm_compute; reflexivity|]. split; vm_compute; reflexivity.
Qed.

(** C2 as stated fails on [analyzeLogin]: with botScore 3 and humanScore 3
    the confidence is 50, not above 70, and the verdict is bot. *)
Lemma C2_counterexample :
  let r := TypingAnalyzer.analyzeLogin stats_mixed in
  TypingAnalyzer.Result.scores r = Scores.mk 3 3
  /\ TypingAnalyzer.Result.confidence r = 50
  /\ TypingAnalyzer.Result.isBot r = true
  /\ TypingAnalyzer.Result.isBot r
     <> (70 <? TypingAnalyzer.Result.confidence r).
Proof. vm_compute. repeat split; discriminate. Qed.

(** C2, amended. [AutomationDetector.analyze] returns isBot = (confidence >
    botProbabilityThreshold) with the threshold 70, on every request and
    against every decoder; [TypingAnalyzer.analyzeLogin] returns isBot =
    (botScore >= 3 || confidence > 60). *)
Theorem C2_decision_rule :
  (forall ambient stats parser,
      let r := AutomationDetector.analyze ambient stats parser in
      AutomationDetector.thresholds.decision.botProbabilityThreshold = 70
      /\ Result.isBot r = (70 <? Result.confidence r)
      /\ (Result.isBot r = true <-> 70 < Result.confidence r))
  /\ (forall stats,
         let r := TypingAnalyzer.analyzeLogin stats in
         TypingAnalyzer.Result.isBot r
         = ((3 <=? Scores.bot (TypingAnalyzer.Result.scores r))
            || (60 <? TypingAnalyzer.Result.confidence r))).
Proof.
  split.
  - intros ambient stats parser r. subst r.
    assert (E : Result.isBot (AutomationDetector.analyze ambient stats parser)
                = (70 <? Result.confidence
                           (AutomationDetector.analyze ambient stats parser))).
    { unfold AutomationDetector.analyze.
      destruct (match parser with Some p => Some p | None => ambient end);
        reflexivity. }
    split; [reflexivity|]. split; [exact E|].
    rewrite E. apply Z.ltb_lt.
  - intros stats. reflexivity.
Qed.

Lemma C2_decision_rule_witness :
  Result.confidence (AutomationDetector.analyze None stats_selenium
                                                (Some TypingParser_object))
  = 100
  /\ Result.isBot (AutomationDetector.analyze None stats_selenium
                                              (Some TypingParser_object))
     = true.
Proof.
  split; [vm_compute; reflexivity|].
  apply (proj2 (proj2 (proj1 C2_decision_rule None stats_selenium
                             (Some TypingParser_object)))).
  vm_compute. reflexivity.
Defined.

(** C6. Without a parser argument and without an ambient TypingParser,
    [analyze] returns the degraded result {isBot: false, confidence: 0,
    reasons: []}, whatever the request. *)
Theorem C6_no_decoder_degraded :
  forall stats,
    AutomationDetector.analyze None stats None = Result.mk false 0 [] None None.
Proof. intros stats. reflexivity. Qed.

(** C9. With humanScore >= 0 fixed, the confidence does not decrease when
    botScore grows: for 0 <= b1 <= b2 the confidence of (b1, humanScore) is
    at most that of (b2, humanScore). *)
Theorem C9_confidence_monotone :
  forall humanScore b1 b2,
    0 <= humanScore -> 0 <= b1 -> b1 <= b2 ->
    AutomationDetector.confidenceOf b1 humanScore
    <= AutomationDetector.confidenceOf b2 humanScore.
Proof. exact confidenceOf_monotone. Qed.

Lemma C9_confidence_monotone_witness :
  (0 <= 4 /\ 0 <= 3 /\ 3 <= 7)
  /\ AutomationDetector.confidenceOf 3 4 <= AutomationDetector.confidenceOf 7 4.
Proof. split; [lia | apply (C9_confidence_monotone 4 3 7); lia]. Defined.

Section DetailsEntries.

Import AutomationDetector.
Local Open Scope string_scope.
Local Open Scope list_scope.
Local Open Scope Z_scope.

Lemma forEachBot_details prefix flags st :
  details (forEachBot prefix flags st) = details st.
Proof.
  unfold forEachBot. revert st.
  induction flags as [|f l IH]; intros st; cbn [fold_left]; [reflexivity|].
  now rewrite IH.
Qed.

Lemma forEachHuman_details flags st :
  details (forEachHuman flags st) = details st.
Proof.
  unfold forEachHuman. revert st.
  induction flags as [|f l IH]; intros st; cbn [fold_left]; [reflexivity|].
  now rewrite IH.
Qed.

Lemma details_setDetails f st : details (setDetails f st) = f (details st).
Proof. reflexivity. Qed.

Lemma seekEntries_addBot w r st : seekEntries (addBot w r st) = seekEntries st.
Proof. reflexivity. Qed.

Lemma seekEntries_addHuman w st : seekEntries (addHuman w st) = seekEntries st.
Proof. reflexivity. Qed.

Lemma seekEntries_forEachBot prefix flags st :
  seekEntries (forEachBot prefix flags st) = seekEntries st.
Proof. unfold seekEntries. now rewrite forEachBot_details. Qed.

Lemma seekEntries_timingBlock stats st :
  seekEntries (timingBlock stats st) = seekEntries st.
Proof. unfold timingBlock. break; reflexivity. Qed.

Lemma seekEntries_trajectoryBlock p stats st :
  seekEntries (trajectoryBlock p stats st) = seekEntries st.
Proof.
  unfold trajectoryBlock.
  destruct (Stats.trajectory stats) as [traj|]; [|reflexivity]. cbv zeta.
  destruct (TrajectoryAnalysis.valid (Parser.analyzeTrajectory p traj));
    [|reflexivity].
  rewrite seekEntries_forEachBot. break; reflexivity.
Qed.

Lemma seekEntries_pasteBlock stats st :
  seekEntries (pasteBlock stats st) = seekEntries st.
Proof. unfold pasteBlock. break; reflexivity. Qed.

Lemma seekEntries_imeBlock stats st :
  seekEntries (imeBlock stats st) = seekEntries st.
Proof. unfold imeBlock. cbv zeta. break; reflexivity. Qed.

Lemma seekEntries_shiftBlock stats st :
  seekEntries (shiftBlock stats st) = seekEntries st.
Proof. unfold shiftBlock. cbv zeta. break; reflexivity. Qed.

Lemma seekEntries_passwordBlock stats st :
  seekEntries (passwordBlock stats st) = seekEntries st.
Proof. unfold passwordBlock. now rewrite seekEntries_forEachBot. Qed.

Lemma seekEntries_tail p stats st :
  seekEntries
    (syntheticBlock stats
       (webdriverBlock stats
          (passwordBlock stats
             (shiftBlock stats
                (imeBlock stats
                   (pasteBlock stats
                      (trajectoryBlock p stats (timingBlock stats st))))))))
  = seekEntries st.
Proof.
  unfold syntheticBlock, webdriverBlock.
  rewrite !seekEntries_forEachBot, seekEntries_passwordBlock,
    seekEntries_shiftBlock, seekEntries_imeBlock, seekEntries_pasteBlock,
    seekEntries_trajectoryBlock.
  apply seekEntries_timingBlock.
Qed.

Lemma seekEntries_user p pattern st :
  Details.userSeekDistribution (details st) = None ->
  seekEntries (fieldBlock p "Username" Details.set_userAnalysis
                          Details.set_userSeekDistribution pattern st)
  = (seekEntry p pattern, Details.passSeekDistribution (details st)).
Proof.
  intros H. unfold fieldBlock, seekDistributionBlock, seekEntries, seekEntry.
  destruct pattern as [pat|]; [|now rewrite H]. cbv zeta.
  destruct (4 <? List.length (Raw.seekTimes (Pattern.raw pat)))%nat;
    rewrite ?forEachBot_details, ?details_setDetails, ?forEachHuman_details,
      ?forEachBot_details, ?details_setDetails;
    unfold Details.set_userSeekDistribution, Details.set_userAnalysis,
      Details.set_passSeekDistribution, Details.set_passAnalysis;
    cbn [Details.userSeekDistribution Details.passSeekDistribution];
    rewrite ?H; reflexivity.
Qed.

Lemma seekEntries_pass p pattern st :
  Details.passSeekDistribution (details st) = None ->
  seekEntries (fieldBlock p "Password" Details.set_passAnalysis
                          Details.set_passSeekDistribution pattern st)
  = (Details.userSeekDistribution (details st), seekEntry p pattern).
Proof.
  intros H. unfold fieldBlock, seekDistributionBlock, seekEntries, seekEntry.
  destruct pattern as [pat|]; [|now rewrite H]. cbv zeta.
  destruct (4 <? List.length (Raw.seekTimes (Pattern.raw pat)))%nat;
    rewrite ?forEachBot_details, ?details_setDetails, ?forEachHuman_details,
      ?forEachBot_details, ?details_setDetails;
    unfold Details.set_userSeekDistribution, Details.set_userAnalysis,
      Details.set_passSeekDistribution, Details.set_passAnalysis;
    cbn [Details.userSeekDistribution Details.passSeekDistribution];
    rewrite ?H; reflexivity.
Qed.

Lemma run_seekEntries p stats :
  seekEntries (run p stats)
  = (seekEntry p (Parser.parsePattern p (Stats.lastUserTp stats)),
     seekEntry p (Parser.parsePattern p (Stats.lastPassTp stats))).
Proof.
  unfold run. cbv zeta. rewrite seekEntries_tail.
  set (s0 := setDetails _ init).
  pose proof (seekEntries_user p (Parser.parsePattern p (Stats.lastUserTp stats))
                s0 eq_refl) as U.
  set (s1 := fieldBlock p "Username" _ _ _ s0) in *.
  assert (P0 : Details.passSeekDistribution (details s1) = None).
  { change (snd (seekEntries s1) = None). now rewrite U. }
  rewrite (seekEntries_pass p _ s1 P0).
  change (Details.userSeekDistribution (details s1)) with (fst (seekEntries s1)).
  now rewrite U.
Qed.

End DetailsEntries.

(** C3 as stated fails: on the request with only the username pattern
    [pattern_long_pause] three human flags fire (normal key interval, normal
    key press, long pauses; humanScore 4) and the reasons list is empty. *)
Lemma C3_counterexample :
  let r := AutomationDetector.analyze None (stats_username pattern_long_pause)
                                      (Some TypingParser_object) in
  In signal_long_pause
     (SignalCatalog.triggered TypingParser_object
                              (stats_username pattern_long_pause))
  /\ Result.scores r = Some (Scores.mk 0 4)
  /\ Result.reasons r = []
  /\ ~ SignalCatalog.everyFlagReported TypingParser_object
                                       (stats_username pattern_long_pause).
Proof.
  assert (T : In signal_long_pause
                 (SignalCatalog.triggered TypingParser_object
                                          (stats_username pattern_long_pause))).
  { vm_compute. right. right. left. reflexivity. }
  assert (E : Result.reasons
                (AutomationDetector.analyze None (stats_username pattern_long_pause)
                                            (Some TypingParser_object)) = []).
  { vm_compute. reflexivity. }
  cbv zeta. split; [exact T|]. split; [vm_compute; reflexivity|].
  split; [exact E|].
  intros H. destruct (H _ T) as (r & _ & Hin). rewrite E in Hin. exact Hin.
Qed.

(** Case analysis on a flag of the catalogue. *)
Ltac solve_in O W Hin :=
  lazymatch type of Hin with
  | In _ (_ ++ _) =>
      apply in_app_or in Hin; destruct Hin as [Hin|Hin]; solve_in O W Hin
  | In _ (SignalCatalog.ofFlags _ _ _) => eapply O; eassumption
  | In _ (SignalCatalog.when _ _) => apply W in Hin; subst; discriminate
  | In _ [] => destruct Hin
  | In _ (if ?c then _ else _) => destruct c; solve_in O W Hin
  | In _ (match ?x with Some _ => _ | None => _ end) =>
      destruct x; solve_in O W Hin
  | In _ (SignalCatalog.triggered _ _) =>
      unfold SignalCatalog.triggered in Hin; solve_in O W Hin
  | In _ (SignalCatalog.fieldSignals _ _ _) =>
      unfold SignalCatalog.fieldSignals in Hin; cbv zeta in Hin; solve_in O W Hin
  | In _ (SignalCatalog.timingSignals _) =>
      unfold SignalCatalog.timingSignals in Hin; solve_in O W Hin
  | In _ (SignalCatalog.trajectorySignals _ _) =>
      unfold SignalCatalog.trajectorySignals in Hin; cbv zeta in Hin;
      solve_in O W Hin
  | In _ (SignalCatalog.pasteSignals _) =>
      unfold SignalCatalog.pasteSignals in Hin; solve_in O W Hin
  | In _ (SignalCatalog.imeSignals _) =>
      unfold SignalCatalog.imeSignals in Hin; solve_in O W Hin
  | In _ (SignalCatalog.shiftSignals _) =>
      unfold SignalCatalog.shiftSignals in Hin; solve_in O W Hin
  end.

(** C3, amended. The reasons list holds, in the order in which the
    detectors are invoked, the reason of every bot-tagged flag that fires,
    and nothing else.  The reasons of the field-typing, seek-distribution,
    trajectory-automation, automation and event flags carry the prefix of
    their group ([Username], [Password], [Username SeekTime],
    [Password SeekTime], [Trajectory], [Automation], [Events]); those of the
    timing, trajectory-sufficiency, paste and password-mismatch flags carry
    none.  A human-tagged flag adds its weight to humanScore and leaves no
    reason. *)
Theorem C3_reasons_are_bot_reasons :
  forall ambient stats parser p,
    match parser with Some q => Some q | None => ambient end = Some p ->
    let r := AutomationDetector.analyze ambient stats parser in
    let flags := SignalCatalog.triggered p stats in
    Result.reasons r = SignalCatalog.botLines flags
    /\ Result.scores r = Some (Scores.mk (SignalCatalog.total bot flags)
                                         (SignalCatalog.total human flags))
    /\ (forall s, In s flags -> SignalCatalog.tag s = human ->
                  SignalCatalog.botLines [s] = [])
    /\ (forall s, In s flags -> SignalCatalog.tag s = bot ->
                  exists line, SignalCatalog.line s = Some line
                               /\ In line (Result.reasons r)).
Proof.
  intros ambient stats parser p Hp r flags. subst r flags.
  unfold AutomationDetector.analyze. rewrite Hp.
  unfold AutomationDetector.finish. cbn [Result.reasons Result.scores].
  destruct (accounts_run p stats) as (Hb & Hh & Hr).
  rewrite Hb, Hh, Hr. repeat split.
  - intros s _ Ht. unfold SignalCatalog.botLines. cbn. now rewrite Ht.
  - intros s Hin Ht.
    assert (N : SignalCatalog.line s <> None).
    {
      assert (O : forall ty l fl x, In x (SignalCatalog.ofFlags ty l fl) ->
                                    SignalCatalog.line x <> None).
      { intros ty l fl x Hx. unfold SignalCatalog.ofFlags in Hx.
        apply in_map_iff in Hx. destruct Hx as (f & <- & _).
        unfold SignalCatalog.line. cbn. destruct l; discriminate. }
      assert (W : forall c x y, In x (SignalCatalog.when c y) ->
                                x = y).
      { intros c x y Hx. destruct c; cbn in Hx; intuition. }
      solve_in O W Hin. }
    destruct (SignalCatalog.line s) as [l|] eqn:E; [|congruence].
    exists l. split; [reflexivity|].
    apply in_split in Hin. destruct Hin as (l1 & l2 & ->).
    rewrite botLines_app.
    apply in_or_app. right.
    unfold SignalCatalog.botLines at 1. cbn [flat_map]. rewrite Ht, E.
    left. reflexivity.
Qed.

Lemma C3_reasons_are_bot_reasons_witness :
  Result.reasons (AutomationDetector.analyze None stats_selenium
                                             (Some TypingParser_object))
  = ["[Automation] Selenium WebDriver detected"%string]
  /\ Result.reasons (AutomationDetector.analyze (Some TypingParser_object)
                                                stats_scripted None)
     = ["[Username] Extremely short key interval (21ms < 30ms)";
        "[Username] Key interval too uniform (std=1ms)";
        "[Username] Extremely short key press (11ms < 20ms)";
        "[Username] Key press too uniform (std=1ms)";
        "[Username] SeekTime range too narrow (2ms < 100ms)";
        "[Username SeekTime] Too many round numbers (33% are multiples of 10ms)";
        "[Username SeekTime] 6 consecutive similar intervals detected";
        "Username to password too fast (100ms < 300ms)";
        "Username was pasted";
        "[Automation] WebDriver automation detected (navigator.webdriver)";
        "[Automation] Selenium WebDriver detected";
        "[Automation] No browser plugins (possible headless)";
        "[Events] Detected 2 untrusted (synthetic) events";
        "[Events] High ratio of synthetic keyboard events (75%)"]%string
  /\ Result.scores (AutomationDetector.analyze (Some TypingParser_object)
                                               stats_scripted None)
     = Some (Scores.mk 35 6).
Proof.
  split; [|split].
  - rewrite (proj1 (C3_reasons_are_bot_reasons
                      None stats_selenium (Some TypingParser_object)
                      TypingParser_object eq_refl)).
    vm_compute. reflexivity.
  - rewrite (proj1 (C3_reasons_are_bot_reasons
                      (Some TypingParser_object) stats_scripted None
                      TypingParser_object eq_refl)).
    vm_compute. reflexivity.
  - rewrite (proj1 (proj2 (C3_reasons_are_bot_reasons
                             (Some TypingParser_object) stats_scripted None
                             TypingParser_object eq_refl))).
    vm_compute. reflexivity.
Defined.

(** A trajectory analysis of [TypingParser] that is valid has at least
    [minPoints] points: inside [if (trajAnalysis.valid)] the test
    [trajAnalysis.points < th.trajectory.minPoints] is always false. *)
Lemma too_few_points_check_is_dead (trajectory : Trajectory.t) :
  let ta := TypingParser.analyzeTrajectory trajectory in
  TrajectoryAnalysis.valid ta = true ->
  (TrajectoryAnalysis.points ta
   <? AutomationDetector.thresholds.trajectory.minPoints) = false.
Proof.
  unfold TypingParser.analyzeTrajectory.
  destruct (Trajectory.sample trajectory) as [points|]; [|discriminate].
  destruct (Nat.ltb_spec (List.length points) 3) as [L|L]; [discriminate|].
  cbv zeta. cbn [TrajectoryAnalysis.valid TrajectoryAnalysis.points].
  intros _. apply Z.ltb_ge.
  unfold AutomationDetector.thresholds.trajectory.minPoints. lia.
Qed.

(** C4, on the code. For a request with nothing but a trajectory whose
    sample has two points, decoded by [TypingParser]: the trajectory analysis
    is the invalid one, and no flag fires at all.  The "too few points" check
    sits inside [if (trajAnalysis.valid)] and is not reached, so botScore is
    0, not 1. *)
Theorem C4_two_point_trajectory :
  forall ambient p1 p2 captured points distancePx,
    let stats :=
      stats_trajectory (Trajectory.mk (Some [p1; p2]) captured points distancePx) in
    let r := AutomationDetector.analyze ambient stats (Some TypingParser_object) in
    option_map Details.trajectoryAnalysis (Result.details r)
    = Some (Some TrajectoryAnalysis.invalid)
    /\ TrajectoryAnalysis.valid TrajectoryAnalysis.invalid = false
    /\ SignalCatalog.triggered TypingParser_object stats = []
    /\ Result.scores r = Some (Scores.mk 0 0)
    /\ Result.reasons r = []
    /\ Result.confidence r = 0
    /\ Result.isBot r = false.
Proof.
  intros ambient p1 p2 captured points distancePx stats r.
  subst r stats. repeat split.
Qed.

Section SeekDistribution.

Import AutomationDetector.

Lemma analyzeDistribution_valid values :
  (4 <= List.length values)%nat ->
  Distribution.valid (TypingParser.analyzeDistribution values) = true.
Proof.
  intros H. unfold TypingParser.analyzeDistribution.
  destruct (Nat.ltb_spec (List.length values) 4) as [L|L]; [lia|].
  cbv zeta. destruct (Qeq_bool _ 0); reflexivity.
Qed.

Lemma analyze_details ambient stats parser p :
  match parser with Some q => Some q | None => ambient end = Some p ->
  Result.details (analyze ambient stats parser) = Some (details (run p stats)).
Proof. intros H. unfold analyze. rewrite H. reflexivity. Qed.

Lemma seekEntry_some p pattern dist :
  seekEntry p pattern = Some dist
  <-> exists pat,
      pattern = Some pat
      /\ (4 < List.length (Raw.seekTimes (Pattern.raw pat)))%nat
      /\ dist = Parser.analyzeDistribution p (Raw.seekTimes (Pattern.raw pat)).
Proof.
  unfold seekEntry. split.
  - destruct pattern as [pat|]; [|discriminate].
    destruct (Nat.ltb_spec 4 (List.length (Raw.seekTimes (Pattern.raw pat))));
      [|discriminate].
    intros [= <-]. now exists pat.
  - intros (pat & -> & L & ->).
    destruct (Nat.ltb_spec 4 (List.length (Raw.seekTimes (Pattern.raw pat))));
      [reflexivity|lia].
Qed.

End SeekDistribution.

(** C10. The four distribution detectors run on the seek intervals of a
    field only if the field has strictly more than 4 positive seek intervals:
    the details get a seek-distribution entry for the field exactly then.  On
    a field with exactly 4 of them, which [analyzeDistribution] itself takes
    as valid, the block that runs those detectors leaves the state as it is
    (no score, no reason, no details entry), the flags of the field are its
    typing flags only, and the result has no seek-distribution entry for
    it. *)
Theorem C10_seek_distribution_needs_five :
  (forall ambient stats parser p d,
      match parser with Some q => Some q | None => ambient end = Some p ->
      Result.details (AutomationDetector.analyze ambient stats parser) = Some d ->
      (forall dist,
          Details.userSeekDistribution d = Some dist
          <-> exists pat,
              Parser.parsePattern p (Stats.lastUserTp stats) = Some pat
              /\ (4 < List.length (Raw.seekTimes (Pattern.raw pat)))%nat
              /\ dist = Parser.analyzeDistribution
                          p (Raw.seekTimes (Pattern.raw pat)))
      /\ (forall dist,
             Details.passSeekDistribution d = Some dist
             <-> exists pat,
                 Parser.parsePattern p (Stats.lastPassTp stats) = Some pat
                 /\ (4 < List.length (Raw.seekTimes (Pattern.raw pat)))%nat
                 /\ dist = Parser.analyzeDistribution
                             p (Raw.seekTimes (Pattern.raw pat))))
  /\ (forall p label set_dist pat st,
         List.length (Raw.seekTimes (Pattern.raw pat)) = 4%nat ->
         Distribution.valid
           (TypingParser.analyzeDistribution (Raw.seekTimes (Pattern.raw pat)))
         = true
         /\ AutomationDetector.seekDistributionBlock p label set_dist pat st = st
         /\ SignalCatalog.fieldSignals p label (Some pat)
            = SignalCatalog.ofFlags
                bot (Some label)
                (FieldAnalysis.botFlags
                   (AutomationDetector.analyzeFieldTyping (Some pat)))
              ++ SignalCatalog.ofFlags
                   human (Some label)
                   (FieldAnalysis.humanFlags
                      (AutomationDetector.analyzeFieldTyping (Some pat))))
  /\ (forall ambient stats parser p d pat,
         match parser with Some q => Some q | None => ambient end = Some p ->
         Result.details (AutomationDetector.analyze ambient stats parser) = Some d ->
         (Parser.parsePattern p (Stats.lastUserTp stats) = Some pat ->
          List.length (Raw.seekTimes (Pattern.raw pat)) = 4%nat ->
          Details.userSeekDistribution d = None)
         /\ (Parser.parsePattern p (Stats.lastPassTp stats) = Some pat ->
             List.length (Raw.seekTimes (Pattern.raw pat)) = 4%nat ->
             Details.passSeekDistribution d = None)).
Proof.
  split; [|split].
  - intros ambient stats parser p d Hp Hd.
    rewrite (analyze_details _ _ _ _ Hp) in Hd. injection Hd as <-.
    pose proof (run_seekEntries p stats) as E. unfold AutomationDetector.seekEntries in E.
    injection E as -> ->. split; intros dist; apply seekEntry_some.
  - intros p label set_dist pat st L. split; [|split].
    + apply analyzeDistribution_valid. lia.
    + unfold AutomationDetector.seekDistributionBlock. rewrite L. reflexivity.
    + unfold SignalCatalog.fieldSignals. cbv zeta. rewrite L.
      cbn [Nat.ltb Nat.leb]. now rewrite app_nil_r.
  - intros ambient stats parser p d pat Hp Hd.
    rewrite (analyze_details _ _ _ _ Hp) in Hd. injection Hd as <-.
    pose proof (run_seekEntries p stats) as E. unfold AutomationDetector.seekEntries in E.
    injection E as -> ->.
    split; intros -> L; unfold AutomationDetector.seekEntry; rewrite L;
      reflexivity.
Qed.

(** The request whose username pattern is [pattern_four]: four positive seek
    intervals, no seek-distribution entry. *)
Lemma C10_seek_distribution_needs_five_witness :
  match Result.details (AutomationDetector.analyze
                          None (stats_username pattern_four)
                          (Some TypingParser_object)),
        TypingParser.parsePattern (Some pattern_four) with
  | Some d, Some pat =>
      Raw.seekTimes (Pattern.raw pat) = [120; 300; 90; 400]
      /\ Details.userSeekDistribution d = None
  | _, _ => False
  end.
Proof.
  destruct (Result.details _) as [d|] eqn:Hd; [|vm_compute in Hd; discriminate].
  destruct (TypingParser.parsePattern _) as [pat|] eqn:Hp;
    [|vm_compute in Hp; discriminate].
  assert (L : Raw.seekTimes (Pattern.raw pat) = [120; 300; 90; 400]).
  { vm_compute in Hp. injection Hp as <-. reflexivity. }
  split; [exact L|].
  apply (proj1 (proj2 (proj2 C10_seek_distribution_needs_five)
                  None (stats_username pattern_four) (Some TypingParser_object)
                  TypingParser_object d pat eq_refl Hd)).
  - exact Hp.
  - rewrite L. reflexivity.
Defined.

Section Uniform.

Lemma fold_add_const (v : Z) (l : list Z) :
  (forall x, In x l -> x = v) ->
  forall a, fold_left Z.add l a = a + Z.of_nat (List.length l) * v.
Proof.
  induction l as [|x l IH]; intros H a; cbn [fold_left List.length].
  - lia.
  - rewrite IH by (intros y Hy; apply H; now right).
    rewrite (H x) by now left. lia.
Qed.

Lemma sum_const (v : Z) (l : list Z) :
  (forall x, In x l -> x = v) -> JS.sum l = Z.of_nat (List.length l) * v.
Proof. intros H. unfold JS.sum. now rewrite (fold_add_const v). Qed.

Lemma fold_Qplus_zero (l : list Q) :
  (forall x, In x l -> x == 0)%Q ->
  forall a, (fold_left Qplus l a == a)%Q.
Proof.
  induction l as [|x l IH]; intros H a; cbn [fold_left].
  - reflexivity.
  - rewrite IH by (intros y Hy; apply H; now right).
    rewrite (H x) by now left. ring.
Qed.

Lemma mean_const (v : Z) (l : list Z) :
  l <> [] -> (forall x, In x l -> x = v) ->
  (inject_Z (JS.sum l) / inject_Z (Z.of_nat (List.length l)) == inject_Z v)%Q.
Proof.
  intros Hl H. rewrite (sum_const v l H).
  assert (N : ~ (inject_Z (Z.of_nat (List.length l)) == 0)%Q).
  { destruct l; [congruence|]. unfold Qeq. cbn. lia. }
  rewrite inject_Z_mult. field. exact N.
Qed.

Lemma variance_const (v : Z) (l : list Z) :
  l <> [] -> (forall x, In x l -> x = v) ->
  let n := inject_Z (Z.of_nat (List.length l)) in
  let mean := (inject_Z (JS.sum l) / n)%Q in
  (JS.sumQ (map (fun t => (inject_Z t - mean) ^ 2) l) / n == 0)%Q.
Proof.
  intros Hl H n mean.
  assert (M : (mean == inject_Z v)%Q) by now apply mean_const.
  assert (S : (JS.sumQ (map (fun t => (inject_Z t - mean) ^ 2) l) == 0)%Q).
  { unfold JS.sumQ. apply fold_Qplus_zero.
    intros x Hx. apply in_map_iff in Hx. destruct Hx as (t & <- & Ht).
    rewrite (H t Ht), M. ring. }
  rewrite S. unfold Qeq. reflexivity.
Qed.

End Uniform.

(** C5, amended. [analyzeDistribution] returns {valid: false} on every array
    of fewer than 4 numbers.  On an array of at least 4 integers that are all
    the same it returns {valid: true, isUniform: true}, a result without
    skewness and kurtosis, provided that the sum of the array is computed
    without rounding: n copies of v with n * |v| <= 2^53.  Beyond that bound
    the mean computed in binary64 can differ from the elements and the
    standard deviation from 0. *)
Theorem C5_distribution_short_and_uniform :
  (forall values,
      (List.length values < 4)%nat ->
      TypingParser.analyzeDistribution values = Distribution.invalid
      /\ Distribution.valid (TypingParser.analyzeDistribution values) = false)
  /\ (forall values v,
         (4 <= List.length values)%nat ->
         (forall x, In x values -> x = v) ->
         Ordinary.exactSums (List.length values) v ->
         let d := TypingParser.analyzeDistribution values in
         d = Distribution.uniform
         /\ Distribution.valid d = true
         /\ Distribution.isUniform d = Some true
         /\ Distribution.skewness d = None
         /\ Distribution.kurtosis d = None).
Proof.
  split.
  - intros values H. unfold TypingParser.analyzeDistribution.
    destruct (Nat.ltb_spec (List.length values) 4); [now split | lia].
  - intros values v H Hv _ d.
    assert (E : d = Distribution.uniform).
    { subst d. unfold TypingParser.analyzeDistribution.
      destruct (Nat.ltb_spec (List.length values) 4); [lia|].
      cbv zeta.
      assert (Hn : values <> []) by (destruct values; [cbn in H; lia | congruence]).
      pose proof (variance_const v values Hn Hv) as V. cbv zeta in V.
      apply Qeq_bool_iff in V. rewrite V. reflexivity. }
    rewrite E. repeat split.
Qed.

Lemma C5_distribution_short_and_uniform_witness :
  TypingParser.analyzeDistribution [7; 8; 9] = Distribution.invalid
  /\ TypingParser.analyzeDistribution [120; 120; 120; 120; 120]
     = Distribution.uniform.
Proof.
  split.
  - apply (proj1 C5_distribution_short_and_uniform [7; 8; 9]). cbn. lia.
  - apply (proj2 C5_distribution_short_and_uniform
                 [120; 120; 120; 120; 120] 120).
    + cbn. lia.
    + intros x Hx. cbn in Hx. intuition.
    + unfold Ordinary.exactSums. cbn. lia.
Defined.

(** C5 as stated fails on large identical values.  Five times
    9007199254740991: the sum computed in binary64 is 45035996273704952, the
    mean 9007199254740990, each deviation 1, so the standard deviation is 1,
    the test [std === 0] fails and the source goes on to the full summary. *)
Lemma C5_counterexample :
  (4 <= List.length huge_identical)%nat
  /\ (forall x, In x huge_identical -> x = 9007199254740991)
  /\ Binary64.avgOf huge_identical = Some 9007199254740990
  /\ Binary64.stdOf huge_identical = Some 1
  /\ Binary64.stdIsZero huge_identical = false.
Proof.
  split; [cbn; lia|]. split.
  - intros x Hx. cbn in Hx. intuition.
  - split; [vm_compute; reflexivity|]. split; vm_compute; reflexivity.
Qed.

Section Rounding.

Local Open Scope R_scope.





End Rounding.

Section SampleStatistics.

Local Open Scope R_scope.












Lemma fold_min_least (l : list Z) :
  forall a, Exact.least (fold_left Z.min l a) (a :: l).
Proof.
  induction l as [|x l IH]; intros a; cbn [fold_left].
  - split; [now left|]. intros y [<-|[]]. lia.
  - destruct (IH (Z.min a x)) as [I L]. split.
    + destruct I as [E|I]; [|right; now right].
      rewrite <- E. destruct (Z.min_spec a x) as [[_ ->]|[_ ->]];
        [now left | right; now left].
    + intros y [Ey|[Ey|Hy]].
      * specialize (L (Z.min a x) ltac:(now left)). lia.
      * specialize (L (Z.min a x) ltac:(now left)). lia.
      * apply L. now right.
Qed.

Lemma fold_max_greatest (l : list Z) :
  forall a, Exact.greatest (fold_left Z.max l a) (a :: l).
Proof.
  induction l as [|x l IH]; intros a; cbn [fold_left].
  - split; [now left|]. intros y [<-|[]]. lia.
  - destruct (IH (Z.max a x)) as [I L]. split.
    + destruct I as [E|I]; [|right; now right].
      rewrite <- E. destruct (Z.max_spec a x) as [[_ ->]|[_ ->]];
        [right; now left | now left].
    + intros y [Ey|[Ey|Hy]].
      * specialize (L (Z.max a x) ltac:(now left)). lia.
      * specialize (L (Z.max a x) ltac:(now left)). lia.
      * apply L. now right.
Qed.


End SampleStatistics.

Section Tolerance.

Local Open Scope R_scope.






End Tolerance.




Section TrajectoryGeometry.

Import TypingParser.
Local Open Scope R_scope.

Lemma cos_lower (x : R) : -2 <= x <= 2 -> 1 - x * x / 2 <= cos x.
Proof.
  intros H. destruct (pre_cos_bound x 0) as [lo _]; [lra|lra|].
  unfold cos_approx, cos_term in lo. simpl in lo. lra.
Qed.

Lemma cos_upper (x : R) :
  -2 <= x <= 2 -> cos x <= 1 - x * x / 2 + x * x * x * x / 24.
Proof.
  intros H. destruct (pre_cos_bound x 0) as [_ hi]; [lra|lra|].
  unfold cos_approx, cos_term in hi. simpl in hi. lra.
Qed.

Lemma acos_in_band : 9 / 100 < acos (220 / 221) < 1 / 10.
Proof.
  assert (B : -1 < 220 / 221 < 1) by lra.
  pose proof (acos_bound_lt _ B) as [A0 A1].
  pose proof (cos_acos (220 / 221) ltac:(lra)) as C.
  pose proof PI2_1 as P.
  split; apply Rnot_le_lt; intros H.
  - assert (X : cos (9 / 100) <= cos (acos (220 / 221)))
      by (apply cos_decr_1; lra).
    pose proof (cos_lower (9 / 100) ltac:(lra)). lra.
  - assert (X : cos (acos (220 / 221)) <= cos (1 / 10))
      by (apply cos_decr_1; lra).
    pose proof (cos_upper (1 / 10) ltac:(lra)). lra.
Qed.





End TrajectoryGeometry.

Section TurnBands.

Import TypingParser.
Local Open Scope R_scope.






End TurnBands.




(* ================================================================== *)
(** * The rounded outputs of the analyzers, against the real numbers *)
(* ================================================================== *)

Section MoreRounding.

Local Open Scope R_scope.

Lemma Math_roundR_nearest (x : R) : Exact.nearest (JS.Math_roundR x) x.
Proof.
  unfold Exact.nearest, JS.Math_roundR.
  destruct (base_Int_part (x + / 2)) as [L U]. lra.
Qed.

Lemma Q2R_pos_Qlt (q : Q) : 0 < Q2R q -> (0 < q)%Q.
Proof.
  intros H. apply Rlt_Qlt.
  replace (Q2R 0) with 0 by (unfold Q2R; cbn [Qnum Qden]; lra). exact H.
Qed.


End MoreRounding.

Section DistributionSummary.

Local Open Scope R_scope.








End DistributionSummary.

Section NaNArrays.

(** On an array without [NaN] the two readings of [analyzeDistribution]
    agree. *)
Lemma allNumbers_Some (values : list Z) :
  TypingParser.allNumbers (map Some values) = Some values.
Proof.
  induction values as [|v l IH]; cbn [map TypingParser.allNumbers]; [reflexivity|].
  now rewrite IH.
Qed.

Lemma analyzeDistributionNaN_numbers (values : list Z) :
  TypingParser.analyzeDistributionNaN (map Some values)
  = TypingParser.analyzeDistribution values.
Proof.
  unfold TypingParser.analyzeDistributionNaN. now rewrite allNumbers_Some.
Qed.

End NaNArrays.

(* ================================================================== *)
(** * The pattern format: splitting, numerals and decoding *)
(* ================================================================== *)

Section Splitting.

Lemma split_nonempty (sep : ascii) (s : string) : JS.split sep s <> [].
Proof.
  induction s as [|c r IH]; cbn [JS.split]; [discriminate|].
  destruct (Ascii.eqb c sep); [discriminate|].
  destruct (JS.split sep r); [congruence|discriminate].
Qed.

Lemma length_split (sep : ascii) (s : string) :
  List.length (JS.split sep s) = S (Format.count sep s).
Proof.
  induction s as [|c r IH]; cbn [JS.split Format.count]; [reflexivity|].
  destruct (Ascii.eqb c sep); cbn [List.length]; [now rewrite IH|].
  pose proof (split_nonempty sep r) as N.
  destruct (JS.split sep r) as [|hd tl]; [congruence|]. exact IH.
Qed.

(** A string without the separator is one segment. *)
Lemma split_none (sep : ascii) (s : string) :
  Format.count sep s = 0%nat -> JS.split sep s = [s].
Proof.
  induction s as [|c r IH]; cbn [JS.split Format.count]; [reflexivity|].
  destruct (Ascii.eqb c sep); [discriminate|].
  intros H. now rewrite (IH H).
Qed.

(** The segment before the first separator. *)
Lemma split_app (sep : ascii) (a b : string) :
  Format.count sep a = 0%nat ->
  JS.split sep (a ++ String sep b) = a :: JS.split sep b.
Proof.
  induction a as [|c r IH]; cbn [JS.split Format.count append].
  - intros _. now rewrite Ascii.eqb_refl.
  - destruct (Ascii.eqb c sep); [discriminate|].
    intros H. now rewrite (IH H).
Qed.

Lemma count_app (c : ascii) (a b : string) :
  Format.count c (a ++ b) = (Format.count c a + Format.count c b)%nat.
Proof.
  induction a as [|x r IH]; cbn [Format.count append]; [reflexivity|].
  destruct (Ascii.eqb x c); rewrite IH; reflexivity.
Qed.

(** No segment holds the separator. *)
Lemma split_segments (sep : ascii) (s : string) :
  Forall (fun seg => Format.count sep seg = 0%nat) (JS.split sep s).
Proof.
  induction s as [|c r IH]; cbn [JS.split].
  - constructor; [reflexivity|constructor].
  - destruct (Ascii.eqb c sep) eqn:E.
    + constructor; [reflexivity|exact IH].
    + destruct (JS.split sep r) as [|hd tl].
      * constructor; [|constructor]. cbn. now rewrite E.
      * inversion IH; subst. constructor; [|assumption].
        cbn [Format.count]. now rewrite E.
Qed.

(** Joining the segments with the separator gives the string back. *)
Lemma join_split (sep : ascii) (s : string) :
  String.concat (String sep EmptyString) (JS.split sep s) = s.
Proof.
  assert (C : forall x y l,
             String.concat (String sep EmptyString) (x :: y :: l)
             = (x ++ String sep (String.concat (String sep EmptyString) (y :: l)))%string)
    by reflexivity.
  induction s as [|c r IH]; cbn [JS.split]; [reflexivity|].
  pose proof (split_nonempty sep r) as N.
  destruct (JS.split sep r) as [|hd tl]; [congruence|].
  destruct (Ascii.eqb_spec c sep) as [->|Hc].
  - rewrite C, IH. reflexivity.
  - destruct tl as [|y l].
    + cbn [String.concat] in *. now rewrite IH.
    + rewrite C in *. cbn [append]. now rewrite IH.
Qed.

End Splitting.

Section Numerals.

Import Decimal.

Lemma digits_step (c : ascii) (v : Z) (r : string) (acc : option Z) :
  JS.dec_digit c = Some v ->
  JS.digits 10 JS.dec_digit (String c r) acc
  = JS.digits 10 JS.dec_digit r (Some (10 * JS.or0 acc + v)).
Proof. intros H. cbn [JS.digits]. rewrite H. reflexivity. Qed.

Lemma digits_numeral (d : uint) (rest : string) :
  forall acc,
    JS.digits 10 JS.dec_digit (NilEmpty.string_of_uint d ++ rest) acc
    = JS.digits 10 JS.dec_digit rest
                (match d with
                 | Nil => acc
                 | _ => Some (Format.value d (JS.or0 acc))
                 end).
Proof.
  induction d; intros acc; cbn [NilEmpty.string_of_uint append];
    [reflexivity|..];
    (erewrite digits_step by reflexivity); rewrite IHd, ?Z.add_0_r;
    destruct d; reflexivity.
Qed.

Lemma value_acc (d : uint) :
  forall p, Z.pos (Pos.of_uint_acc d p) = Format.value d (Z.pos p).
Proof.
  induction d; intros p; cbn [Pos.of_uint_acc Format.value];
    [reflexivity|..]; rewrite IHd; f_equal; lia.
Qed.

Lemma value_of_uint (d : uint) : Z.of_N (Pos.of_uint d) = Format.value d 0.
Proof.
  induction d; cbn [Pos.of_uint Format.value]; [reflexivity|exact IHd|..];
    cbn [Z.of_N]; rewrite value_acc; reflexivity.
Qed.

End Numerals.

Section ShowParse.

Import Decimal.

Lemma append_empty (s : string) : (s ++ "")%string = s.
Proof. induction s as [|c r IH]; cbn [append]; [reflexivity|now rewrite IH]. Qed.

(** No white space is skipped before an ASCII character that is not white
    space. *)
Lemma trim_start_head (c : ascii) (r : string) :
  JS.is_space c = false -> (nat_of_ascii c <? 194)%nat = true ->
  JS.trim_start (String c r) = String c r.
Proof.
  intros S A. apply Nat.ltb_lt in A. cbn [JS.trim_start]. rewrite S.
  destruct r as [|d r1]; [reflexivity|].
  assert (E2 : JS.is_space2 c d = false).
  { unfold JS.is_space2. destruct (Nat.eqb_spec (nat_of_ascii c) 194); [lia|].
    reflexivity. }
  rewrite E2. destruct r1 as [|e r2]; [reflexivity|].
  assert (E3 : JS.is_space3 c d e = false).
  { unfold JS.is_space3.
    destruct (Nat.eqb_spec (nat_of_ascii c) 225); [lia|].
    destruct (Nat.eqb_spec (nat_of_ascii c) 226); [lia|].
    destruct (Nat.eqb_spec (nat_of_ascii c) 227); [lia|].
    destruct (Nat.eqb_spec (nat_of_ascii c) 239); [lia|].
    reflexivity. }
  rewrite E3. reflexivity.
Qed.

Lemma parseInt_numeral (d : uint) :
  d <> Nil ->
  JS.parseInt (NilEmpty.string_of_uint d)
  = option_map (fun v => v)
               (JS.digits 10 JS.dec_digit (NilEmpty.string_of_uint d) None)
  /\ JS.parseInt (String "-" (NilEmpty.string_of_uint d))
     = option_map (fun v => - v)
                  (JS.digits 10 JS.dec_digit (NilEmpty.string_of_uint d) None).
Proof.
  intros H. unfold JS.parseInt.
  destruct d as [|d|d|d|d|d|d|d|d|d|d]; [congruence|..];
    cbn [NilEmpty.string_of_uint];
    rewrite !trim_start_head by reflexivity;
    try (split; reflexivity).
  destruct d; split; reflexivity.
Qed.

Lemma digits_of_numeral (d : uint) :
  d <> Nil ->
  JS.digits 10 JS.dec_digit (NilEmpty.string_of_uint d) None
  = Some (Z.of_N (Pos.of_uint d)).
Proof.
  intros H.
  pose proof (digits_numeral d "" None) as E. rewrite append_empty in E.
  rewrite E. destruct d; [congruence|..]; cbn [JS.digits JS.or0];
    now rewrite value_of_uint.
Qed.

(** [parseInt] reads back the decimal numeral of every integer. *)
Lemma parseInt_show (z : Z) : JS.parseInt (JS.show z) = Some z.
Proof.
  unfold JS.show. destruct z as [|p|p].
  - reflexivity.
  - cbn [Z.to_int NilZero.string_of_int].
    pose proof (DecimalPos.Unsigned.to_uint_nonnil p) as N.
    assert (E : NilZero.string_of_uint (Pos.to_uint p)
                = NilEmpty.string_of_uint (Pos.to_uint p))
      by (destruct (Pos.to_uint p); [congruence|reflexivity..]).
    rewrite E, (proj1 (parseInt_numeral _ N)), (digits_of_numeral _ N).
    cbn [option_map]. now rewrite DecimalPos.Unsigned.of_to.
  - cbn [Z.to_int NilZero.string_of_int].
    pose proof (DecimalPos.Unsigned.to_uint_nonnil p) as N.
    assert (E : NilZero.string_of_uint (Pos.to_uint p)
                = NilEmpty.string_of_uint (Pos.to_uint p))
      by (destruct (Pos.to_uint p); [congruence|reflexivity..]).
    rewrite E, (proj2 (parseInt_numeral _ N)), (digits_of_numeral _ N).
    cbn [option_map]. now rewrite DecimalPos.Unsigned.of_to.
Qed.

Lemma count_numeral (c : ascii) (d : uint) :
  JS.dec_digit c = None ->
  Format.count c (NilEmpty.string_of_uint d) = 0%nat.
Proof.
  intros H. induction d; cbn [NilEmpty.string_of_uint Format.count];
    [reflexivity|..];
    match goal with
    | |- context [Ascii.eqb ?a c] =>
        destruct (Ascii.eqb_spec a c) as [<-|_]; [discriminate H|exact IHd]
    end.
Qed.

(** A decimal numeral holds neither [|] nor [,]. *)
Lemma count_show (c : ascii) (z : Z) :
  JS.dec_digit c = None -> c <> "-"%char ->
  Format.count c (JS.show z) = 0%nat.
Proof.
  intros H M. unfold JS.show.
  assert (U : forall d, Format.count c (NilZero.string_of_uint d) = 0%nat).
  { intros d. destruct d; try apply (count_numeral c _ H).
    cbn [NilZero.string_of_uint Format.count].
    destruct (Ascii.eqb_spec "0" c) as [<-|_]; [discriminate H|reflexivity]. }
  destruct (Z.to_int z) as [d|d]; cbn [NilZero.string_of_int Format.count].
  - apply U.
  - destruct (Ascii.eqb_spec "-" c) as [E|_]; [congruence|apply U].
Qed.

End ShowParse.

Section Decoding.

Local Open Scope string_scope.

Lemma count_segment (k : Keystroke.t) : Format.count "|" (Format.segment k) = 0%nat.
Proof.
  unfold Format.segment. rewrite !count_app, !count_show by (reflexivity || discriminate).
  reflexivity.
Qed.

Lemma parseSegment_segment (k : Keystroke.t) :
  TypingParser.parseSegment (Format.segment k) = k.
Proof.
  unfold TypingParser.parseSegment, Format.segment.
  change (JS.show (Keystroke.seekTime k) ++ "," ++ JS.show (Keystroke.pressTime k))
    with (JS.show (Keystroke.seekTime k)
          ++ String "," (JS.show (Keystroke.pressTime k))).
  rewrite split_app by (apply count_show; reflexivity || discriminate).
  rewrite split_none by (apply count_show; reflexivity || discriminate).
  cbn [nth_error JS.parseInt_or_0]. rewrite !parseInt_show.
  destruct k; reflexivity.
Qed.

(** The segments of a formatted pattern, after the header. *)
Lemma split_segments_format (keystrokes : list Keystroke.t) :
  keystrokes <> [] ->
  forall header,
    Format.count "|" header = 0%nat ->
    JS.split "|" (header ++ Format.segments keystrokes)
    = header :: map Format.segment keystrokes.
Proof.
  induction keystrokes as [|k rest IH]; [congruence|]. intros _ header H.
  cbn [Format.segments map].
  change ("|" ++ Format.segment k ++ Format.segments rest)
    with (String "|" (Format.segment k ++ Format.segments rest)).
  rewrite split_app by exact H. f_equal.
  destruct rest as [|k' rest'].
  - cbn [Format.segments map]. rewrite append_empty.
    apply split_none, count_segment.
  - apply IH; [discriminate|apply count_segment].
Qed.

End Decoding.

(** X1. [parsePattern] returns null exactly when the string is absent, empty
    or without a [|]; otherwise the pattern has one keystroke per [|] of the
    string, so at least one, and [analyzeFieldTyping] takes the pattern as
    valid: on the decoder's output its [keystrokeCount === 0] guard never
    applies. *)
Theorem X1_parsePattern_null_or_counted :
  TypingParser.parsePattern None = None
  /\ forall s,
      match TypingParser.parsePattern (Some s) with
      | None => Format.count "|" s = 0%nat
      | Some p =>
          Format.count "|" s <> 0%nat
          /\ Pattern.keystrokeCount p = Z.of_nat (Format.count "|" s)
          /\ List.length (Pattern.keystrokes p) = Format.count "|" s
          /\ FieldAnalysis.valid (AutomationDetector.analyzeFieldTyping (Some p))
             = true
      end.
Proof.
  split; [reflexivity|]. intros s.
  unfold TypingParser.parsePattern.
  destruct s as [|c r]; [reflexivity|].
  pose proof (length_split "|" (String c r)) as L.
  destruct (Nat.ltb_spec (List.length (JS.split "|" (String c r))) 2) as [H|H].
  - lia.
  - cbv zeta. cbn [Pattern.keystrokeCount Pattern.keystrokes].
    assert (K : List.length
                  (map TypingParser.parseSegment (tl (JS.split "|" (String c r))))
                = Format.count "|" (String c r)).
    { rewrite length_map. destruct (JS.split "|" (String c r)); cbn in *; lia. }
    rewrite K. split; [lia|]. split; [reflexivity|]. split; [reflexivity|].
    unfold AutomationDetector.analyzeFieldTyping.
    cbn [Pattern.keystrokeCount].
    destruct (Z.eqb_spec (Z.of_nat (Format.count "|" (String c r))) 0); [lia|].
    reflexivity.
Qed.

(** X2. [parsePattern] decodes the format: on a header without [|] followed
    by one segment [|seek,press] per keystroke, the numbers in decimal, it
    returns exactly those keystrokes, whatever the integers (a negative or
    zero value is kept in [keystrokes] and left out of the raw arrays), as
    long as a double holds them exactly (up to 2^53 in magnitude): the
    source reads a larger number as the nearest double. *)
Theorem X2_parsePattern_reads_format :
  forall header keystrokes,
    Format.count "|" header = 0%nat ->
    keystrokes <> [] ->
    Forall Ordinary.keystroke keystrokes ->
    exists p,
      TypingParser.parsePattern (Some (Format.pattern header keystrokes)) = Some p
      /\ Pattern.keystrokes p = keystrokes
      /\ Pattern.keystrokeCount p = Z.of_nat (List.length keystrokes)
      /\ Raw.seekTimes (Pattern.raw p)
         = filter (fun t => 0 <? t) (map Keystroke.seekTime keystrokes)
      /\ Raw.pressTimes (Pattern.raw p)
         = filter (fun t => 0 <? t) (map Keystroke.pressTime keystrokes).
Proof.
  intros header keystrokes H N _.
  assert (S : JS.split "|" (Format.pattern header keystrokes)
              = header :: map Format.segment keystrokes)
    by now apply split_segments_format.
  assert (M : map TypingParser.parseSegment (map Format.segment keystrokes)
              = keystrokes).
  { rewrite map_map. rewrite <- (map_id keystrokes) at 2.
    apply map_ext. apply parseSegment_segment. }
  unfold TypingParser.parsePattern.
  destruct (Format.pattern header keystrokes) as [|c r] eqn:E.
  - exfalso. cbn in S. destruct keystrokes; [congruence|discriminate].
  - rewrite S. cbn [List.length tl]. rewrite length_map.
    destruct keystrokes as [|k rest] eqn:Ek; [congruence|].
    cbn [List.length Nat.ltb Nat.leb]. rewrite <- Ek in *. rewrite M.
    eexists. split; [reflexivity|].
    cbn [Pattern.keystrokes Pattern.keystrokeCount Pattern.raw Raw.seekTimes
         Raw.pressTimes].
    rewrite Ek. cbn [List.length]. repeat split.
Qed.

Lemma X2_parsePattern_reads_format_witness :
  exists p,
    TypingParser.parsePattern (Some "v1|120,60|0,-3|90,50"%string) = Some p
    /\ Pattern.keystrokes p
       = [Keystroke.mk 120 60; Keystroke.mk 0 (-3); Keystroke.mk 90 50].
Proof.
  destruct (X2_parsePattern_reads_format
              "v1"%string
              [Keystroke.mk 120 60; Keystroke.mk 0 (-3); Keystroke.mk 90 50]
              eq_refl ltac:(discriminate)
              ltac:(repeat constructor; unfold Ordinary.safe; cbn; lia))
    as (p & Hp & Hk & _).
  exists p. split; [exact Hp|exact Hk].
Defined.

(* ================================================================== *)
(** * Coherence of the summaries and of the decoded patterns *)
(* ================================================================== *)

Section StatsBounds.

Local Open Scope R_scope.







Lemma nearest_ge (k m : Z) (x : R) :
  Exact.nearest k x -> IZR m <= x -> (m <= k)%Z.
Proof.
  unfold Exact.nearest. intros [_ U] H.
  assert (IZR m < IZR k + 1) by lra.
  rewrite <- plus_IZR in H0. apply lt_IZR in H0. lia.
Qed.

End StatsBounds.




Section DecodedPatterns.

(** The pattern [parsePattern] builds from the decoded keystrokes. *)
Lemma parsePattern_shape (patternStr : option string) (p : Pattern.t) :
  TypingParser.parsePattern patternStr = Some p ->
  exists keystrokes,
    keystrokes <> []
    /\ let seekTimes :=
         filter (fun t => 0 <? t) (map Keystroke.seekTime keystrokes) in
       let pressTimes :=
         filter (fun t => 0 <? t) (map Keystroke.pressTime keystrokes) in
       p = Pattern.mk (Z.of_nat (List.length keystrokes))
                      (TypingParser.calcStats seekTimes)
                      (TypingParser.calcStats pressTimes)
                      (Z.of_nat (List.length (filter (fun t => 500 <? t) seekTimes)))
                      keystrokes (Raw.mk seekTimes pressTimes).
Proof.
  unfold TypingParser.parsePattern.
  destruct patternStr as [[|c r]|]; try discriminate.
  remember (JS.split "|" (String c r)) as segs eqn:Es. clear Es.
  destruct (Nat.ltb_spec (List.length segs) 2) as [L|L]; [discriminate|].
  intros [= <-]. eexists. split; [|reflexivity].
  destruct segs as [|a [|b l]]; cbn in L; try lia.
  cbn [tl map]. discriminate.
Qed.




End DecodedPatterns.



(* ================================================================== *)
(** * Invariants of the distribution summary *)
(* ================================================================== *)

Section RoundedRatios.

Lemma Math_round_le (x y : Q) : (x <= y)%Q -> JS.Math_round x <= JS.Math_round y.
Proof.
  intros H. unfold JS.Math_round. apply Qfloor_resp_le.
  apply Qplus_le_l. exact H.
Qed.

(** Rounding to two decimals keeps a ratio between 0 and 1. *)
Lemma round2_unit (x : Q) : (0 <= x <= 1)%Q -> (0 <= JS.round2 x <= 1)%Q.
Proof.
  intros [L U]. unfold JS.round2.
  assert (L' : JS.Math_round (0 * 100) <= JS.Math_round (x * 100)).
  { apply Math_round_le. apply Qmult_le_compat_r; [exact L|discriminate]. }
  assert (U' : JS.Math_round (x * 100) <= JS.Math_round (1 * 100)).
  { apply Math_round_le. apply Qmult_le_compat_r; [exact U|discriminate]. }
  change (JS.Math_round (0 * 100)) with 0 in L'.
  change (JS.Math_round (1 * 100)) with 100 in U'.
  set (k := JS.Math_round (x * 100)) in *. clearbody k.
  split; unfold Qle, Qdiv, Qmult, Qinv, inject_Z; cbn; lia.
Qed.

(** A count over a total, as a ratio. *)
Lemma ratio_unit (k n : Z) :
  0 <= k <= n -> 0 < n -> (0 <= inject_Z k / inject_Z n <= 1)%Q.
Proof.
  intros [L U] Hn.
  assert (P : (0 < inject_Z n)%Q) by (unfold Qlt; cbn; lia).
  split.
  - apply Qle_shift_div_l; [exact P|]. rewrite Qmult_0_l.
    unfold Qle; cbn; lia.
  - apply Qle_shift_div_r; [exact P|]. rewrite Qmult_1_l.
    unfold Qle; cbn; lia.
Qed.

Lemma Math_round_sqrt_nonneg (v : Q) : 0 <= JS.Math_round_sqrt v.
Proof.
  unfold JS.Math_round_sqrt.
  pose proof (Z.sqrt_nonneg (Qfloor (4 * v))).
  apply Z.div_pos; lia.
Qed.

Lemma hundredth_nonneg (k : Z) : 0 <= k -> (0 <= inject_Z k / 100)%Q.
Proof. intros H. unfold Qle, Qdiv, Qmult, Qinv, inject_Z. cbn. lia. Qed.

End RoundedRatios.

Section SimilarRuns.

(** The longest run the loop reports lies between the one it starts from and
    what the rest of the array could add to the current run. *)
Lemma similarLoop_bounds (rest : list Z) :
  forall prev mx cur,
    mx <= TypingParser.similarLoop prev rest mx cur
    /\ (1 <= cur ->
        TypingParser.similarLoop prev rest mx cur
        <= Z.max mx (cur + Z.of_nat (List.length rest))).
Proof.
  induction rest as [|v rest IH]; intros prev mx cur;
    cbn [TypingParser.similarLoop List.length].
  - lia.
  - destruct (Z.abs (v - prev) <? 10).
    + destruct (IH v (Z.max mx (cur + 1)) (cur + 1)) as [L U]. split; [lia|].
      intros Hc. specialize (U ltac:(lia)). lia.
    + destruct (IH v mx 1) as [L U]. split; [lia|].
      intros Hc. specialize (U ltac:(lia)). lia.
Qed.

End SimilarRuns.



(** X6. Invariants of a summary of [analyzeDistribution] of ordinary
    integers (at most 10^4 of them, up to 10^9 in magnitude) that is valid
    and not the uniform one: the array has at least 4 numbers, the standard
    deviation, the range and the coefficient of variation are not negative,
    the share of round numbers lies between 0 and 1, and the longest run of
    similar intervals between 1 and the length of the array. *)
Theorem X6_analyzeDistribution_invariants (values : list Z) :
  Ordinary.values values ->
  let d := TypingParser.analyzeDistribution values in
  Distribution.valid d = true ->
  Distribution.isUniform d = None ->
  (4 <= List.length values)%nat
  /\ exists s q m r c,
      Distribution.std d = Some s /\ 0 <= s
      /\ Distribution.roundNumberRatio d = Some q /\ (0 <= q <= 1)%Q
      /\ Distribution.maxConsecutiveSimilar d = Some m
      /\ 1 <= m <= Z.of_nat (List.length values)
      /\ Distribution.range d = Some r /\ 0 <= r
      /\ Distribution.cv d = Some c /\ (0 <= c)%Q.
Proof.
  intros _ d. subst d. unfold TypingParser.analyzeDistribution.
  destruct (Nat.ltb_spec (List.length values) 4) as [L|L]; [discriminate|].
  cbv zeta. destruct (Qeq_bool _ 0); [discriminate|].
  intros _ _. split; [exact L|].
  cbn [Distribution.std Distribution.roundNumberRatio
       Distribution.maxConsecutiveSimilar Distribution.range Distribution.cv].
  do 5 eexists.
  split; [reflexivity|]. split; [apply Math_round_sqrt_nonneg|].
  split; [reflexivity|]. split.
  { apply round2_unit. apply ratio_unit; [|lia].
    pose proof (filter_length_le (fun v => Z.rem v 10 =? 0) values). lia. }
  split; [reflexivity|]. split.
  { destruct values as [|v0 rest]; [cbn in L; lia|].
    destruct (similarLoop_bounds rest v0 1 1) as [A B].
    specialize (B ltac:(lia)). cbn [List.length]. lia. }
  split; [reflexivity|]. split.
  { destruct values as [|v0 rest]; [cbn in L; lia|].
    unfold JS.Math_max, JS.Math_min.
    destruct (fold_min_least rest v0) as [I1 L1].
    destruct (fold_max_greatest rest v0) as [I2 L2].
    specialize (L2 _ I1). lia. }
  split; [reflexivity|].
  destruct (JS.Qltb 0 _).
  - apply hundredth_nonneg. apply Math_round_sqrt_nonneg.
  - discriminate.
Qed.

Lemma X6_analyzeDistribution_invariants_witness :
  (4 <= List.length [100; 104; 90; 230; 95])%nat
  /\ Distribution.maxConsecutiveSimilar
       (TypingParser.analyzeDistribution [100; 104; 90; 230; 95]) = Some 2.
Proof.
  destruct (X6_analyzeDistribution_invariants
              [100; 104; 90; 230; 95]
              ltac:(unfold Ordinary.values, Ordinary.maxLength,
                      Ordinary.maxValue;
                    split; [cbn; lia|repeat constructor; cbn; lia])
              eq_refl eq_refl) as (L & _).
  split; [exact L|reflexivity].
Defined.

(** X7. Identical seek intervals escape the distribution detectors: on a
    field whose positive seek intervals are all the same number, five of them
    or more, and add up without rounding (n * v <= 2^53),
    [analyzeDistribution] returns the uniform result,
    [detectGaussianPattern] raises no flag on it, and the seek-distribution
    block of [analyze] changes neither score nor reasons; it only records the
    distribution. *)
Theorem X7_identical_intervals_raise_no_distribution_flag :
  forall label set_dist pat st v,
    (4 < List.length (Raw.seekTimes (Pattern.raw pat)))%nat ->
    (forall x, In x (Raw.seekTimes (Pattern.raw pat)) -> x = v) ->
    Ordinary.exactSums (List.length (Raw.seekTimes (Pattern.raw pat))) v ->
    let st' := AutomationDetector.seekDistributionBlock
                 TypingParser_object label set_dist pat st in
    AutomationDetector.detectGaussianPattern
      (TypingParser.analyzeDistribution (Raw.seekTimes (Pattern.raw pat))) = []
    /\ AutomationDetector.botScore st' = AutomationDetector.botScore st
    /\ AutomationDetector.humanScore st' = AutomationDetector.humanScore st
    /\ AutomationDetector.reasons st' = AutomationDetector.reasons st
    /\ AutomationDetector.details st'
       = set_dist Distribution.uniform (AutomationDetector.details st).
Proof.
  intros label set_dist pat st v L H _ st'. subst st'.
  assert (E : TypingParser.analyzeDistribution (Raw.seekTimes (Pattern.raw pat))
              = Distribution.uniform).
  { unfold TypingParser.analyzeDistribution.
    destruct (Nat.ltb_spec (List.length (Raw.seekTimes (Pattern.raw pat))) 4);
      [lia|].
    cbv zeta.
    assert (Hn : Raw.seekTimes (Pattern.raw pat) <> [])
      by (destruct (Raw.seekTimes (Pattern.raw pat)); [cbn in L; lia|congruence]).
    pose proof (variance_const v _ Hn H) as V. cbv zeta in V.
    apply Qeq_bool_iff in V. rewrite V. reflexivity. }
  unfold AutomationDetector.seekDistributionBlock. cbv zeta.
  destruct (Nat.ltb_spec 4 (List.length (Raw.seekTimes (Pattern.raw pat))));
    [|lia].
  cbn [Parser.analyzeDistribution TypingParser_object]. rewrite E.
  repeat split.
Qed.

Lemma X7_identical_intervals_raise_no_distribution_flag_witness :
  AutomationDetector.detectGaussianPattern
    (TypingParser.analyzeDistribution [100; 100; 100; 100; 100]) = [].
Proof.
  exact (proj1 (X7_identical_intervals_raise_no_distribution_flag
                  "Username"%string Details.set_userSeekDistribution
                  (Pattern.mk 5 FieldStats.zero FieldStats.zero 0 []
                              (Raw.mk [100; 100; 100; 100; 100] []))
                  AutomationDetector.init 100
                  ltac:(cbn; lia)
                  ltac:(cbn; intuition congruence)
                  ltac:(unfold Ordinary.exactSums; cbn; lia))).
Defined.

(* ================================================================== *)
(** * The shape of a trajectory analysis *)
(* ================================================================== *)

Section TrajectoryShape.

Import TypingParser.

Lemma totalDistance_nonneg (points : list Point.t) :
  (0 <= totalDistance points)%R.
Proof.
  induction points as [|p rest IH]; [cbn; lra|].
  destruct rest as [|q rest']; [cbn; lra|].
  change (totalDistance (p :: q :: rest'))
    with (stepLength p q + totalDistance (q :: rest'))%R.
  pose proof (sqrt_pos (IZR ((Point.x q - Point.x p) * (Point.x q - Point.x p)
                             + (Point.y q - Point.y p) * (Point.y q - Point.y p)))).
  unfold stepLength. cbv zeta. lra.
Qed.

(** One index of the second loop adds at most 1 to each counter. *)
Lemma countTurn_step (p0 p1 p2 : Point.t) (c : Counters) :
  smoothSegments c <= smoothSegments (countTurn p0 p1 p2 c) <= smoothSegments c + 1
  /\ corrections c <= corrections (countTurn p0 p1 p2 c) <= corrections c + 1.
Proof.
  unfold countTurn. destruct (turnAngle p0 p1 p2) as [angle|]; [|lia].
  unfold countAngle. cbv zeta. cbn [smoothSegments corrections].
  destruct (Rlt_dec angle (1 / 10)), (Rlt_dec (9 / 100) angle),
    (Rlt_dec angle (52 / 100)); lia.
Qed.

Lemma turnLoop_bounds (points : list Point.t) :
  forall c,
    smoothSegments c <= smoothSegments (turnLoop points c)
                     <= smoothSegments c + Path.interior points
    /\ corrections c <= corrections (turnLoop points c)
                     <= corrections c + Path.interior points.
Proof.
  unfold Path.interior.
  induction points as [|p0 rest IH]; intros c; [cbn; lia|].
  destruct rest as [|p1 [|p2 rest']]; [cbn; lia|cbn; lia|].
  change (turnLoop (p0 :: p1 :: p2 :: rest') c)
    with (turnLoop (p1 :: p2 :: rest') (countTurn p0 p1 p2 c)).
  specialize (IH (countTurn p0 p1 p2 c)).
  pose proof (countTurn_step p0 p1 p2 c).
  cbn [List.length Nat.sub] in *. lia.
Qed.



End TrajectoryShape.

(** X8. The shape of what [analyzeTrajectory] returns.  The result is valid
    exactly when the trajectory has a sample of at least 3 points, and
    otherwise it is [{valid: false, points: 0, distance: 0}].  A valid result
    counts the points of the sample, its distance is not negative, its two
    ratios lie between 0 and 1, and it carries interval statistics exactly
    when the sample has more than 3 points and the first one a truthy
    timestamp. *)
Theorem X8_analyzeTrajectory_shape (trajectory : Trajectory.t) :
  let ta := TypingParser.analyzeTrajectory trajectory in
  (TrajectoryAnalysis.valid ta = true
   <-> exists points, Trajectory.sample trajectory = Some points
                      /\ (3 <= List.length points)%nat)
  /\ (TrajectoryAnalysis.valid ta = false -> ta = TrajectoryAnalysis.invalid)
  /\ (forall points,
         Trajectory.sample trajectory = Some points ->
         (3 <= List.length points)%nat ->
         TrajectoryAnalysis.points ta = Z.of_nat (List.length points)
         /\ 0 <= TrajectoryAnalysis.distance ta
         /\ (exists s c,
               TrajectoryAnalysis.smoothRatio ta = Some s
               /\ TrajectoryAnalysis.correctionRatio ta = Some c
               /\ (0 <= s <= 1)%Q /\ (0 <= c <= 1)%Q)
         /\ TrajectoryAnalysis.intervalStats ta
            = if (3 <? List.length points)%nat && Path.timed points
              then Some (TypingParser.analyzeDistributionNaN
                           (TypingParser.intervals points))
              else None).
Proof.
  intros ta. subst ta. unfold TypingParser.analyzeTrajectory.
  destruct (Trajectory.sample trajectory) as [points|].
  2:{ split; [|split].
      - split; [discriminate|]. intros (p & Hp & _). discriminate.
      - reflexivity.
      - intros p Hp. discriminate. }
  destruct (Nat.ltb_spec (List.length points) 3) as [L|L].
  { split; [|split].
    - split; [discriminate|]. intros (p & [= <-] & Hp). lia.
    - reflexivity.
    - intros p [= <-] Hp. lia. }
  cbv zeta. split; [|split].
  - split; [|reflexivity]. intros _. exists points. now split.
  - discriminate.
  - intros p [= <-] _.
    cbn [TrajectoryAnalysis.points TrajectoryAnalysis.distance
         TrajectoryAnalysis.smoothRatio TrajectoryAnalysis.correctionRatio
         TrajectoryAnalysis.intervalStats].
    split; [reflexivity|]. split.
    { apply (nearest_ge _ _ _ (Math_roundR_nearest _)).
      apply totalDistance_nonneg. }
    split; [|reflexivity].
    destruct (turnLoop_bounds points (TypingParser.mkCounters 0 0)) as [S C].
    cbn [TypingParser.smoothSegments TypingParser.corrections] in S, C.
    assert (I : Path.interior points = Z.of_nat (List.length points) - 2)
      by (unfold Path.interior; lia).
    rewrite I in S, C.
    do 2 eexists. split; [reflexivity|]. split; [reflexivity|].
    split; apply round2_unit; apply ratio_unit; lia.
Qed.



(* ================================================================== *)
(** * The password check *)
(* ================================================================== *)

Section PasswordClass.

(** The character class of the regular expression is the ASCII
    punctuation. *)
Lemma isSpecial_punctuation (c : ascii) :
  JS.isSpecial c = Request.punctuation c.
Proof.
  destruct c as [[] [] [] [] [] [] [] []]; vm_compute; reflexivity.
Qed.

Lemma existsb_orb {A} (f g : A -> bool) (l : list A) :
  existsb f l || existsb g l = existsb (fun x => f x || g x) l.
Proof.
  induction l as [|x l IH]; [reflexivity|]. cbn [existsb].
  rewrite <- IH. destruct (f x), (g x), (existsb f l), (existsb g l); reflexivity.
Qed.

Lemma needsShift_class (password : string) :
  JS.testUpperCase password || JS.testSpecialChar password
  = existsb (fun c => JS.isUpper c || Request.punctuation c)
            (list_ascii_of_string password).
Proof.
  unfold JS.testUpperCase, JS.testSpecialChar. rewrite existsb_orb.
  induction (list_ascii_of_string password) as [|c l IH]; [reflexivity|].
  cbn [existsb]. now rewrite IH, isSpecial_punctuation.
Qed.

Lemma typedPlainly_counts (stats : Stats.t) :
  Request.typedPlainly stats ->
  JS.or_else (Stats.passwordShiftCount stats) (JS.or0 (Stats.shiftCount stats)) = 0
  /\ JS.or_else (Stats.passwordCapsLockCount stats)
                (JS.or0 (Stats.capsLockCount stats)) = 0
  /\ JS.or0 (Stats.pastePass stats) = 0.
Proof.
  unfold Request.typedPlainly, Request.unreported.
  intros ([-> | ->] & [-> | ->] & [-> | ->] & [-> | ->] & [-> | ->]);
    repeat split.
Qed.

End PasswordClass.

(** X10. The password check of [detectPasswordMismatch], on a request that
    reports no Shift, no CapsLock and no paste for the password: the flag
    (weight 3) is raised exactly when the password holds an uppercase letter
    A-Z or one of the 32 ASCII punctuation characters.  The character class
    of the source is the whole ASCII punctuation, so that it includes the
    characters a keyboard gives without Shift, such as the hyphen and the
    full stop. *)
Theorem X10_password_mismatch_rule (stats : Stats.t) (password : string) :
  Stats.password stats = Some password ->
  Request.typedPlainly stats ->
  (forall c, JS.isSpecial c = Request.punctuation c)
  /\ fst (AutomationDetector.detectPasswordMismatch stats)
     = if existsb (fun c => JS.isUpper c || Request.punctuation c)
                  (list_ascii_of_string password)
       then [AutomationDetector.botFlag
               3 "Password has uppercase/special chars but no Shift/CapsLock and not pasted"]
       else [].
Proof.
  intros Hp Ht. split; [exact isSpecial_punctuation|].
  destruct (typedPlainly_counts stats Ht) as (S & C & P).
  unfold AutomationDetector.detectPasswordMismatch. cbv zeta.
  rewrite Hp, S, C, P.
  destruct password as [|a r]; [reflexivity|].
  cbn [fst]. rewrite needsShift_class.
  destruct (existsb _ _); reflexivity.
Qed.

Lemma X10_password_mismatch_rule_witness :
  fst (AutomationDetector.detectPasswordMismatch
         (Stats.mk None None None None None None None None None None None None
                   None None (Some "pass-word"%string) false None None None None))
  = [AutomationDetector.botFlag
       3 "Password has uppercase/special chars but no Shift/CapsLock and not pasted"].
Proof.
  apply (proj2 (X10_password_mismatch_rule
                  (Stats.mk None None None None None None None None None None
                            None None None None (Some "pass-word"%string) false
                            None None None None)
                  "pass-word"%string eq_refl
                  ltac:(unfold Request.typedPlainly, Request.unreported;
                        cbn; tauto))).
Defined.

Section LegacyVerdict.

Import TypingAnalyzer.

Lemma legacy_before_shift_nonneg (stats : Stats.t) :
  let st := fieldBlock "Username" set_username (Stats.lastUserTp stats) init in
  let st := fieldBlock "Password" set_password (Stats.lastPassTp stats) st in
  let st := timingBlock stats st in
  let st := trajectoryBlock stats st in
  let st := pasteBlock stats st in
  0 <= botScore (imeBlock stats st).
Proof.
  cbv zeta.
  pose proof (fieldBlock_gains "Username" set_username (Stats.lastUserTp stats) init) as G1.
  set (s1 := fieldBlock "Username" _ _ _) in *.
  pose proof (fieldBlock_gains "Password" set_password (Stats.lastPassTp stats) s1) as G2.
  set (s2 := fieldBlock "Password" _ _ _) in *.
  pose proof (timingBlock_gains stats s2) as G3.
  set (s3 := timingBlock _ _) in *.
  pose proof (trajectoryBlock_gains stats s3) as G4.
  set (s4 := trajectoryBlock _ _) in *.
  pose proof (pasteBlock_gains stats s4) as G5.
  set (s5 := pasteBlock _ _) in *.
  pose proof (imeBlock_gains stats s5) as G6.
  unfold gains in *. change (botScore init) with 0 in G1. lia.
Qed.

End LegacyVerdict.

(** X11. In [TypingAnalyzer.analyzeLogin] the password check alone decides:
    when the password holds an uppercase letter or a punctuation character
    and the request reports no Shift, CapsLock or paste for it, botScore is
    at least 3 and the verdict is isBot = true, whatever the typing, timing,
    trajectory and IME data say. *)
Theorem X11_legacy_password_mismatch_decides (stats : Stats.t) (password : string) :
  Stats.password stats = Some password ->
  Request.typedPlainly stats ->
  existsb (fun c => JS.isUpper c || Request.punctuation c)
          (list_ascii_of_string password) = true ->
  let r := TypingAnalyzer.analyzeLogin stats in
  3 <= Scores.bot (TypingAnalyzer.Result.scores r)
  /\ TypingAnalyzer.Result.isBot r = true
  /\ In "Password contains uppercase or special chars but no Shift/CapsLock detected and not pasted"%string
        (TypingAnalyzer.Result.reasons r).
Proof.
  intros Hp Ht Hn r. subst r.
  destruct (typedPlainly_counts stats Ht) as (S & C & P).
  pose proof (legacy_before_shift_nonneg stats) as N. cbv zeta in N.
  unfold TypingAnalyzer.analyzeLogin. cbv zeta.
  cbn [TypingAnalyzer.Result.scores TypingAnalyzer.Result.isBot
       TypingAnalyzer.Result.reasons Scores.bot].
  unfold TypingAnalyzer.run. cbv zeta.
  set (st := TypingAnalyzer.imeBlock stats _) in *.
  assert (E : TypingAnalyzer.shiftBlock stats st
              = TypingAnalyzer.setDetails
                  (TypingAnalyzer.set_passwordAnalysis
                     (PasswordDetails.mk (JS.testUpperCase password)
                                         (JS.testSpecialChar password)
                                         true false false))
                  (TypingAnalyzer.push
                     "Password contains uppercase or special chars but no Shift/CapsLock detected and not pasted"
                     (TypingAnalyzer.addBot 3 st))).
  { unfold TypingAnalyzer.shiftBlock. cbv zeta. rewrite Hp, S, C, P.
    destruct password as [|a l]; [discriminate|].
    rewrite needsShift_class, Hn. reflexivity. }
  rewrite E.
  cbn [TypingAnalyzer.setDetails TypingAnalyzer.push TypingAnalyzer.addBot
       TypingAnalyzer.botScore TypingAnalyzer.reasons].
  split; [lia|]. split.
  - destruct (Z.leb_spec 3 (TypingAnalyzer.botScore st + 3)); [reflexivity|lia].
  - apply in_or_app. right. now left.
Qed.

Lemma X11_legacy_password_mismatch_decides_witness :
  TypingAnalyzer.Result.isBot
    (TypingAnalyzer.analyzeLogin
       (Stats.mk None None None None None None (Some 2) None None None None None
                 None None (Some "pass-word"%string) false None None None None))
  = true.
Proof.
  apply (proj1 (proj2 (X11_legacy_password_mismatch_decides
                         (Stats.mk None None None None None None (Some 2) None
                                   None None None None None None
                                   (Some "pass-word"%string) false None None
                                   None None)
                         "pass-word"%string eq_refl
                         ltac:(unfold Request.typedPlainly, Request.unreported;
                               cbn; tauto)
                         eq_refl))).
Defined.

(* ================================================================== *)
(** * Ranges of the scores and zero-weight flags *)
(* ================================================================== *)

Section ScoreRanges.

Lemma confidenceOf_le_100 (b h : Z) :
  0 <= b -> 0 <= h -> AutomationDetector.confidenceOf b h <= 100.
Proof.
  intros Hb Hh. rewrite confidenceOf_div.
  destruct (Z.ltb_spec 0 (b + h)); [|lia].
  assert ((200 * b + (b + h)) / (2 * (b + h)) < 101)
    by (apply Z.div_lt_upper_bound; lia).
  lia.
Qed.

End ScoreRanges.

(** X12. The scores and the confidence [analyze] returns are bounded: the
    confidence lies between 0 and 100 on every call, and with a decoder
    botScore lies between 0 and 88 and humanScore between 0 and 16. *)
Theorem X12_analyze_score_ranges :
  forall ambient stats parser,
    let r := AutomationDetector.analyze ambient stats parser in
    0 <= Result.confidence r <= 100
    /\ match Result.scores r with
       | Some s => 0 <= Scores.bot s <= 88 /\ 0 <= Scores.human s <= 16
       | None => parser = None /\ ambient = None
       end.
Proof.
  intros ambient stats parser r. subst r. unfold AutomationDetector.analyze.
  destruct parser as [p|]; [|destruct ambient as [p|]];
    try (cbn; split; [lia|now split]);
    unfold AutomationDetector.finish;
    cbn [Result.confidence Result.scores Scores.bot Scores.human];
    destruct (run_scores p stats) as [-> ->];
    destruct (triggered_bounds p stats) as [Hb Hh];
    (split; [split; [apply confidenceOf_nonneg|apply confidenceOf_le_100]; lia
            |split; assumption]).
Qed.

(** X13. The scores and the confidence [analyzeLogin] returns are bounded:
    botScore lies between 0 and 27, humanScore between 0 and 14, and the
    confidence between 0 and 100. *)
Theorem X13_analyzeLogin_score_ranges :
  forall stats,
    let r := TypingAnalyzer.analyzeLogin stats in
    0 <= Scores.bot (TypingAnalyzer.Result.scores r) <= 27
    /\ 0 <= Scores.human (TypingAnalyzer.Result.scores r) <= 14
    /\ 0 <= TypingAnalyzer.Result.confidence r <= 100.
Proof.
  intros stats r. subst r. unfold TypingAnalyzer.analyzeLogin. cbv zeta.
  cbn [TypingAnalyzer.Result.scores TypingAnalyzer.Result.confidence
       Scores.bot Scores.human].
  destruct (legacy_run_bounds stats) as [Hb Hh].
  rewrite legacy_confidenceOf.
  split; [exact Hb|]. split; [exact Hh|].
  split; [apply confidenceOf_nonneg|apply confidenceOf_le_100]; lia.
Qed.

(** X14. With botScore >= 0 fixed, the confidence does not grow when
    humanScore grows: for 0 <= h1 <= h2 the confidence of (botScore, h2) is
    at most that of (botScore, h1).  A human signal never raises the bot
    probability. *)
Theorem X14_confidence_antitone_in_human :
  forall botScore h1 h2,
    0 <= botScore -> 0 <= h1 -> h1 <= h2 ->
    AutomationDetector.confidenceOf botScore h2
    <= AutomationDetector.confidenceOf botScore h1.
Proof.
  intros b h1 h2 Hb Hh1 Hh.
  destruct (Z.ltb_spec 0 (b + h1)) as [H1|H1].
  - rewrite !confidenceOf_div.
    destruct (Z.ltb_spec 0 (b + h1)); [|lia].
    destruct (Z.ltb_spec 0 (b + h2)); [|lia].
    apply Z.div_le_lower_bound; [lia|].
    pose proof (Z.mul_div_le (200 * b + (b + h2)) (2 * (b + h2)) ltac:(lia)) as L.
    set (c := (200 * b + (b + h2)) / (2 * (b + h2))) in *.
    assert (0 <= c) by (apply Z.div_pos; lia).
    assert (b * h1 <= b * h2) by nia.
    assert (c * (2 * (b + h1)) * (b + h2) <= (200 * b + (b + h1)) * (b + h2)).
    { transitivity ((200 * b + (b + h2)) * (b + h1)); nia. }
    nia.
  - assert (b = 0) by lia. assert (h1 = 0) by lia. subst b h1.
    rewrite !confidenceOf_div. cbn [Z.add].
    destruct (Z.ltb_spec 0 h2); [|cbn; lia].
    replace (200 * 0 + h2) with h2 by lia.
    rewrite Z.div_small by lia. cbn. lia.
Qed.

Lemma X14_confidence_antitone_in_human_witness :
  AutomationDetector.confidenceOf 5 6 <= AutomationDetector.confidenceOf 5 2.
Proof. apply (X14_confidence_antitone_in_human 5 2 6); lia. Defined.

Section NoPlugins.

Import AutomationDetector SignalCatalog.

Lemma detectWebDriver_noPlugins (b : bool) (stats : Stats.t) :
  flagSum (detectWebDriver (Request.with_noPlugins b stats))
  = flagSum (detectWebDriver stats).
Proof.
  unfold detectWebDriver, Request.with_noPlugins.
  cbn [Stats.webdriverDetected Stats.automationFlags].
  destruct (Stats.automationFlags stats) as [af|]; [|reflexivity].
  cbn [AutomationFlags.hasChromiumAutomation AutomationFlags.hasSelenium
       AutomationFlags.hasPhantom AutomationFlags.headlessChrome
       AutomationFlags.noPlugins AutomationFlags.zeroWindowSize].
  rewrite !flagSum_app, !flagSum_pushIf.
  destruct b, (AutomationFlags.noPlugins af); reflexivity.
Qed.

Lemma triggered_noPlugins (b : bool) (p : Parser.t) (stats : Stats.t) (ty : Tag) :
  total ty (triggered p (Request.with_noPlugins b stats))
  = total ty (triggered p stats).
Proof.
  unfold triggered. rewrite !total_app, !total_ofFlags.
  rewrite detectWebDriver_noPlugins.
  reflexivity.
Qed.

End NoPlugins.

(** X15. The [noPlugins] automation flag is a diagnostic only: its weight is
    0, so setting or clearing it changes neither the scores, nor the
    confidence, nor the verdict of [analyze]. *)
Theorem X15_noPlugins_does_not_count :
  forall ambient stats parser noPlugins,
    let r := AutomationDetector.analyze ambient stats parser in
    let r' := AutomationDetector.analyze
                ambient (Request.with_noPlugins noPlugins stats) parser in
    Result.scores r' = Result.scores r
    /\ Result.confidence r' = Result.confidence r
    /\ Result.isBot r' = Result.isBot r.
Proof.
  intros ambient stats parser noPlugins r r'. subst r r'.
  unfold AutomationDetector.analyze.
  destruct (match parser with Some p => Some p | None => ambient end) as [p|];
    [|repeat split].
  unfold AutomationDetector.finish.
  cbn [Result.scores Result.confidence Result.isBot].
  destruct (run_scores p stats) as [-> ->].
  destruct (run_scores p (Request.with_noPlugins noPlugins stats)) as [-> ->].
  rewrite !triggered_noPlugins. repeat split.
Qed.

(* ================================================================== *)
(** * The verdicts in terms of the scores *)
(* ================================================================== *)

Section Verdicts.

(** The confidence passes a threshold of [c] percent exactly when the scores
    stand in the matching proportion. *)
Lemma confidenceOf_above (b h c : Z) :
  0 <= b -> 0 <= h -> 0 <= c ->
  (c < AutomationDetector.confidenceOf b h
   <-> 0 < b + h /\ (2 * c + 1) * (b + h) <= 200 * b).
Proof.
  intros Hb Hh Hc. rewrite confidenceOf_div.
  destruct (Z.ltb_spec 0 (b + h)) as [H|H]; [|lia].
  pose proof (Z.mul_div_le (200 * b + (b + h)) (2 * (b + h)) ltac:(lia)) as L.
  pose proof (Z.mul_succ_div_gt (200 * b + (b + h)) (2 * (b + h)) ltac:(lia)) as U.
  set (q := (200 * b + (b + h)) / (2 * (b + h))) in *.
  split.
  - intros Hq. split; [exact H|]. nia.
  - intros [_ Hq]. nia.
Qed.

Import AutomationDetector SignalCatalog.

Lemma triggered_line p stats s :
  In s (triggered p stats) -> tag s = bot -> line s <> None.
Proof.
  intros Hin Ht.
  assert (O : forall ty l fl x, In x (ofFlags ty l fl) -> line x <> None).
  { intros ty l fl x Hx. unfold ofFlags in Hx.
    apply in_map_iff in Hx. destruct Hx as (f & <- & _).
    unfold line. cbn. destruct l; discriminate. }
  assert (W : forall c x y, In x (when c y) -> x = y).
  { intros c x y Hx. destruct c; cbn in Hx; intuition. }
  solve_in O W Hin.
Qed.

Lemma total_positive (sigs : list Signal) :
  0 < total bot sigs -> exists s, In s sigs /\ tag s = bot.
Proof.
  induction sigs as [|s l IH]; [cbn; lia|].
  intros H. destruct (tag s) eqn:T.
  - exists s. split; [now left|exact T].
  - destruct IH as (x & Hx & Tx).
    + unfold total in *. cbn [filter] in H. unfold hasTag in H at 1.
      rewrite T in H. exact H.
    + exists x. split; [now right|exact Tx].
Qed.

End Verdicts.

(** X16. The verdicts in terms of the scores.  [analyze] returns isBot =
    true exactly when botScore is positive and 59 * botScore >= 141 *
    humanScore (a rounded probability above 70%);
    [analyzeLogin] returns isBot = true exactly when botScore >= 3, or
    botScore is positive and 79 * botScore >= 121 * humanScore (above
    60%). *)
Theorem X16_verdict_in_scores :
  (forall ambient stats parser s,
      let r := AutomationDetector.analyze ambient stats parser in
      Result.scores r = Some s ->
      (Result.isBot r = true
       <-> 0 < Scores.bot s /\ 141 * Scores.human s <= 59 * Scores.bot s))
  /\ (forall stats,
         let r := TypingAnalyzer.analyzeLogin stats in
         let s := TypingAnalyzer.Result.scores r in
         TypingAnalyzer.Result.isBot r = true
         <-> 3 <= Scores.bot s
             \/ (0 < Scores.bot s /\ 121 * Scores.human s <= 79 * Scores.bot s)).
Proof.
  split.
  - intros ambient stats parser s r. subst r.
    unfold AutomationDetector.analyze.
    destruct (match parser with Some p => Some p | None => ambient end) as [p|];
      [|discriminate].
    unfold AutomationDetector.finish.
    cbn [Result.scores Result.isBot]. intros [= <-].
    cbn [Scores.bot Scores.human].
    destruct (run_scores p stats) as [-> ->].
    destruct (triggered_bounds p stats) as [Hb Hh].
    unfold AutomationDetector.thresholds.decision.botProbabilityThreshold.
    rewrite Z.ltb_lt, (confidenceOf_above _ _ 70) by lia. lia.
  - intros stats r s. subst r s.
    unfold TypingAnalyzer.analyzeLogin. cbv zeta.
    cbn [TypingAnalyzer.Result.scores TypingAnalyzer.Result.isBot
         Scores.bot Scores.human].
    destruct (legacy_run_bounds stats) as [Hb Hh].
    rewrite legacy_confidenceOf, orb_true_iff, Z.leb_le, Z.ltb_lt,
      (confidenceOf_above _ _ 60) by lia.
    lia.
Qed.

Lemma X16_verdict_in_scores_witness :
  Result.isBot (AutomationDetector.analyze None stats_selenium
                                           (Some TypingParser_object)) = true
  <-> 0 < 5 /\ 141 * 0 <= 59 * 5.
Proof.
  exact (proj1 X16_verdict_in_scores None stats_selenium
               (Some TypingParser_object) (Scores.mk 5 0) eq_refl).
Defined.

(** X17. A bot verdict comes with a reason: when [analyze] returns isBot =
    true, or just a positive botScore, its reasons list is not empty. *)
Theorem X17_bot_verdict_has_a_reason :
  forall ambient stats parser,
    let r := AutomationDetector.analyze ambient stats parser in
    (Result.isBot r = true \/ exists s, Result.scores r = Some s
                                        /\ 0 < Scores.bot s) ->
    Result.reasons r <> [].
Proof.
  intros ambient stats parser r. subst r.
  unfold AutomationDetector.analyze.
  destruct (match parser with Some p => Some p | None => ambient end) as [p|].
  2:{ intros [H|(s & H & _)]; discriminate. }
  unfold AutomationDetector.finish.
  cbn [Result.scores Result.isBot Result.reasons].
  destruct (accounts_run p stats) as (Hb & Hh & Hr).
  destruct (triggered_bounds p stats) as [Bb Bh].
  rewrite Hb, Hh, Hr.
  intros H.
  assert (P : 0 < SignalCatalog.total bot (SignalCatalog.triggered p stats)).
  { destruct H as [H|(s & [= <-] & H)]; [|exact H].
    unfold AutomationDetector.thresholds.decision.botProbabilityThreshold in H.
    apply Z.ltb_lt in H. apply (confidenceOf_above _ _ 70) in H; lia. }
  destruct (total_positive _ P) as (s & Hin & Ht).
  pose proof (triggered_line p stats s Hin Ht) as N.
  apply in_split in Hin. destruct Hin as (l1 & l2 & E). rewrite E.
  rewrite botLines_app. unfold SignalCatalog.botLines at 2.
  cbn [flat_map]. rewrite Ht.
  destruct (SignalCatalog.line s); [|congruence].
  intros C. apply app_eq_nil in C. destruct C as [_ C]. discriminate.
Qed.

Lemma X17_bot_verdict_has_a_reason_witness :
  Result.reasons (AutomationDetector.analyze None stats_selenium
                                             (Some TypingParser_object)) <> [] /\ True.
Proof.
  split; [|exact I].
  apply (X17_bot_verdict_has_a_reason None stats_selenium
                                      (Some TypingParser_object)).
  left. vm_compute. reflexivity.
Defined.

(* ================================================================== *)
(** * Missing data and the two decoders *)
(* ================================================================== *)

(** X18. Missing seek data reads as the fastest typing: on a decoded pattern
    without any positive seek time (segments that are 0, negative or not
    numbers), the seek average is 0 and [analyzeFieldTyping] raises
    "Extremely short key interval (0ms < 30ms)" with weight 3 as its first
    bot flag, and no human flag for the key interval or for long pauses. *)
Theorem X18_missing_seek_times_are_flagged :
  forall patternStr p,
    TypingParser.parsePattern patternStr = Some p ->
    Raw.seekTimes (Pattern.raw p) = [] ->
    let a := AutomationDetector.analyzeFieldTyping (Some p) in
    FieldAnalysis.valid a = true
    /\ (exists rest,
           FieldAnalysis.botFlags a
           = AutomationDetector.plainFlag
               3 "Extremely short key interval (0ms < 30ms)" :: rest)
    /\ (FieldAnalysis.humanFlags a = []
        \/ FieldAnalysis.humanFlags a
           = [AutomationDetector.plainFlag
                1 (AutomationDetector.tpl
                     ["Normal key press ("%string;
                      JS.show (FieldStats.avg (Pattern.pressTime p));
                      "ms)"%string])]).
Proof.
  intros patternStr p H E a. subst a.
  destruct (parsePattern_shape _ _ H) as (ks & Hk & Hp). cbv zeta in Hp.
  rewrite Hp in E. cbn [Pattern.raw Raw.seekTimes] in E.
  rewrite E in Hp. cbn [filter List.length TypingParser.calcStats] in Hp.
  rewrite Hp. unfold AutomationDetector.analyzeFieldTyping.
  cbn [Pattern.keystrokeCount Pattern.seekTime Pattern.pressTime
       Pattern.longPauses].
  destruct (Z.eqb_spec (Z.of_nat (List.length ks)) 0) as [Z0|_].
  { destruct ks; [congruence|cbn in Z0; lia]. }
  cbv zeta.
  cbn [FieldAnalysis.valid FieldAnalysis.botFlags FieldAnalysis.humanFlags
       FieldStats.avg FieldStats.zero].
  split; [reflexivity|]. split.
  - change (0 <? AutomationDetector.thresholds.seekTime.tooFast) with true.
    cbn iota. eexists. reflexivity.
  - change (AutomationDetector.thresholds.seekTime.humanMin <? 0) with false.
    change (0 <? Z.of_nat 0) with false.
    cbn [AutomationDetector.pushIf app].
    destruct (AutomationDetector.thresholds.pressTime.humanMin <? _);
      [right|left]; reflexivity.
Qed.

Lemma X18_missing_seek_times_are_flagged_witness :
  exists p rest,
    TypingParser.parsePattern (Some "v1|,55|x,48|0,51"%string) = Some p
    /\ FieldAnalysis.botFlags (AutomationDetector.analyzeFieldTyping (Some p))
       = AutomationDetector.plainFlag
           3 "Extremely short key interval (0ms < 30ms)" :: rest.
Proof.
  eexists.
  destruct (X18_missing_seek_times_are_flagged
              (Some "v1|,55|x,48|0,51"%string) _ eq_refl eq_refl)
    as (_ & (rest & Hr) & _).
  exists rest. split; [reflexivity|exact Hr].
Defined.

Section TwoDecoders.

Lemma legacy_calcStats (arr : list Z) :
  TypingAnalyzer.calcStats arr = Legacy.stats (TypingParser.calcStats arr).
Proof. destruct arr; reflexivity. Qed.

Lemma length_pushIf (c : bool) (f : Flag.t) :
  List.length (AutomationDetector.pushIf c f) = if c then 1%nat else 0%nat.
Proof. destruct c; reflexivity. Qed.

Lemma length_legacy_pushIf (ty : Tag) (c : bool) (f : TypingAnalyzer.Flag.t) :
  List.length (filter (TypingAnalyzer.isType ty) (TypingAnalyzer.pushIf c f))
  = if c && TypingAnalyzer.isType ty f then 1%nat else 0%nat.
Proof. destruct c; cbn; [destruct (TypingAnalyzer.isType ty f)|]; reflexivity. Qed.

End TwoDecoders.

(** X19. The two decoders agree: [TypingAnalyzer.parsePattern] returns null
    where [TypingParser.parsePattern] does, and otherwise the same pattern
    without the [range] of the two summaries.  On such a pair of patterns the
    two [analyzeFieldTyping] raise the same number of human flags, and
    [AutomationDetector] raises the bot flags of [TypingAnalyzer] plus the
    narrow-range flag, which [TypingAnalyzer] does not have. *)
Theorem X19_decoders_agree :
  (forall patternStr,
      TypingAnalyzer.parsePattern patternStr
      = option_map Legacy.pattern (TypingParser.parsePattern patternStr))
  /\ (forall p,
         let a := AutomationDetector.analyzeFieldTyping (Some p) in
         let l := TypingAnalyzer.analyzeFieldTyping (Some (Legacy.pattern p)) in
         FieldAnalysis.valid a = TypingAnalyzer.FieldAnalysis.valid l
         /\ List.length (FieldAnalysis.humanFlags a)
            = List.length (TypingAnalyzer.FieldAnalysis.humanFlags l)
         /\ List.length (FieldAnalysis.botFlags a)
            = (List.length (TypingAnalyzer.FieldAnalysis.botFlags l)
               + if (FieldStats.range (Pattern.seekTime p) <? 100)%Z
                    && (5 <? Pattern.keystrokeCount p)%Z
                 then 1 else 0)%nat).
Proof.
  split.
  - intros patternStr.
    unfold TypingAnalyzer.parsePattern, TypingParser.parsePattern.
    destruct patternStr as [[|c r]|]; try reflexivity.
    change TypingAnalyzer.parseSegment with TypingParser.parseSegment.
    destruct (List.length (JS.split "|" (String c r)) <? 2)%nat; [reflexivity|].
    cbv zeta. rewrite !legacy_calcStats. reflexivity.
  - intros p a l. subst a l.
    unfold AutomationDetector.analyzeFieldTyping,
      TypingAnalyzer.analyzeFieldTyping, Legacy.pattern, Legacy.stats.
    cbn [TypingAnalyzer.Pattern.keystrokeCount TypingAnalyzer.Pattern.seekTime
         TypingAnalyzer.Pattern.pressTime TypingAnalyzer.Pattern.longPauses
         TypingAnalyzer.FieldStats.avg TypingAnalyzer.FieldStats.std].
    destruct (Z.eqb_spec (Pattern.keystrokeCount p) 0) as [Z0|_].
    { rewrite Z0. rewrite andb_false_r. repeat split. }
    cbv zeta.
    cbn [FieldAnalysis.valid FieldAnalysis.botFlags FieldAnalysis.humanFlags
         TypingAnalyzer.FieldAnalysis.valid TypingAnalyzer.FieldAnalysis.botFlags
         TypingAnalyzer.FieldAnalysis.humanFlags].
    unfold AutomationDetector.thresholds.seekTime.tooFast,
      AutomationDetector.thresholds.seekTime.botMax,
      AutomationDetector.thresholds.seekTime.uniformStdMax,
      AutomationDetector.thresholds.seekTime.humanMin,
      AutomationDetector.thresholds.pressTime.botMax,
      AutomationDetector.thresholds.pressTime.uniformStdMax,
      AutomationDetector.thresholds.pressTime.humanMin,
      AutomationDetector.thresholds.antiBot.seekTimeMinRange,
      TypingAnalyzer.thresholds.seekTime.tooFast,
      TypingAnalyzer.thresholds.seekTime.botMax,
      TypingAnalyzer.thresholds.seekTime.uniformStdMax,
      TypingAnalyzer.thresholds.seekTime.humanMin,
      TypingAnalyzer.thresholds.pressTime.botMax,
      TypingAnalyzer.thresholds.pressTime.uniformStdMax,
      TypingAnalyzer.thresholds.pressTime.humanMin.
    rewrite ?filter_app, ?length_app.
    assert (F : forall (c1 c2 : bool) (f f' : Flag.t),
               List.length (if c1 then [f] else AutomationDetector.pushIf c2 f')
               = if c1 || c2 then 1%nat else 0%nat)
      by (intros [] [] f f'; reflexivity).
    assert (G : forall ty (c1 c2 : bool) (f f' : TypingAnalyzer.Flag.t),
               List.length (filter (TypingAnalyzer.isType ty)
                                   (if c1 then [f]
                                    else TypingAnalyzer.pushIf c2 f'))
               = if c1 then (if TypingAnalyzer.isType ty f then 1%nat else 0%nat)
                 else if c2 && TypingAnalyzer.isType ty f' then 1%nat else 0%nat).
    { intros ty [] c2 f f'; [cbn; destruct (TypingAnalyzer.isType ty f)|];
        [reflexivity..|apply length_legacy_pushIf]. }
    rewrite F, !G, !length_pushIf, !length_legacy_pushIf.
    cbn [TypingAnalyzer.isType TypingAnalyzer.Flag.type].
    rewrite ?andb_false_r, ?andb_true_r.
    split; [reflexivity|]. split.
    + destruct (FieldStats.avg (Pattern.seekTime p) <? 30); cbn [Nat.add]; lia.
    + destruct (FieldStats.avg (Pattern.seekTime p) <? 30);
        cbn [orb]; lia.
Qed.

(* ================================================================== *)
(** * Mouse timing and the report *)
(* ================================================================== *)

Section MouseTiming.

Import TypingParser.





End MouseTiming.



(** X21. [generateReport] fails without a decoder: with neither a [parser]
    argument nor an ambient [TypingParser], [analyze] returns its degraded
    result, which has no [scores], and reading [analysis.scores.bot] throws a
    TypeError.  With a decoder the call always returns a report. *)
Theorem X21_generateReport_needs_a_decoder :
  forall ambient stats parser,
    Report.generateReport ambient stats parser = Report.TypeError
    <-> parser = None /\ ambient = None.
Proof.
  intros ambient stats parser. unfold Report.generateReport.
  unfold AutomationDetector.analyze.
  destruct parser as [p|]; [|destruct ambient as [p|]].
  - cbv zeta. unfold AutomationDetector.finish.
    cbn [Result.scores Result.details].
    split; [discriminate|]. intros [H _]. discriminate.
  - cbv zeta. unfold AutomationDetector.finish.
    cbn [Result.scores Result.details].
    split; [discriminate|]. intros [_ H]. discriminate.
  - cbv zeta. cbn [Result.scores]. split; [now split|reflexivity].
Qed.
